(** * Resonator-spectroscopy outcome classification

    A shallow embedding of
    [calibration_utils/resonator_spectroscopy/analysis.py]: the result
    logger, the per-qubit metric extractor, the outcome classifier and the
    validation pipeline that calls them, together with the properties its
    specification states about them and further properties of the code.

    Python [float]s are IEEE binary64 numbers: they are Rocq's primitive
    floats here, with the comparison, product, quotient and difference of
    the processor, so that the embedding computes what the interpreter
    computes. *)

From Stdlib Require Import ZArith QArith String Ascii List Bool.
From Stdlib Require Import Reals Lra Psatz.
From Stdlib Require Import Floats DecimalString Lia.
Import ListNotations.

Set Warnings "-inexact-float".
Local Open Scope string_scope.

(** ** Exceptions and results *)

(** A raised exception: its class name and its argument (the missing key
    or attribute, or the message). *)
Record py_exception : Type := PyExc { exc_class : string; exc_arg : string }.

Inductive result (A : Type) : Type :=
| Ok (a : A)
| Raise (e : py_exception).

Arguments Ok {A} a.
Arguments Raise {A} e.

Definition bind {A B : Type} (r : result A) (k : A -> result B) : result B :=
  match r with
  | Ok a => k a
  | Raise e => Raise e
  end.

Notation "x <- r ;; k" := (bind r (fun x => k))
  (at level 61, r at next level, right associativity).

Definition KeyError (key : string) : py_exception := PyExc "KeyError" key.
Definition AttributeError (name : string) : py_exception := PyExc "AttributeError" name.
Definition TypeError (msg : string) : py_exception := PyExc "TypeError" msg.
Definition ValueError (msg : string) : py_exception := PyExc "ValueError" msg.
Definition ZeroDivisionError : py_exception :=
  PyExc "ZeroDivisionError" "float division by zero".

(** [d[key]] on a dict whose keys are strings. *)
Fixpoint dict_get {V : Type} (d : list (string * V)) (key : string) : option V :=
  match d with
  | [] => None
  | (k, v) :: rest => if String.eqb k key then Some v else dict_get rest key
  end.

Definition getitem {V : Type} (d : list (string * V)) (key : string) : result V :=
  match dict_get d key with
  | Some v => Ok v
  | None => Raise (KeyError key)
  end.

(** ** Floats *)

(** *** Fixed-point formatting *)

Definition Z_to_string (z : Z) : string :=
  NilZero.string_of_uint (N.to_uint (Z.to_N z)).

Fixpoint zeros (n : nat) : string :=
  match n with
  | O => ""
  | S k => "0" ++ zeros k
  end.

Definition pad_left (width : nat) (s : string) : string :=
  zeros (width - String.length s) ++ s.

(** Nearest integer to a non-negative rational, ties to even. *)
Definition round_half_even (q : Q) : Z :=
  let n := Qnum q in
  let d := Zpos (Qden q) in
  let fl := (n / d)%Z in
  match (2 * (n mod d) ?= d)%Z with
  | Lt => fl
  | Gt => (fl + 1)%Z
  | Eq => if Z.even fl then fl else (fl + 1)%Z
  end.

(** The digits of [format(q, '.nf')] for [q >= 0]. *)
Definition format_fixed_abs (digits : nat) (q : Q) : string :=
  let scale := (10 ^ Z.of_nat digits)%Z in
  let r := round_half_even (q * (scale # 1)) in
  match digits with
  | O => Z_to_string r
  | _ => Z_to_string (r / scale) ++ "." ++ pad_left digits (Z_to_string (r mod scale))
  end.

(** The rational a finite binary64 number denotes. *)
Definition SF2Q (x : spec_float) : Q :=
  match x with
  | S754_finite s m e =>
      let v := match e with
               | Z0 => Zpos m # 1
               | Zpos p => (Zpos m * 2 ^ Zpos p) # 1
               | Zneg p => Zpos m # (2 ^ p)
               end in
      if s then Qopp v else v
  | _ => 0
  end.

(** [format(x, '.nf')]. *)
Definition float_format (digits : nat) (x : float) : string :=
  match Prim2SF x with
  | S754_nan => "nan"
  | S754_infinity s => if s then "-inf" else "inf"
  | S754_zero s => (if s then "-" else "") ++ format_fixed_abs digits 0
  | S754_finite s m e =>
      (if s then "-" else "") ++ format_fixed_abs digits (SF2Q (S754_finite false m e))
  end.

(** ** Python operators on floats *)

(** [<], [>], [==] and [>=] read the IEEE comparison of the pair, which is
    [FNotComparable] when one of them is NaN. *)

Definition py_lt (x y : float) : bool :=
  match PrimFloat.compare x y with FLt => true | _ => false end.

Definition py_gt (x y : float) : bool :=
  match PrimFloat.compare x y with FGt => true | _ => false end.

Definition py_eq (x y : float) : bool :=
  match PrimFloat.compare x y with FEq => true | _ => false end.

Definition py_ge (x y : float) : bool :=
  match PrimFloat.compare x y with FGt | FEq => true | _ => false end.

(** [x / y]: raises [ZeroDivisionError] when [y == 0]. *)
Definition py_truediv (x y : float) : result float :=
  if py_eq y 0%float then Raise ZeroDivisionError else Ok (PrimFloat.div x y).

(** ** Analysis constants *)

Definition SNR_MIN : float := 2.5%float.
Definition SNR_DISTORTED : float := 5.0%float.
Definition ASYMMETRY_MIN : float := 0.4%float.
Definition ASYMMETRY_MAX : float := 2.5%float.
Definition SKEWNESS_MAX : float := 1.5%float.
Definition DISTORTED_FRACTION_LOW_SNR : float := 0.2%float.
Definition DISTORTED_FRACTION_HIGH_SNR : float := 0.3%float.
Definition FWHM_ABSOLUTE_THRESHOLD_HZ : float := 1e6%float.
Definition NRMSE_THRESHOLD : float := 0.14%float.
Definition R_SQUARED_THRESHOLD : float := 0.90%float.

(** ** The outcome classifier *)

(** The metrics dict that [_extract_qubit_fit_metrics] builds and
    [_determine_resonator_outcome] reads, one field per key. *)
Record Metrics : Type := {
  num_peaks : Z;
  snr : float;
  fwhm : float;
  sweep_span : float;
  asymmetry : float;
  skewness : float;
  opx_bandwidth_artifact : bool;
  nrmse : float;
  r_squared : float
}.

(** The outcome strings, in the order the cascade can return them. *)
Definition outcome_successful : string := "successful".
Definition outcome_low_snr : string :=
  "The SNR isn't large enough, consider increasing the number of shots".
Definition outcome_artifact : string :=
  "OPX bandwidth artifact detected, check your experiment bandwidth settings".
Definition outcome_several_peaks : string := "Several peaks were detected".
Definition outcome_no_peaks_low_snr : string :=
  "The SNR isn't large enough, consider increasing the number of shots "
  ++ "and ensure you are looking at the correct frequency range".
Definition outcome_no_peaks : string :=
  "No peaks were detected, consider changing the frequency range".
Definition outcome_shape_distorted : string := "The peak shape is distorted".
Definition outcome_low_snr_distorted : string :=
  "The SNR isn't large enough and the peak shape is distorted".
Definition outcome_distorted_peak : string := "Distorted peak detected".

(** The eight threshold parameters of the signature of
    [_determine_resonator_outcome]. *)
Definition threshold_parameter_names : list string :=
  [ "snr_min"; "snr_distorted"; "asymmetry_min"; "asymmetry_max"; "skewness_max";
    "distorted_fraction_low_snr"; "distorted_fraction_high_snr";
    "fwhm_absolute_threshold" ].

(** [None] stands for Python's [None]. *)
Definition _is_peak_shape_distorted
  (asymmetry skewness : option float) (asymmetry_min asymmetry_max skewness_max : float) : bool :=
  let asymmetry_bad :=
    match asymmetry with
    | Some a => py_lt a asymmetry_min || py_gt a asymmetry_max
    | None => false
    end in
  let skewness_bad :=
    match skewness with
    | Some s => py_gt (PrimFloat.abs s) skewness_max
    | None => false
    end in
  asymmetry_bad || skewness_bad.

(** [and] evaluates its right operand, and so the division, only when
    [sweep_span > 0] holds. *)
Definition _is_peak_too_wide
  (fwhm sweep_span snr snr_distorted : float)
  (distorted_fraction_low_snr distorted_fraction_high_snr : float)
  (fwhm_absolute_threshold : float) : result bool :=
  let distorted_fraction :=
    if py_lt snr snr_distorted
    then distorted_fraction_low_snr else distorted_fraction_high_snr in
  relative_width_bad <-
    (if py_gt sweep_span 0%float
     then ratio <- py_truediv fwhm sweep_span ;; Ok (py_gt ratio distorted_fraction)
     else Ok false) ;;
  let absolute_width_bad := py_gt fwhm fwhm_absolute_threshold in
  Ok (relative_width_bad || absolute_width_bad).

Definition _determine_resonator_outcome
  (metrics : Metrics)
  (snr_min snr_distorted asymmetry_min asymmetry_max skewness_max : float)
  (distorted_fraction_low_snr distorted_fraction_high_snr : float)
  (fwhm_absolute_threshold : float) : result string :=
  let num_peaks := num_peaks metrics in
  let snr := snr metrics in
  let fwhm := fwhm metrics in
  let sweep_span := sweep_span metrics in
  let asymmetry := asymmetry metrics in
  let skewness := skewness metrics in
  let opx_bandwidth_artifact := opx_bandwidth_artifact metrics in
  let nrmse := nrmse metrics in
  let r_squared := r_squared metrics in
  if py_gt r_squared R_SQUARED_THRESHOLD && py_lt nrmse NRMSE_THRESHOLD then
    Ok outcome_successful
  else if py_lt snr snr_min then
    Ok outcome_low_snr
  else if opx_bandwidth_artifact then
    Ok outcome_artifact
  else if (num_peaks >? 1)%Z then
    Ok outcome_several_peaks
  else if (num_peaks =? 0)%Z then
    if py_lt snr snr_min then Ok outcome_no_peaks_low_snr
    else Ok outcome_no_peaks
  else if _is_peak_shape_distorted (Some asymmetry) (Some skewness)
            asymmetry_min asymmetry_max skewness_max then
    Ok outcome_shape_distorted
  else
    too_wide <- _is_peak_too_wide fwhm sweep_span snr snr_distorted
                  distorted_fraction_low_snr distorted_fraction_high_snr
                  fwhm_absolute_threshold ;;
    if too_wide then
      if py_lt snr snr_distorted then Ok outcome_low_snr_distorted
      else Ok outcome_distorted_peak
    else Ok outcome_successful.

(** *** Calling the classifier with keyword arguments *)

Definition is_parameter (name : string) : bool :=
  existsb (String.eqb name) threshold_parameter_names.

(** The value bound to a parameter: the keyword argument when the call
    gives one, the default otherwise. *)
Definition argument (kwargs : list (string * float)) (name : string) (default : float) : float :=
  match dict_get kwargs name with
  | Some v => v
  | None => default
  end.

(** [_determine_resonator_outcome(metrics, **kwargs)]: a keyword that is
    not a parameter of the signature is a [TypeError]. *)
Definition call_determine_resonator_outcome
  (metrics : Metrics) (kwargs : list (string * float)) : result string :=
  match find (fun kv => negb (is_parameter (fst kv))) kwargs with
  | Some (name, _) =>
      Raise (TypeError ("_determine_resonator_outcome() got an unexpected keyword argument '"
                        ++ name ++ "'"))
  | None =>
      _determine_resonator_outcome metrics
        (argument kwargs "snr_min" SNR_MIN)
        (argument kwargs "snr_distorted" SNR_DISTORTED)
        (argument kwargs "asymmetry_min" ASYMMETRY_MIN)
        (argument kwargs "asymmetry_max" ASYMMETRY_MAX)
        (argument kwargs "skewness_max" SKEWNESS_MAX)
        (argument kwargs "distorted_fraction_low_snr" DISTORTED_FRACTION_LOW_SNR)
        (argument kwargs "distorted_fraction_high_snr" DISTORTED_FRACTION_HIGH_SNR)
        (argument kwargs "fwhm_absolute_threshold" FWHM_ABSOLUTE_THRESHOLD_HZ)
  end.

(** ** The metric extractor *)

(** The fit dataset is an object of an external array library; the model
    keeps what [_extract_qubit_fit_metrics] reads of it.  [QubitData.t] is
    the slice [fit.sel(qubit=qubit_name)]: one field per data variable of
    the peak-detection stage, [None] when the dataset has no such variable.
    A variable holds a value of the type the peak detection writes, so
    [int(...)], [float(...)] and [bool(...)] convert nothing, and a qubit
    name labels one slice. *)
Module QubitData.
Record t : Type := {
  num_peaks : option Z;
  snr : option float;
  fwhm : option float;
  asymmetry : option float;
  skewness : option float;
  opx_bandwidth_artifact : option bool
}.
End QubitData.

(** The values of a coordinate: a [float64] or an [int64] array. *)
Inductive axis : Type :=
| FloatAxis (values : list float)
| IntAxis (values : list Z).

(** [dims]: the dimensions and their sizes; [coords]: the coordinate
    variables, over the whole dataset; [qubit]: the slices, by qubit
    name. *)
Module Dataset.
Record t : Type := {
  dims : list (string * nat);
  coords : list (string * axis);
  qubit : list (string * QubitData.t)
}.
End Dataset.

Module S21Resonator.
Record t : Type := { quality_metrics : list (string * float) }.
End S21Resonator.

(** [obj.name] for a data variable that may be absent. *)
Definition getattr {A : Type} (field : option A) (name : string) : result A :=
  match field with
  | Some v => Ok v
  | None => Raise (AttributeError name)
  end.

(** [.max()] and [.min()] of a [float64] coordinate, reductions of the
    array library that skip NaN: the greatest and the least of the other
    values, and NaN when there is no other value; an empty array has none
    and the reduction raises a [ValueError], here with the message of
    [numpy]. *)
Definition array_max (xs : list float) : result float :=
  match xs with
  | [] => Raise (ValueError "zero-size array to reduction operation fmax which has no identity")
  | _ :: _ =>
      match filter (fun x => negb (PrimFloat.is_nan x)) xs with
      | [] => Ok nan
      | x :: rest => Ok (fold_left (fun acc y => if py_gt y acc then y else acc) rest x)
      end
  end.

Definition array_min (xs : list float) : result float :=
  match xs with
  | [] => Raise (ValueError "zero-size array to reduction operation fmin which has no identity")
  | _ :: _ =>
      match filter (fun x => negb (PrimFloat.is_nan x)) xs with
      | [] => Ok nan
      | x :: rest => Ok (fold_left (fun acc y => if py_lt y acc then y else acc) rest x)
      end
  end.

(** The same reductions of an [int64] coordinate. *)
Definition int_max (zs : list Z) : result Z :=
  match zs with
  | [] => Raise (ValueError "zero-size array to reduction operation maximum which has no identity")
  | z :: rest => Ok (fold_left Z.max rest z)
  end.

Definition int_min (zs : list Z) : result Z :=
  match zs with
  | [] => Raise (ValueError "zero-size array to reduction operation minimum which has no identity")
  | z :: rest => Ok (fold_left Z.min rest z)
  end.

(** The result of an [int64] operation wraps around. *)
Definition wrap_int64 (z : Z) : Z := ((z + 2 ^ 63) mod 2 ^ 64 - 2 ^ 63)%Z.

(** [float(z)] of an integer: the nearest binary64 number. *)
Definition float_of_int (z : Z) : float :=
  SF2Prim (binary_normalize prec emax z 0 false).

(** [fit.coords[name]]: the coordinate variable of that name, and for a
    dimension that has none the positions [0 .. size - 1]. *)
Definition coords_getitem (fit : Dataset.t) (name : string) : result axis :=
  match dict_get (Dataset.coords fit) name with
  | Some values => Ok values
  | None =>
      match dict_get (Dataset.dims fit) name with
      | Some size => Ok (IntAxis (map Z.of_nat (seq 0 size)))
      | None => Raise (KeyError name)
      end
  end.

(** [float(values.max() - values.min())]: the difference is taken in the
    dtype of the coordinate, the conversion comes last. *)
Definition axis_span (values : axis) : result float :=
  match values with
  | FloatAxis xs =>
      hi <- array_max xs ;;
      lo <- array_min xs ;;
      Ok (PrimFloat.sub hi lo)
  | IntAxis zs =>
      hi <- int_max zs ;;
      lo <- int_min zs ;;
      Ok (float_of_int (wrap_int64 (hi - lo)))
  end.

Definition coord_span (fit : Dataset.t) (name : string) : result float :=
  values <- coords_getitem fit name ;;
  axis_span values.

Definition in_dims (name : string) (fit : Dataset.t) : bool :=
  existsb (String.eqb name) (map fst (Dataset.dims fit)).

(** The sweep-span block of [_extract_qubit_fit_metrics]. *)
Definition extract_sweep_span (fit : Dataset.t) : result float :=
  if in_dims "detuning" fit then coord_span fit "detuning"
  else if in_dims "full_freq" fit then coord_span fit "full_freq"
  else Ok 0.0%float.

Definition _extract_qubit_fit_metrics
  (fit : Dataset.t) (fitters : list (string * S21Resonator.t))
  (qubit_name : string) : result Metrics :=
  qubit_data <- getitem (Dataset.qubit fit) qubit_name ;;
  fitter <- getitem fitters qubit_name ;;
  sweep_span <- extract_sweep_span fit ;;
  v_num_peaks <- getattr (QubitData.num_peaks qubit_data) "num_peaks" ;;
  v_snr <- getattr (QubitData.snr qubit_data) "snr" ;;
  v_fwhm <- getattr (QubitData.fwhm qubit_data) "fwhm" ;;
  v_asymmetry <- getattr (QubitData.asymmetry qubit_data) "asymmetry" ;;
  v_skewness <- getattr (QubitData.skewness qubit_data) "skewness" ;;
  v_artifact <- getattr (QubitData.opx_bandwidth_artifact qubit_data) "opx_bandwidth_artifact" ;;
  v_nrmse <- getitem (S21Resonator.quality_metrics fitter) "nrmse" ;;
  v_r_squared <- getitem (S21Resonator.quality_metrics fitter) "r_squared" ;;
  Ok {| num_peaks := v_num_peaks;
        snr := v_snr;
        fwhm := v_fwhm;
        sweep_span := sweep_span;
        asymmetry := v_asymmetry;
        skewness := v_skewness;
        opx_bandwidth_artifact := negb v_artifact;
        nrmse := v_nrmse;
        r_squared := v_r_squared |}.

(** The required fields that a slice and a fitter lack, in the order the
    extractor reads them. *)
Definition absent {A : Type} (field : option A) (name : string) : list string :=
  match field with
  | Some _ => []
  | None => [name]
  end.

Definition missing_fields (qubit_data : QubitData.t) (fitter : S21Resonator.t) : list string :=
  absent (QubitData.num_peaks qubit_data) "num_peaks"
  ++ absent (QubitData.snr qubit_data) "snr"
  ++ absent (QubitData.fwhm qubit_data) "fwhm"
  ++ absent (QubitData.asymmetry qubit_data) "asymmetry"
  ++ absent (QubitData.skewness qubit_data) "skewness"
  ++ absent (QubitData.opx_bandwidth_artifact qubit_data) "opx_bandwidth_artifact"
  ++ absent (dict_get (S21Resonator.quality_metrics fitter) "nrmse") "nrmse"
  ++ absent (dict_get (S21Resonator.quality_metrics fitter) "r_squared") "r_squared".

(** The error a missing required field raises: the two quality metrics
    are dict keys, the others are attributes of the slice. *)
Definition lookup_error (name : string) : py_exception :=
  if existsb (String.eqb name) ["nrmse"; "r_squared"]
  then KeyError name else AttributeError name.

(** ** The result logger *)

Module FitParameters.
Record t : Type := {
  frequency : float;
  fwhm : float;
  outcome : string
}.
End FitParameters.

(** A value of [fit_results]: a [FitParameters] object, or a dict read
    with [.get]; a dict field is [None] when the key is missing. *)
Module LooseRecord.
Record t : Type := {
  frequency : option float;
  fwhm : option float;
  outcome : option string
}.
End LooseRecord.

Inductive fit_result : Type :=
| Structured (p : FitParameters.t)
| Loose (d : LooseRecord.t).

Definition newline : string := String "010"%char EmptyString.
Definition tab : string := String "009"%char EmptyString.

(** [d.get(key, default)]. *)
Definition get_default {A : Type} (field : option A) (default : A) : A :=
  match field with
  | Some v => v
  | None => default
  end.

(** The three values one loop iteration formats. *)
Definition logged_fields (results : fit_result) : string * float * float :=
  match results with
  | Structured p =>
      (FitParameters.outcome p, FitParameters.frequency p, FitParameters.fwhm p)
  | Loose d =>
      (get_default (LooseRecord.outcome d) "unknown",
       get_default (LooseRecord.frequency d) 0.0%float,
       get_default (LooseRecord.fwhm d) 0.0%float)
  end.

(** The argument of [log_callable] in one loop iteration. *)
Definition log_message (qubit_name : string) (results : fit_result) : string :=
  let status_line := "Results for qubit " ++ qubit_name ++ ": " in
  let '(outcome, frequency, fwhm) := logged_fields results in
  let status_line :=
    if String.eqb outcome "successful"
    then status_line ++ (" SUCCESS!" ++ newline)
    else status_line ++ (" FAIL! Reason: " ++ outcome ++ newline) in
  let freq_str :=
    tab ++ "Resonator frequency: " ++ float_format 3 (PrimFloat.mul frequency 1e-9%float) ++ " GHz | " in
  let fwhm_str := "FWHM: " ++ float_format 1 (PrimFloat.mul fwhm 1e-3%float) ++ " kHz | " in
  (status_line ++ freq_str) ++ fwhm_str.

(** [log_fitted_results]: the messages passed to [log_callable], in call
    order; [fit_results] lists the dict's items in insertion order. *)
Definition log_fitted_results (fit_results : list (string * fit_result)) : list string :=
  map (fun item => log_message (fst item) (snd item)) fit_results.

(** The message as the code builds it, in one expression. *)
Definition message_format (qubit_name outcome : string) (frequency fwhm : float) : string :=
  "Results for qubit " ++ qubit_name ++ ":  "
  ++ (if String.eqb outcome "successful" then "SUCCESS!" else "FAIL! Reason: " ++ outcome)
  ++ newline ++ tab
  ++ "Resonator frequency: " ++ float_format 3 (PrimFloat.mul frequency 1e-9%float) ++ " GHz | "
  ++ "FWHM: " ++ float_format 1 (PrimFloat.mul fwhm 1e-3%float) ++ " kHz | ".

(** ** The validation pipeline *)

(** [d[key] = v] on a dict: the value of an existing key is replaced in
    place, a new key is added at the end. *)
Fixpoint dict_set {V : Type} (d : list (string * V)) (key : string) (v : V)
  : list (string * V) :=
  match d with
  | [] => [(key, v)]
  | (k, w) :: rest =>
      if String.eqb k key then (k, v) :: rest else (k, w) :: dict_set rest key v
  end.

(** An attribute of the dataset: a text, or the fitted models. *)
Inductive attr_value : Type :=
| TextAttr (text : string)
| ModelsAttr (fitters : list (string * S21Resonator.t)).

(** The slice of one qubit during validation: the variables of the peak
    detection, and the coordinates [res_freq] and [outcome] along the qubit
    dimension, [None] before they are assigned. *)
Module FitSlice.
Record t : Type := {
  peaks : QubitData.t;
  res_freq : option float;
  outcome : option string
}.
End FitSlice.

(** The fit dataset during validation.  [qubit] lists the slices in the
    order of the qubit dimension; [attrs] are the attributes of the
    dataset and [variable_attrs] those of its variables. *)
Module FitDataset.
Record t : Type := {
  dims : list (string * nat);
  coords : list (string * axis);
  qubit : list (string * FitSlice.t);
  attrs : list (string * attr_value);
  variable_attrs : list (string * list (string * string))
}.
End FitDataset.

(** What [_extract_qubit_fit_metrics] reads of the fit dataset. *)
Definition dataset_of (fit : FitDataset.t) : Dataset.t :=
  {| Dataset.dims := FitDataset.dims fit;
     Dataset.coords := FitDataset.coords fit;
     Dataset.qubit :=
       map (fun item => (fst item, FitSlice.peaks (snd item))) (FitDataset.qubit fit) |}.

(** [fit.qubit.values]. *)
Definition qubit_values (fit : FitDataset.t) : list string :=
  map fst (FitDataset.qubit fit).

Definition set_res_freq (slice : FitSlice.t) (value : float) : FitSlice.t :=
  {| FitSlice.peaks := FitSlice.peaks slice;
     FitSlice.res_freq := Some value;
     FitSlice.outcome := FitSlice.outcome slice |}.

Definition set_fwhm (slice : FitSlice.t) (value : float) : FitSlice.t :=
  let peaks := FitSlice.peaks slice in
  {| FitSlice.peaks :=
       {| QubitData.num_peaks := QubitData.num_peaks peaks;
          QubitData.snr := QubitData.snr peaks;
          QubitData.fwhm := Some value;
          QubitData.asymmetry := QubitData.asymmetry peaks;
          QubitData.skewness := QubitData.skewness peaks;
          QubitData.opx_bandwidth_artifact := QubitData.opx_bandwidth_artifact peaks |};
     FitSlice.res_freq := FitSlice.res_freq slice;
     FitSlice.outcome := FitSlice.outcome slice |}.

Definition set_outcome (slice : FitSlice.t) (value : string) : FitSlice.t :=
  {| FitSlice.peaks := FitSlice.peaks slice;
     FitSlice.res_freq := FitSlice.res_freq slice;
     FitSlice.outcome := Some value |}.

Definition with_qubit (fit : FitDataset.t) (slices : list (string * FitSlice.t))
  : FitDataset.t :=
  {| FitDataset.dims := FitDataset.dims fit;
     FitDataset.coords := FitDataset.coords fit;
     FitDataset.qubit := slices;
     FitDataset.attrs := FitDataset.attrs fit;
     FitDataset.variable_attrs := FitDataset.variable_attrs fit |}.

Definition with_attrs (fit : FitDataset.t) (attrs : list (string * attr_value))
  : FitDataset.t :=
  {| FitDataset.dims := FitDataset.dims fit;
     FitDataset.coords := FitDataset.coords fit;
     FitDataset.qubit := FitDataset.qubit fit;
     FitDataset.attrs := attrs;
     FitDataset.variable_attrs := FitDataset.variable_attrs fit |}.

(** [fit.<name>.attrs = attrs]. *)
Definition with_variable_attrs (fit : FitDataset.t) (name : string)
  (attrs : list (string * string)) : FitDataset.t :=
  {| FitDataset.dims := FitDataset.dims fit;
     FitDataset.coords := FitDataset.coords fit;
     FitDataset.qubit := FitDataset.qubit fit;
     FitDataset.attrs := FitDataset.attrs fit;
     FitDataset.variable_attrs := dict_set (FitDataset.variable_attrs fit) name attrs |}.

(** [fit.assign_coords(name=("qubit", values))]: the values go to the
    positions of the qubit dimension, in order, and their number must be
    the size of the dimension. *)
Definition assign_coords {A : Type} (set : FitSlice.t -> A -> FitSlice.t)
  (fit : FitDataset.t) (values : list A) : result FitDataset.t :=
  if Nat.eqb (length values) (length (FitDataset.qubit fit)) then
    Ok (with_qubit fit
          (map (fun pair => (fst (fst pair), set (snd (fst pair)) (snd pair)))
             (combine (FitDataset.qubit fit) values)))
  else Raise (ValueError "conflicting sizes for dimension 'qubit'").

(** [[fit_results[qubit][field] for qubit in fit_results]], over the keys
    of [fit_results]. *)
Fixpoint collect (fit_results : list (string * list (string * float)))
  (keys : list string) (field : string) : result (list float) :=
  match keys with
  | [] => Ok []
  | qubit :: rest =>
      entry <- getitem fit_results qubit ;;
      value <- getitem entry field ;;
      values <- collect fit_results rest field ;;
      Ok (value :: values)
  end.

(** The loop of [_extract_and_validate_fit_parameters] over the qubit
    names: [fit_results] and [outcomes] are the dict and the list it
    fills. *)
Fixpoint validate_qubits (fit : FitDataset.t) (fitters : list (string * S21Resonator.t))
  (names : list string) (fit_results : list (string * FitParameters.t))
  (outcomes : list string) : result (list (string * FitParameters.t) * list string) :=
  match names with
  | [] => Ok (fit_results, outcomes)
  | qubit_name :: rest =>
      fit_metrics <- _extract_qubit_fit_metrics (dataset_of fit) fitters qubit_name ;;
      outcome <- call_determine_resonator_outcome fit_metrics [] ;;
      let outcomes := (outcomes ++ [outcome])%list in
      slice <- getitem (FitDataset.qubit fit) qubit_name ;;
      frequency <- getattr (FitSlice.res_freq slice) "res_freq" ;;
      slice <- getitem (FitDataset.qubit fit) qubit_name ;;
      fwhm <- getattr (QubitData.fwhm (FitSlice.peaks slice)) "fwhm" ;;
      let fit_results :=
        dict_set fit_results qubit_name
          {| FitParameters.frequency := frequency;
             FitParameters.fwhm := fwhm;
             FitParameters.outcome := outcome |} in
      validate_qubits fit fitters rest fit_results outcomes
  end.

(** What one iteration of the loop stores for [qubit_name]. *)
Definition validate_qubit (fit : FitDataset.t) (fitters : list (string * S21Resonator.t))
  (qubit_name : string) : result FitParameters.t :=
  fit_metrics <- _extract_qubit_fit_metrics (dataset_of fit) fitters qubit_name ;;
  outcome <- call_determine_resonator_outcome fit_metrics [] ;;
  slice <- getitem (FitDataset.qubit fit) qubit_name ;;
  frequency <- getattr (FitSlice.res_freq slice) "res_freq" ;;
  fwhm <- getattr (QubitData.fwhm (FitSlice.peaks slice)) "fwhm" ;;
  Ok {| FitParameters.frequency := frequency;
        FitParameters.fwhm := fwhm;
        FitParameters.outcome := outcome |}.

(** The dict that the loop fills from [fit_results], given what each
    iteration stores. *)
Definition store_all (fit_results : list (string * FitParameters.t))
  (stored : list (string * FitParameters.t)) : list (string * FitParameters.t) :=
  fold_left (fun d item => dict_set d (fst item) (snd item)) stored fit_results.

Section Pipeline.

(** The raw dataset, the node, and the functions of the analysis library
    that the pipeline calls. *)
Variables RawDataset DataArray QualibrationNode : Type.
Variable circle_fit_s21_resonator_model :
  RawDataset ->
  result (list (string * list (string * float)) * list (string * S21Resonator.t)).
Variable IQ_abs : RawDataset -> result DataArray.
Variable peaks_dips : DataArray -> string -> result FitDataset.t.

Definition _calculate_resonator_parameters
  (ds : RawDataset) (fit : FitDataset.t) (node : QualibrationNode)
  : result (FitDataset.t * list (string * S21Resonator.t)) :=
  let fit := with_attrs fit [("long_name", TextAttr "frequency"); ("units", TextAttr "Hz")] in
  fitted <- circle_fit_s21_resonator_model ds ;;
  let fit_results := fst fitted in
  let fitters := snd fitted in
  frequencies <- collect fit_results (map fst fit_results) "frequency" ;;
  fit <- assign_coords set_res_freq fit frequencies ;;
  let fit :=
    with_variable_attrs fit "res_freq"
      [("long_name", "resonator frequency"); ("units", "Hz")] in
  widths <- collect fit_results (map fst fit_results) "fwhm" ;;
  fit <- assign_coords set_fwhm fit widths ;;
  let fit :=
    with_variable_attrs fit "fwhm" [("long_name", "resonator fwhm"); ("units", "Hz")] in
  let fit :=
    with_attrs fit (dict_set (FitDataset.attrs fit) "s21_models" (ModelsAttr fitters)) in
  Ok (fit, fitters).

Definition _extract_and_validate_fit_parameters
  (ds : RawDataset) (fit : FitDataset.t) (node : QualibrationNode)
  : result (FitDataset.t * list (string * FitParameters.t)) :=
  calculated <- _calculate_resonator_parameters ds fit node ;;
  let fit := fst calculated in
  let fitters := snd calculated in
  validated <- validate_qubits fit fitters (qubit_values fit) [] [] ;;
  let fit_results := fst validated in
  let outcomes := snd validated in
  fit <- assign_coords set_outcome fit outcomes ;;
  let fit :=
    with_variable_attrs fit "outcome" [("long_name", "fit outcome"); ("units", "")] in
  Ok (fit, fit_results).

Definition fit_raw_data (ds : RawDataset) (node : QualibrationNode)
  : result (FitDataset.t * list (string * FitParameters.t)) :=
  amplitude <- IQ_abs ds ;;
  fit_dataset <- peaks_dips amplitude "detuning" ;;
  _extract_and_validate_fit_parameters ds fit_dataset node.

End Pipeline.

Arguments _calculate_resonator_parameters {RawDataset QualibrationNode}.
Arguments _extract_and_validate_fit_parameters {RawDataset QualibrationNode}.
Arguments fit_raw_data {RawDataset DataArray QualibrationNode}.

(** ** The specification's wording, for comparison with the code *)

(** The configuration record of the specification, with its ten
    thresholds. *)
Module ClassifierConfig.
Record t : Type := {
  snr_min : float;
  snr_distorted : float;
  asymmetry_min : float;
  asymmetry_max : float;
  skewness_max : float;
  distorted_fraction_low_snr : float;
  distorted_fraction_high_snr : float;
  fwhm_absolute_threshold_hz : float;
  nrmse_threshold : float;
  r_squared_threshold : float
}.
End ClassifierConfig.

(** Rule 7 as the specification words it: a formula, with no evaluation
    order. *)
Definition spec_too_wide
  (fwhm sweep_span snr snr_distorted : float)
  (distorted_fraction_low_snr distorted_fraction_high_snr : float)
  (fwhm_absolute_threshold_hz : float) : bool :=
  let distorted_fraction :=
    if py_lt snr snr_distorted
    then distorted_fraction_low_snr else distorted_fraction_high_snr in
  (py_gt sweep_span 0%float && py_gt (PrimFloat.div fwhm sweep_span) distorted_fraction)
  || py_gt fwhm fwhm_absolute_threshold_hz.

(** The decision cascade of the specification, rules 1 to 8, over its
    configuration record. *)
Definition spec_classify (cfg : ClassifierConfig.t) (metrics : Metrics) : string :=
  if py_gt (r_squared metrics) (ClassifierConfig.r_squared_threshold cfg)
     && py_lt (nrmse metrics) (ClassifierConfig.nrmse_threshold cfg)
  then outcome_successful
  else if py_lt (snr metrics) (ClassifierConfig.snr_min cfg) then outcome_low_snr
  else if opx_bandwidth_artifact metrics then outcome_artifact
  else if (num_peaks metrics >? 1)%Z then outcome_several_peaks
  else if (num_peaks metrics =? 0)%Z then
    if py_lt (snr metrics) (ClassifierConfig.snr_min cfg)
    then outcome_no_peaks_low_snr else outcome_no_peaks
  else if py_lt (asymmetry metrics) (ClassifierConfig.asymmetry_min cfg)
          || py_gt (asymmetry metrics) (ClassifierConfig.asymmetry_max cfg)
          || py_gt (PrimFloat.abs (skewness metrics)) (ClassifierConfig.skewness_max cfg)
  then outcome_shape_distorted
  else if spec_too_wide (fwhm metrics) (sweep_span metrics) (snr metrics)
            (ClassifierConfig.snr_distorted cfg)
            (ClassifierConfig.distorted_fraction_low_snr cfg)
            (ClassifierConfig.distorted_fraction_high_snr cfg)
            (ClassifierConfig.fwhm_absolute_threshold_hz cfg)
  then
    if py_lt (snr metrics) (ClassifierConfig.snr_distorted cfg)
    then outcome_low_snr_distorted else outcome_distorted_peak
  else outcome_successful.

(** The ten threshold names of the specification. *)
Definition spec_threshold_names : list string :=
  [ "snr_min"; "snr_distorted"; "asymmetry_min"; "asymmetry_max"; "skewness_max";
    "distorted_fraction_low_snr"; "distorted_fraction_high_snr";
    "fwhm_absolute_threshold_hz"; "nrmse_threshold"; "r_squared_threshold" ].

(** The configuration a caller asks for when it overrides the thresholds
    listed in [overrides], by the specification's names, and leaves the
    others at their defaults. *)
Definition spec_config (overrides : list (string * float)) : ClassifierConfig.t :=
  {| ClassifierConfig.snr_min := argument overrides "snr_min" SNR_MIN;
     ClassifierConfig.snr_distorted := argument overrides "snr_distorted" SNR_DISTORTED;
     ClassifierConfig.asymmetry_min := argument overrides "asymmetry_min" ASYMMETRY_MIN;
     ClassifierConfig.asymmetry_max := argument overrides "asymmetry_max" ASYMMETRY_MAX;
     ClassifierConfig.skewness_max := argument overrides "skewness_max" SKEWNESS_MAX;
     ClassifierConfig.distorted_fraction_low_snr :=
       argument overrides "distorted_fraction_low_snr" DISTORTED_FRACTION_LOW_SNR;
     ClassifierConfig.distorted_fraction_high_snr :=
       argument overrides "distorted_fraction_high_snr" DISTORTED_FRACTION_HIGH_SNR;
     ClassifierConfig.fwhm_absolute_threshold_hz :=
       argument overrides "fwhm_absolute_threshold_hz" FWHM_ABSOLUTE_THRESHOLD_HZ;
     ClassifierConfig.nrmse_threshold := argument overrides "nrmse_threshold" NRMSE_THRESHOLD;
     ClassifierConfig.r_squared_threshold :=
       argument overrides "r_squared_threshold" R_SQUARED_THRESHOLD |}.

(** The configuration the code's call builds from its keyword arguments:
    eight parameters, and the two module constants of rule 1. *)
Definition call_config (kwargs : list (string * float)) : ClassifierConfig.t :=
  {| ClassifierConfig.snr_min := argument kwargs "snr_min" SNR_MIN;
     ClassifierConfig.snr_distorted := argument kwargs "snr_distorted" SNR_DISTORTED;
     ClassifierConfig.asymmetry_min := argument kwargs "asymmetry_min" ASYMMETRY_MIN;
     ClassifierConfig.asymmetry_max := argument kwargs "asymmetry_max" ASYMMETRY_MAX;
     ClassifierConfig.skewness_max := argument kwargs "skewness_max" SKEWNESS_MAX;
     ClassifierConfig.distorted_fraction_low_snr :=
       argument kwargs "distorted_fraction_low_snr" DISTORTED_FRACTION_LOW_SNR;
     ClassifierConfig.distorted_fraction_high_snr :=
       argument kwargs "distorted_fraction_high_snr" DISTORTED_FRACTION_HIGH_SNR;
     ClassifierConfig.fwhm_absolute_threshold_hz :=
       argument kwargs "fwhm_absolute_threshold" FWHM_ABSOLUTE_THRESHOLD_HZ;
     ClassifierConfig.nrmse_threshold := NRMSE_THRESHOLD;
     ClassifierConfig.r_squared_threshold := R_SQUARED_THRESHOLD |}.

(** Rules 1 to 6 of the code's cascade all fall through. *)
Definition reaches_rule_7
  (metrics : Metrics) (snr_min asymmetry_min asymmetry_max skewness_max : float) : bool :=
  negb (py_gt (r_squared metrics) R_SQUARED_THRESHOLD && py_lt (nrmse metrics) NRMSE_THRESHOLD)
  && negb (py_lt (snr metrics) snr_min)
  && negb (opx_bandwidth_artifact metrics)
  && negb (num_peaks metrics >? 1)%Z
  && negb (num_peaks metrics =? 0)%Z
  && negb (_is_peak_shape_distorted (Some (asymmetry metrics)) (Some (skewness metrics))
             asymmetry_min asymmetry_max skewness_max).

(** Rules 1 to 4 fall through and there is no peak. *)
Definition rule_5_fires (metrics : Metrics) (snr_min : float) : bool :=
  negb (py_gt (r_squared metrics) R_SQUARED_THRESHOLD && py_lt (nrmse metrics) NRMSE_THRESHOLD)
  && negb (py_lt (snr metrics) snr_min)
  && negb (opx_bandwidth_artifact metrics)
  && negb (num_peaks metrics >? 1)%Z
  && (num_peaks metrics =? 0)%Z.

Definition with_fwhm (metrics : Metrics) (new_fwhm : float) : Metrics :=
  {| num_peaks := num_peaks metrics;
     snr := snr metrics;
     fwhm := new_fwhm;
     sweep_span := sweep_span metrics;
     asymmetry := asymmetry metrics;
     skewness := skewness metrics;
     opx_bandwidth_artifact := opx_bandwidth_artifact metrics;
     nrmse := nrmse metrics;
     r_squared := r_squared metrics |}.

(** The record with another skewness. *)
Definition with_skewness (metrics : Metrics) (new_skewness : float) : Metrics :=
  {| num_peaks := num_peaks metrics;
     snr := snr metrics;
     fwhm := fwhm metrics;
     sweep_span := sweep_span metrics;
     asymmetry := asymmetry metrics;
     skewness := new_skewness;
     opx_bandwidth_artifact := opx_bandwidth_artifact metrics;
     nrmse := nrmse metrics;
     r_squared := r_squared metrics |}.




(** The message line as the specification words it. *)
Definition spec_log_message (qubit_name outcome : string) (frequency fwhm : float) : string :=
  "Results for qubit " ++ qubit_name ++ ": "
  ++ (if String.eqb outcome "successful" then "SUCCESS!" else "FAIL! Reason: " ++ outcome)
  ++ newline ++ tab
  ++ "Resonator frequency: " ++ float_format 3 (PrimFloat.div frequency 1e9%float) ++ " GHz | "
  ++ "FWHM: " ++ float_format 1 (PrimFloat.div fwhm 1e3%float) ++ " kHz | ".

(** ** The order of binary64 numbers *)

(** A key that orders the numbers as [SFcompare] does: the zone (negative
    infinity, negative, zero, positive, positive infinity), then exponent
    and mantissa, both negated for negative numbers. *)
Definition sf_rank (x : spec_float) : Z * Z * Z :=
  match x with
  | S754_infinity true => (-2, 0, 0)%Z
  | S754_finite true m e => (-1, - e, Zneg m)%Z
  | S754_zero _ => (0, 0, 0)%Z
  | S754_nan => (0, 0, 0)%Z
  | S754_finite false m e => (1, e, Zpos m)%Z
  | S754_infinity false => (2, 0, 0)%Z
  end.

Definition lex_compare (p q : Z * Z * Z) : comparison :=
  let '(a, b, c) := p in
  let '(a', b', c') := q in
  match (a ?= a')%Z with
  | Eq => match (b ?= b')%Z with
          | Eq => (c ?= c')%Z
          | r => r
          end
  | r => r
  end.

Definition lex_ge (p q : Z * Z * Z) : Prop :=
  let '(a, b, c) := p in
  let '(a', b', c') := q in
  (a > a' \/ (a = a' /\ (b > b' \/ (b = b' /\ c >= c'))))%Z.


(** ** The values of binary64 numbers *)

Section RoundingDefinitions.
Local Open Scope R_scope.

(** [bpow e] is [2 ^ e]. *)
Definition bpow (e : Z) : R := powerRZ 2 e.

(** The truncated mantissa [shr_m mrs], at exponent [e], with its round
    and sticky bits, locates the real number [x]. *)
Definition inb (mrs : shr_record) (e : Z) (x : R) : Prop :=
  (0 <= shr_m mrs)%Z /\
  match loc_of_shr_record mrs with
  | loc_Exact => x = IZR (shr_m mrs) * bpow e
  | loc_Inexact Lt => IZR (shr_m mrs) * bpow e < x < (IZR (shr_m mrs) + / 2) * bpow e
  | loc_Inexact Eq => x = (IZR (shr_m mrs) + / 2) * bpow e
  | loc_Inexact Gt => (IZR (shr_m mrs) + / 2) * bpow e < x < (IZR (shr_m mrs) + 1) * bpow e
  end.

(** A mantissa and exponent in the shape of the format: at most 53 bits,
    and exactly 53 above the least exponent. *)
Definition canonical (m e : Z) : Prop :=
  IZR m < bpow 53 /\ (-1074 <= e)%Z /\ ((-1074 < e)%Z -> bpow 52 <= IZR m).

(** The outcome of rounding the magnitude [x] with sign [sx]. *)
Definition rounded (sx : bool) (x : R) (r : spec_float) : Prop :=
  exists m'' e'' : Z,
    r = match m'' with
        | Z0 => S754_zero sx
        | Zpos p => if (e'' <=? emax - prec)%Z then S754_finite sx p e'' else S754_infinity sx
        | Zneg _ => S754_nan
        end
    /\ (0 <= m'')%Z /\ canonical m'' e''
    /\ (forall mt et : Z, canonical mt et ->
          IZR mt * bpow et <= x -> IZR mt * bpow et <= IZR m'' * bpow e'')
    /\ (forall mt et : Z, canonical mt et ->
          x <= IZR mt * bpow et -> IZR m'' * bpow e'' <= IZR mt * bpow et).

End RoundingDefinitions.

Section NearestDefinitions.
Local Open Scope R_scope.

(** The outcome of rounding the magnitude [x] with sign [sx] is a nearest
    number of the format, exponents unbounded. *)
Definition rounded_nearest (sx : bool) (x : R) (r : spec_float) : Prop :=
  exists m'' e'' : Z,
    r = match m'' with
        | Z0 => S754_zero sx
        | Zpos p => if (e'' <=? emax - prec)%Z then S754_finite sx p e'' else S754_infinity sx
        | Zneg _ => S754_nan
        end
    /\ (0 <= m'')%Z /\ canonical m'' e''
    /\ (forall mt et : Z, canonical mt et ->
          Rabs (IZR m'' * bpow e'' - x) <= Rabs (IZR mt * bpow et - x)).

End NearestDefinitions.

(** ** Test inputs *)

Definition metrics_of (r2 nr s : float) (np : Z) (a sk : float) (artifact : bool)
  (fw sp : float) : Metrics :=
  {| num_peaks := np; snr := s; fwhm := fw; sweep_span := sp; asymmetry := a;
     skewness := sk; opx_bandwidth_artifact := artifact; nrmse := nr; r_squared := r2 |}.

(** Scenarios A to E of the specification. *)
Definition scenario_A : Metrics :=
  metrics_of 0.95 0.05 10 1 1.0 0.1 false 1e5 1e8.
Definition scenario_B : Metrics :=
  metrics_of 0.5 0.3 1.0 1 1.0 0.1 false 1e5 1e8.
Definition scenario_C : Metrics :=
  metrics_of 0.5 0.3 10 2 1.0 0.1 false 1e5 1e8.
Definition scenario_D : Metrics :=
  metrics_of 0.5 0.3 10 1 10.0 0.1 false 1e5 1e8.
Definition scenario_E : Metrics :=
  metrics_of 0.5 0.3 10 1 1.0 0.1 false 2e6 1e7.

(** One input for each of the other failure outcomes. *)
Definition scenario_artifact : Metrics :=
  metrics_of 0.5 0.3 10 1 1.0 0.1 true 1e5 1e8.
Definition scenario_no_peaks : Metrics :=
  metrics_of 0.5 0.3 10 0 1.0 0.1 false 1e5 1e8.
Definition scenario_wide_low_snr : Metrics :=
  metrics_of 0.5 0.3 3.0 1 1.0 0.1 false 2e6 1e7.

(** A sweep of zero span. *)
Definition scenario_zero_span : Metrics :=
  metrics_of 0.5 0.3 10 1 1.0 0.1 false 1e5 0.

Definition failure_scenarios : list Metrics :=
  [ scenario_B; scenario_artifact; scenario_C; scenario_no_peaks; scenario_D;
    scenario_wide_low_snr; scenario_E ].

(** A good fit with a low SNR, and a call that asks for a stricter
    [r_squared_threshold]. *)
Definition good_fit_low_snr : Metrics :=
  metrics_of 0.95 0.05 1.0 1 1.0 0.1 false 1e5 1e8.
Definition stricter_r_squared : list (string * float) :=
  [ ("r_squared_threshold", 0.99%float) ].
Definition stricter_snr : list (string * float) :=
  [ ("snr_min", 12%float); ("fwhm_absolute_threshold", 5e4%float) ].

(** A fit dataset with a complete slice and one that lacks [snr]. *)
Definition complete_slice : QubitData.t :=
  {| QubitData.num_peaks := Some 1%Z;
     QubitData.snr := Some 10%float;
     QubitData.fwhm := Some 1e5%float;
     QubitData.asymmetry := Some 1.0%float;
     QubitData.skewness := Some 0.1%float;
     QubitData.opx_bandwidth_artifact := Some true |}.

Definition slice_without_snr : QubitData.t :=
  {| QubitData.num_peaks := Some 1%Z;
     QubitData.snr := None;
     QubitData.fwhm := Some 1e5%float;
     QubitData.asymmetry := Some 1.0%float;
     QubitData.skewness := Some 0.1%float;
     QubitData.opx_bandwidth_artifact := Some false |}.

Definition example_fitter : S21Resonator.t :=
  {| S21Resonator.quality_metrics := [("nrmse", 0.3%float); ("r_squared", 0.5%float)] |}.

Definition noisy_slice : QubitData.t :=
  {| QubitData.num_peaks := Some 0%Z;
     QubitData.snr := Some 1.5%float;
     QubitData.fwhm := Some 3e5%float;
     QubitData.asymmetry := Some 0.9%float;
     QubitData.skewness := Some 0.2%float;
     QubitData.opx_bandwidth_artifact := Some false |}.

Definition example_fit : Dataset.t :=
  {| Dataset.dims := [("qubit", 3%nat); ("detuning", 3%nat)];
     Dataset.coords := [("detuning", FloatAxis [(-5e6)%float; 0%float; 5e6%float])];
     Dataset.qubit :=
       [("q1", complete_slice); ("q2", slice_without_snr); ("q3", noisy_slice)] |}.

(** The same dataset over an empty sweep, over an [int64] sweep whose
    ends are more than [2 ^ 63] apart, and over a sweep of infinite
    frequencies. *)
Definition fit_of_empty_sweep : Dataset.t :=
  {| Dataset.dims := [("qubit", 3%nat); ("detuning", 0%nat)];
     Dataset.coords := [("detuning", FloatAxis [])];
     Dataset.qubit := Dataset.qubit example_fit |}.



Definition example_fitters : list (string * S21Resonator.t) :=
  [("q1", example_fitter); ("q2", example_fitter); ("q3", example_fitter)].

(** Two logged results: a structured one and a dict with missing keys. *)
Definition example_results : list (string * fit_result) :=
  [ ("q1", Structured {| FitParameters.frequency := 5e9%float;
                         FitParameters.fwhm := 1e6%float;
                         FitParameters.outcome := "successful" |});
    ("q2", Loose {| LooseRecord.frequency := None;
                    LooseRecord.fwhm := Some 2.5e5%float;
                    LooseRecord.outcome := None |}) ].

(** The failure outcomes the cascade can return. *)
Definition failure_outcomes : list string :=
  [ outcome_low_snr; outcome_artifact; outcome_several_peaks; outcome_no_peaks;
    outcome_shape_distorted; outcome_low_snr_distorted; outcome_distorted_peak ].

(** A fit that passes rules 1 to 7 on its shape alone, and thresholds
    that are stricter than the defaults. *)
Definition scenario_plain : Metrics :=
  metrics_of 0.5 0.3 10 1 1.0 0.1 false 1e5 1e8.

(** A record of failed measurements: NaN wherever a float is compared. *)
Definition scenario_nan : Metrics :=
  metrics_of 0.5 0.3 nan 1 nan nan false nan 1e7.

(** The dataset of a peak detection over two qubits, the results of a
    circle fit that lists them in the other order, and one that lists a
    single qubit. *)
Definition example_peaks : FitDataset.t :=
  {| FitDataset.dims := [("qubit", 2%nat); ("detuning", 3%nat)];
     FitDataset.coords := [("detuning", FloatAxis [(-5e6)%float; 0%float; 5e6%float])];
     FitDataset.qubit :=
       [ ("q1", {| FitSlice.peaks := complete_slice;
                   FitSlice.res_freq := None;
                   FitSlice.outcome := None |});
         ("q3", {| FitSlice.peaks := noisy_slice;
                   FitSlice.res_freq := None;
                   FitSlice.outcome := None |}) ];
     FitDataset.attrs := [];
     FitDataset.variable_attrs := [] |}.

Definition example_circle_fit (ds : unit)
  : result (list (string * list (string * float)) * list (string * S21Resonator.t)) :=
  Ok ([ ("q3", [("frequency", 5.1e9%float); ("fwhm", 3e5%float)]);
        ("q1", [("frequency", 4.9e9%float); ("fwhm", 1e5%float)]) ],
      example_fitters).

Definition short_circle_fit (ds : unit)
  : result (list (string * list (string * float)) * list (string * S21Resonator.t)) :=
  Ok ([ ("q1", [("frequency", 4.9e9%float); ("fwhm", 1e5%float)]) ], example_fitters).

Definition example_IQ_abs (ds : unit) : result unit := Ok tt.

Definition example_peaks_dips (amplitude : unit) (dim : string) : result FitDataset.t :=
  Ok example_peaks.

(** A dataset without a sweep dimension, and one whose sweep has a single
    frequency. *)
Definition fit_without_sweep : Dataset.t :=
  {| Dataset.dims := [("qubit", 1%nat)];
     Dataset.coords := [];
     Dataset.qubit := [("q1", complete_slice)] |}.

Definition fit_of_one_frequency : Dataset.t :=
  {| Dataset.dims := [("qubit", 1%nat); ("detuning", 1%nat)];
     Dataset.coords := [("detuning", FloatAxis [5e6%float])];
     Dataset.qubit := [("q1", complete_slice)] |}.

(** A result whose numbers are NaN. *)
Definition nan_result : FitParameters.t :=
  {| FitParameters.frequency := nan;
     FitParameters.fwhm := nan;
     FitParameters.outcome := outcome_no_peaks |}.

(** * Binary64 arithmetic *)

(** ** The comparison is a total order on the numbers *)

Lemma finite_float_cases (x : float) :
  PrimFloat.is_finite x = true ->
  match Prim2SF x with
  | S754_zero _ | S754_finite _ _ _ => True
  | _ => False
  end.
Proof.
  unfold PrimFloat.is_finite, Prim2SF. intros Hfinite.
  destruct (PrimFloat.is_nan x); [discriminate |].
  destruct (PrimFloat.is_infinity x); [discriminate |].
  destruct (PrimFloat.is_zero x); [exact I |].
  destruct (Z.frexp x) as [r e].
  destruct (shr_fexp prec emax _ _ _) as [mrs e'].
  destruct (shr_m mrs); exact I.
Qed.

Lemma SFcompare_rank (x y : spec_float) :
  x <> S754_nan -> y <> S754_nan ->
  SFcompare x y = Some (lex_compare (sf_rank x) (sf_rank y)).
Proof.
  intros Hx Hy.
  destruct x as [sx | sx | | sx mx ex]; try congruence;
    destruct y as [sy | sy | | sy my ey]; try congruence;
    try destruct sx; try destruct sy; try reflexivity.
  cbn. rewrite Z.compare_opp, (Z.compare_antisym ex ey).
  destruct (ex ?= ey)%Z; reflexivity.
Qed.

Lemma lex_compare_ge (p q : Z * Z * Z) :
  (lex_compare p q = Gt \/ lex_compare p q = Eq) <-> lex_ge p q.
Proof.
  destruct p as [[a b] c], q as [[a' b'] c']. cbn.
  destruct (Z.compare_spec a a'), (Z.compare_spec b b'), (Z.compare_spec c c');
    split; intros; try lia; intuition congruence.
Qed.

Lemma lex_ge_trans (p q r : Z * Z * Z) : lex_ge p q -> lex_ge q r -> lex_ge p r.
Proof.
  destruct p as [[a b] c], q as [[a' b'] c'], r as [[a'' b''] c'']. cbn. lia.
Qed.

Lemma float_py_ge (a b : float) :
  py_ge a b = true
  <-> Prim2SF a <> S754_nan /\ Prim2SF b <> S754_nan
      /\ lex_ge (sf_rank (Prim2SF a)) (sf_rank (Prim2SF b)).
Proof.
  unfold py_ge. rewrite compare_spec.
  destruct (Prim2SF a) as [sa | sa | | sa ma ea] eqn:Ha;
    destruct (Prim2SF b) as [sb | sb | | sb mb eb] eqn:Hb;
    try (split; [discriminate | intros [Hna [Hnb _]]; congruence]).
  all: rewrite SFcompare_rank by discriminate.
  all: rewrite <- lex_compare_ge.
  all: destruct (lex_compare _ _); cbn; split; intros; try discriminate; intuition discriminate.
Qed.

Lemma lex_compare_antisym (p q : Z * Z * Z) :
  lex_compare q p = CompOpp (lex_compare p q).
Proof.
  destruct p as [[a b] c], q as [[a' b'] c']. cbn.
  rewrite (Z.compare_antisym a a'), (Z.compare_antisym b b'), (Z.compare_antisym c c').
  destruct (a ?= a')%Z; cbn; try reflexivity.
  destruct (b ?= b')%Z; reflexivity.
Qed.

Lemma lex_compare_refl (p : Z * Z * Z) : lex_compare p p = Eq.
Proof. destruct p as [[a b] c]. cbn. now rewrite !Z.compare_refl. Qed.

Lemma float_compare_rank (a b : float) :
  Prim2SF a <> S754_nan -> Prim2SF b <> S754_nan ->
  PrimFloat.compare a b
  = flatten_cmp_opt (Some (lex_compare (sf_rank (Prim2SF a)) (sf_rank (Prim2SF b)))).
Proof. intros Ha Hb. rewrite compare_spec, SFcompare_rank by assumption. reflexivity. Qed.

Lemma float_compare_nan (a b : float) :
  PrimFloat.compare a b <> FNotComparable ->
  Prim2SF a <> S754_nan /\ Prim2SF b <> S754_nan.
Proof.
  rewrite compare_spec.
  destruct (Prim2SF a), (Prim2SF b); cbn; intros Hcmp; split; congruence.
Qed.


Lemma float_compare_refl (a : float) :
  PrimFloat.is_finite a = true -> PrimFloat.compare a a = FEq.
Proof.
  intros Hfinite. apply finite_float_cases in Hfinite.
  assert (Ha : Prim2SF a <> S754_nan).
  { intros Hnan. rewrite Hnan in Hfinite. exact Hfinite. }
  rewrite (float_compare_rank a a Ha Ha), lex_compare_refl. reflexivity.
Qed.

Lemma float_ge_trans (a b c : float) :
  py_ge a b = true -> py_ge b c = true -> py_ge a c = true.
Proof.
  rewrite !float_py_ge. intros [Ha [Hb Hab]] [_ [Hc Hbc]].
  split; [exact Ha |]. split; [exact Hc |].
  apply (lex_ge_trans _ (sf_rank (Prim2SF b))); assumption.
Qed.

(** *** Subtraction of a smaller number is not negative *)









Lemma digits2_pos_size (m : positive) : digits2_pos m = Pos.size m.
Proof. induction m as [m IH | m IH |]; cbn; congruence. Qed.





(** ** Division agrees with multiplication on the order *)

Section Rounding.
Local Open Scope R_scope.

Lemma bpow_pos (e : Z) : 0 < bpow e.
Proof. apply powerRZ_lt. lra. Qed.

Lemma bpow_add (a b : Z) : bpow (a + b) = bpow a * bpow b.
Proof. apply powerRZ_add. lra. Qed.

Lemma bpow_0 : bpow 0 = 1.
Proof. reflexivity. Qed.

Lemma bpow_1 : bpow 1 = 2.
Proof. unfold bpow. exact (powerRZ_1 2). Qed.

Lemma bpow_succ (e : Z) : bpow (e + 1) = 2 * bpow e.
Proof. rewrite bpow_add, bpow_1. lra. Qed.

Lemma bpow_IZR (k : Z) : (0 <= k)%Z -> bpow k = IZR (2 ^ k).
Proof.
  intros Hk. unfold bpow. rewrite <- (Z2Nat.id k Hk) at 1.
  rewrite <- pow_powerRZ. rewrite pow_IZR. rewrite Z2Nat.id by assumption. reflexivity.
Qed.

Lemma bpow_ge_1 (k : Z) : (0 <= k)%Z -> 1 <= bpow k.
Proof.
  intros Hk. rewrite bpow_IZR by assumption. apply IZR_le.
  pose proof (Z.pow_pos_nonneg 2 k ltac:(lia) Hk). lia.
Qed.

Lemma bpow_le (a b : Z) : (a <= b)%Z -> bpow a <= bpow b.
Proof.
  intros Hab. replace b with (a + (b - a))%Z by lia. rewrite bpow_add.
  pose proof (bpow_pos a). pose proof (bpow_ge_1 (b - a) ltac:(lia)). nra.
Qed.

Lemma bpow_lt (a b : Z) : (a < b)%Z -> bpow a < bpow b.
Proof.
  intros Hab. replace b with (a + 1 + (b - a - 1))%Z by lia. rewrite bpow_add, bpow_succ.
  pose proof (bpow_pos a). pose proof (bpow_ge_1 (b - a - 1) ltac:(lia)). nra.
Qed.

Lemma digits2_pos_bounds (p : positive) :
  bpow (Zpos (digits2_pos p) - 1) <= IZR (Zpos p) < bpow (Zpos (digits2_pos p)).
Proof.
  rewrite digits2_pos_size.
  pose proof (Pos.size_gt p) as Hgt. pose proof (Pos.size_le p) as Hle.
  apply Pos2Z.pos_lt_pos in Hgt. apply Pos2Z.pos_le_pos in Hle.
  rewrite Pos2Z.inj_pow in Hgt, Hle.
  change (Z.pos p~0) with (2 * Z.pos p)%Z in Hle.
  split.
  - assert (H2 : 2 * bpow (Z.pos (Pos.size p) - 1) = bpow (Z.pos (Pos.size p))).
    { rewrite <- bpow_succ. f_equal. lia. }
    rewrite (bpow_IZR (Z.pos (Pos.size p))) in H2 by lia.
    apply IZR_le in Hle. rewrite mult_IZR in Hle. lra.
  - rewrite bpow_IZR by lia. apply IZR_lt. exact Hgt.
Qed.

Lemma Zdigits2_bounds (m : Z) :
  (0 < m)%Z -> bpow (Zdigits2 m - 1) <= IZR m < bpow (Zdigits2 m).
Proof.
  destruct m as [| p | p]; try lia. intros _. apply digits2_pos_bounds.
Qed.

Lemma inb_bounds (mrs : shr_record) (e : Z) (x : R) :
  inb mrs e x -> IZR (shr_m mrs) * bpow e <= x < (IZR (shr_m mrs) + 1) * bpow e.
Proof.
  intros [_ Hloc]. pose proof (bpow_pos e).
  destruct (loc_of_shr_record mrs) as [| []]; nra.
Qed.

Lemma IZR_xO (p : positive) : IZR (Zpos p~0) = 2 * IZR (Zpos p).
Proof. change (Zpos p~0) with (2 * Zpos p)%Z. rewrite mult_IZR. reflexivity. Qed.

Lemma IZR_xI (p : positive) : IZR (Zpos p~1) = 2 * IZR (Zpos p) + 1.
Proof. change (Zpos p~1) with (2 * Zpos p + 1)%Z. rewrite plus_IZR, mult_IZR. reflexivity. Qed.

Lemma inb_shr_1 (mrs : shr_record) (e : Z) (x : R) :
  inb mrs e x -> inb (shr_1 mrs) (e + 1) x.
Proof.
  unfold inb. intros [Hm Hloc]. rewrite bpow_succ. pose proof (bpow_pos e) as Hu.
  destruct mrs as [m r s]. cbn [shr_m] in Hm.
  destruct m as [| p | p]; [| | lia].
  - destruct r, s; cbn in *; (split; [lia |]); nra.
  - destruct p as [p | p |]; destruct r, s; cbn [shr_1 shr_m loc_of_shr_record orb] in *;
      try rewrite IZR_xO in Hloc; try rewrite IZR_xI in Hloc;
      (split; [lia |]); nra.
Qed.

Lemma inb_iter_shr_1 (n : positive) (mrs : shr_record) (e : Z) (x : R) :
  inb mrs e x -> inb (iter_pos shr_1 n mrs) (e + Zpos n) x.
Proof.
  revert mrs e. induction n as [n IH | n IH |]; intros mrs e Hinb; cbn [iter_pos].
  - replace (e + Zpos n~1)%Z with (e + 1 + Zpos n + Zpos n)%Z by lia.
    apply IH, IH, inb_shr_1, Hinb.
  - replace (e + Zpos n~0)%Z with (e + Zpos n + Zpos n)%Z by lia.
    apply IH, IH, Hinb.
  - apply inb_shr_1, Hinb.
Qed.

Lemma inb_record_of_loc_exact (m e : Z) :
  (0 <= m)%Z -> inb (shr_record_of_loc m loc_Exact) e (IZR m * bpow e).
Proof. intros Hm. split; [exact Hm | reflexivity]. Qed.

(** [shr_fexp] truncates at the exponent of the format. *)
Lemma inb_shr_fexp (m e : Z) (l : location) (x : R) :
  inb (shr_record_of_loc m l) e x ->
  (e <= fexp prec emax (Zdigits2 m + e))%Z ->
  inb (fst (shr_fexp prec emax m e l)) (snd (shr_fexp prec emax m e l)) x
  /\ snd (shr_fexp prec emax m e l) = fexp prec emax (Zdigits2 m + e).
Proof.
  intros Hinb Hpre. unfold shr_fexp, shr.
  destruct (fexp prec emax (Zdigits2 m + e) - e)%Z as [| n | n] eqn:Hn; cbn [fst snd].
  - split; [exact Hinb | lia].
  - split; [apply inb_iter_shr_1, Hinb | lia].
  - lia.
Qed.

Lemma fexp_eq (k : Z) : fexp prec emax k = Z.max (k - 53) (-1074).
Proof. reflexivity. Qed.

Lemma IZR_succ_le_bpow_digits (m : Z) : (0 <= m)%Z -> IZR m + 1 <= bpow (Zdigits2 m).
Proof.
  intros Hm. destruct (Z.eq_dec m 0) as [-> | Hnz].
  - cbn [Zdigits2]. rewrite bpow_0. lra.
  - destruct (Zdigits2_bounds m ltac:(lia)) as [_ Hhi].
    assert (Hd : (0 <= Zdigits2 m)%Z) by (destruct m; cbn; lia).
    rewrite bpow_IZR in Hhi |- * by exact Hd.
    apply lt_IZR in Hhi. rewrite <- plus_IZR. apply IZR_le. lia.
Qed.

(** After the first truncation the mantissa fits the format. *)
Lemma shr_fexp_grid (m e : Z) (l : location) (x : R) :
  (0 <= m)%Z ->
  inb (shr_record_of_loc m l) e x ->
  (e <= fexp prec emax (Zdigits2 m + e))%Z ->
  let m' := shr_m (fst (shr_fexp prec emax m e l)) in
  let e' := snd (shr_fexp prec emax m e l) in
  inb (fst (shr_fexp prec emax m e l)) e' x
  /\ (0 <= m')%Z /\ IZR m' < bpow 53 /\ (-1074 <= e')%Z
  /\ ((-1074 < e')%Z -> bpow 52 <= IZR m').
Proof.
  intros Hm Hinb Hpre m' e'.
  destruct (inb_shr_fexp m e l x Hinb Hpre) as [Hinb' He'].
  fold e' in Hinb', He'. rewrite fexp_eq in He', Hpre.
  pose proof (inb_bounds _ _ _ Hinb) as [Hlo Hhi].
  pose proof (inb_bounds _ _ _ Hinb') as [Hlo' Hhi'].
  fold m' in Hlo', Hhi'.
  assert (Hshr : shr_m (shr_record_of_loc m l) = m) by (destruct l as [| []]; reflexivity).
  rewrite Hshr in Hlo, Hhi.
  pose proof (bpow_pos e) as Hpe. pose proof (bpow_pos e') as Hpe'.
  split; [exact Hinb' |]. split; [apply Hinb' |]. split; [| split; [lia |]].
  - pose proof (IZR_succ_le_bpow_digits m Hm) as Hsucc.
    assert (Hx : x < bpow (Zdigits2 m) * bpow e) by nra.
    pose proof (bpow_le (Zdigits2 m + e) (e' + 53) ltac:(lia)) as Hmono.
    rewrite !bpow_add in Hmono.
    pose proof (bpow_pos 53). nra.
  - intros Hnorm.
    assert (Hmpos : (0 < m)%Z).
    { destruct (Z.eq_dec m 0) as [-> | Hnz]; [cbn in He', Hpre; lia | lia]. }
    destruct (Zdigits2_bounds m Hmpos) as [Hdlo _].
    assert (He'_eq : (e' = Zdigits2 m + e - 53)%Z) by lia.
    assert (Hx : bpow (e' + 52) <= x).
    { replace (e' + 52)%Z with (Zdigits2 m - 1 + e)%Z by lia. rewrite bpow_add. nra. }
    rewrite bpow_add in Hx.
    assert (Hlt : bpow 52 < IZR m' + 1) by nra.
    rewrite bpow_IZR in Hlt |- * by lia. rewrite <- plus_IZR in Hlt.
    apply lt_IZR in Hlt. apply IZR_le. lia.
Qed.

Lemma bpow_52 : bpow 52 = IZR 4503599627370496.
Proof. rewrite bpow_IZR by lia. reflexivity. Qed.

Lemma bpow_53 : bpow 53 = IZR 9007199254740992.
Proof. rewrite bpow_IZR by lia. reflexivity. Qed.

Lemma round_nearest_even_cases (m : Z) (l : location) :
  (round_nearest_even m l = m \/ round_nearest_even m l = (m + 1)%Z)
  /\ (l = loc_Exact -> round_nearest_even m l = m).
Proof.
  destruct l as [| []]; cbn; try destruct (Z.even m); split; auto; discriminate.
Qed.

Lemma Zdigits2_le_53 (m : Z) : (0 <= m)%Z -> IZR m < bpow 53 -> (Zdigits2 m <= 53)%Z.
Proof.
  intros Hm Hlt. destruct (Z.eq_dec m 0) as [-> | Hnz]; [cbn; lia |].
  destruct (Zdigits2_bounds m ltac:(lia)) as [Hlo _].
  destruct (Z_le_gt_dec (Zdigits2 m) 53) as [Hle | Hgt]; [exact Hle |].
  pose proof (bpow_le 53 (Zdigits2 m - 1) ltac:(lia)). lra.
Qed.

(** The second truncation only renormalises a carry. *)
Lemma shr_fexp_carry (mr e' : Z) :
  (0 <= mr)%Z -> IZR mr <= bpow 53 -> (-1074 <= e')%Z ->
  ((-1074 < e')%Z -> bpow 52 <= IZR mr) ->
  let m'' := shr_m (fst (shr_fexp prec emax mr e' loc_Exact)) in
  let e'' := snd (shr_fexp prec emax mr e' loc_Exact) in
  IZR m'' * bpow e'' = IZR mr * bpow e'
  /\ (0 <= m'')%Z /\ IZR m'' < bpow 53 /\ (-1074 <= e'')%Z
  /\ ((-1074 < e'')%Z -> bpow 52 <= IZR m'').
Proof.
  intros Hmr Hle He' Hnorm.
  destruct (Rle_lt_or_eq_dec _ _ Hle) as [Hlt | Heq].
  - pose proof (Zdigits2_le_53 mr Hmr Hlt) as Hd.
    unfold shr_fexp, shr. rewrite fexp_eq.
    destruct (Z.max (Zdigits2 mr + e' - 53) (-1074) - e')%Z as [| n | n] eqn:Hn;
      cbn [fst snd shr_record_of_loc shr_m]; [| exfalso; lia |];
      repeat split; auto; lia.
  - rewrite bpow_53 in Heq. apply eq_IZR in Heq. subst mr.
    unfold shr_fexp, shr. rewrite fexp_eq.
    change (Zdigits2 9007199254740992) with 54%Z.
    replace (Z.max _ (-1074) - e')%Z with 1%Z by lia.
    cbn [fst snd iter_pos shr_1 shr_record_of_loc shr_m].
    rewrite bpow_succ, bpow_52, bpow_53. pose proof (bpow_pos e').
    repeat split; try lia; try lra.
Qed.

(** No number of the format lies strictly between two neighbours of the
    grid. *)
Lemma grid_gap (m' e' mt et : Z) :
  canonical m' e' -> canonical mt et ->
  IZR mt * bpow et < (IZR m' + 1) * bpow e' ->
  IZR mt * bpow et <= IZR m' * bpow e'.
Proof.
  intros [_ [He' Hn']] [Hmt [Het _]] Hlt.
  pose proof (bpow_pos e') as Hpe'. pose proof (bpow_pos et) as Hpet.
  destruct (Z_le_gt_dec e' et) as [Hle | Hgt].
  - assert (Hsplit : bpow et = IZR (2 ^ (et - e')) * bpow e').
    { rewrite <- bpow_IZR by lia. rewrite <- bpow_add. f_equal. lia. }
    rewrite Hsplit in Hlt |- *.
    assert (HK : IZR (mt * 2 ^ (et - e')) < IZR (m' + 1)).
    { rewrite mult_IZR, plus_IZR. nra. }
    apply lt_IZR in HK.
    assert (HK' : IZR (mt * 2 ^ (et - e')) <= IZR m') by (apply IZR_le; lia).
    rewrite mult_IZR in HK'. nra.
  - specialize (Hn' ltac:(lia)).
    pose proof (bpow_le et (e' - 1) ltac:(lia)) as Hmono.
    assert (Hhalf : 2 * bpow (e' - 1) = bpow e').
    { rewrite <- bpow_succ. f_equal. lia. }
    rewrite bpow_52 in Hn'. rewrite bpow_53 in Hmt.
    destruct (Rle_or_lt (IZR mt) 0) as [Hneg | Hpos]; nra.
Qed.

Lemma binary_round_aux_between (sx : bool) (m e : Z) (l : location) (x : R) :
  (0 <= m)%Z ->
  inb (shr_record_of_loc m l) e x ->
  (e <= fexp prec emax (Zdigits2 m + e))%Z ->
  exists m'' e'' : Z,
    binary_round_aux prec emax sx m e l
    = match m'' with
      | Z0 => S754_zero sx
      | Zpos p => if (e'' <=? emax - prec)%Z then S754_finite sx p e'' else S754_infinity sx
      | Zneg _ => S754_nan
      end
    /\ (0 <= m'')%Z /\ canonical m'' e''
    /\ (forall mt et : Z, canonical mt et ->
          IZR mt * bpow et <= x -> IZR mt * bpow et <= IZR m'' * bpow e'')
    /\ (forall mt et : Z, canonical mt et ->
          x <= IZR mt * bpow et -> IZR m'' * bpow e'' <= IZR mt * bpow et).
Proof.
  intros Hm Hinb Hpre.
  destruct (shr_fexp_grid m e l x Hm Hinb Hpre) as [Hinb' [Hm' [Hlt' [He' Hn']]]].
  unfold binary_round_aux.
  destruct (shr_fexp prec emax m e l) as [mrs' e'] eqn:Hfirst. cbn [fst snd] in *.
  set (m' := shr_m mrs') in *.
  destruct (round_nearest_even_cases m' (loc_of_shr_record mrs')) as [Hround Hexact].
  set (mr := round_nearest_even m' (loc_of_shr_record mrs')) in *.
  assert (Hmr : (0 <= mr)%Z) by lia.
  assert (Hmr_hi : IZR mr <= bpow 53).
  { rewrite bpow_53 in Hlt' |- *. apply lt_IZR in Hlt'. apply IZR_le. lia. }
  assert (Hmr_n : (-1074 < e')%Z -> bpow 52 <= IZR mr).
  { intros Hnorm. specialize (Hn' Hnorm). rewrite bpow_52 in Hn' |- *.
    apply le_IZR in Hn'. apply IZR_le. lia. }
  destruct (shr_fexp_carry mr e' Hmr Hmr_hi He' Hmr_n) as [Hval [Hm'' [Hlt'' [He'' Hn'']]]].
  destruct (shr_fexp prec emax mr e' loc_Exact) as [mrs'' e''] eqn:Hsecond.
  cbn [fst snd] in *.
  exists (shr_m mrs''), e''.
  split; [reflexivity |]. split; [exact Hm'' |].
  split; [split; [exact Hlt'' | split; assumption] |].
  pose proof (inb_bounds _ _ _ Hinb') as [Hlo Hhi]. fold m' in Hlo, Hhi.
  pose proof (bpow_pos e') as Hpe'.
  assert (Hcanon' : canonical m' e') by (split; [exact Hlt' | split; assumption]).
  assert (Hmr_lo : IZR m' <= IZR mr) by (apply IZR_le; lia).
  assert (Hmr_up : IZR mr <= IZR m' + 1) by (rewrite <- plus_IZR; apply IZR_le; lia).
  split.
  - intros mt et Hcanon Hle. rewrite Hval.
    assert (Hgap : IZR mt * bpow et <= IZR m' * bpow e').
    { apply grid_gap; [exact Hcanon' | exact Hcanon | lra]. }
    nra.
  - intros mt et Hcanon Hle. rewrite Hval.
    destruct (Req_dec x (IZR m' * bpow e')) as [Heq | Hneq].
    + assert (Hloc : loc_of_shr_record mrs' = loc_Exact).
      { destruct Hinb' as [_ Hloc]. fold m' in Hloc.
        destruct (loc_of_shr_record mrs') as [| []]; [reflexivity | | |]; nra. }
      rewrite (Hexact Hloc). lra.
    + destruct (Rlt_or_le (IZR mt * bpow et) ((IZR m' + 1) * bpow e')) as [Hbelow | Habove].
      * pose proof (grid_gap m' e' mt et Hcanon' Hcanon Hbelow). lra.
      * nra.
Qed.

Lemma bpow_lt_inv (a b : Z) : bpow a < bpow b -> (a < b)%Z.
Proof.
  intros Hlt. destruct (Z_lt_le_dec a b) as [H | H]; [exact H |].
  pose proof (bpow_le b a H). lra.
Qed.

Lemma bounded_canonical (m : positive) (e : Z) :
  bounded prec emax m e = true -> canonical (Zpos m) e /\ (e <= 971)%Z.
Proof.
  unfold bounded, canonical_mantissa. intros Hb.
  apply andb_prop in Hb. destruct Hb as [Hcanon Hle].
  apply Z.eqb_eq in Hcanon. apply Z.leb_le in Hle. rewrite fexp_eq in Hcanon.
  change (emax - prec)%Z with 971%Z in Hle.
  pose proof (digits2_pos_bounds m) as [Hlo Hhi].
  split; [| exact Hle]. split; [| split; [lia |]].
  - pose proof (bpow_le (Zpos (digits2_pos m)) 53 ltac:(lia)). lra.
  - intros Hnorm. replace 52%Z with (Zpos (digits2_pos m) - 1)%Z by lia. exact Hlo.
Qed.

Lemma digits_ge_53 (m : Z) : bpow 52 <= IZR m -> (53 <= Zdigits2 m)%Z.
Proof.
  intros Hge.
  assert (Hpos : (0 < m)%Z).
  { apply lt_IZR. pose proof (bpow_pos 52). lra. }
  destruct (Zdigits2_bounds m Hpos) as [_ Hhi].
  assert (Hlt : bpow 52 < bpow (Zdigits2 m)) by lra.
  apply bpow_lt_inv in Hlt. lia.
Qed.

(** The exact product of two numbers of the format needs no left shift. *)
Lemma mul_precondition (mx my : positive) (ex ey : Z) :
  canonical (Zpos mx) ex -> canonical (Zpos my) ey ->
  (ex + ey <= fexp prec emax (Zdigits2 (Zpos (mx * my)) + (ex + ey)))%Z.
Proof.
  intros [Hx [Hex Hnx]] [Hy [Hey Hny]]. rewrite fexp_eq.
  assert (Hprod : IZR (Zpos (mx * my)) = IZR (Zpos mx) * IZR (Zpos my)).
  { rewrite Pos2Z.inj_mul, mult_IZR. reflexivity. }
  assert (Hmx : 1 <= IZR (Zpos mx)) by (apply IZR_le; lia).
  assert (Hmy : 1 <= IZR (Zpos my)) by (apply IZR_le; lia).
  pose proof bpow_52 as H52.
  destruct (Z_le_gt_dec (ex + ey) (-1074)) as [Hsmall | Hbig]; [lia |].
  assert (Hd : (53 <= Zdigits2 (Zpos (mx * my)))%Z).
  { apply digits_ge_53. rewrite Hprod.
    destruct (Z_le_gt_dec ex (-1074)) as [Hsx | Hnormx].
    - specialize (Hny ltac:(lia)). nra.
    - specialize (Hnx ltac:(lia)). nra. }
  lia.
Qed.

Lemma loc_of_record_of_loc (m : Z) (l : location) :
  loc_of_shr_record (shr_record_of_loc m l) = l /\ shr_m (shr_record_of_loc m l) = m.
Proof. destruct l as [| []]; split; reflexivity. Qed.

Lemma new_location_spec (n k : Z) :
  (0 <= k < n)%Z ->
  new_location n k
  = if (k =? 0)%Z then loc_Exact else loc_Inexact (2 * k ?= n)%Z.
Proof.
  intros Hk. unfold new_location, new_location_even, new_location_odd.
  destruct (Z.even n) eqn:Heven; [reflexivity |].
  destruct (k =? 0)%Z; [reflexivity |]. f_equal.
  assert (Hodd : Z.odd n = true) by (rewrite <- Z.negb_even, Heven; reflexivity).
  apply Z.odd_spec in Hodd. destruct Hodd as [h Hh].
  destruct (Z.compare_spec (2 * k + 1) n), (Z.compare_spec (2 * k) n); try reflexivity; lia.
Qed.

(** The quotient mantissa, exponent and location that [SFdiv] rounds. *)
Lemma div_core_spec (mf ms : positive) (ef es : Z) (x : R) :
  x * (IZR (Zpos ms) * bpow es) = IZR (Zpos mf) * bpow ef ->
  let '(q, e', l) := SFdiv_core_binary prec emax (Zpos mf) ef (Zpos ms) es in
  (0 <= q)%Z
  /\ inb (shr_record_of_loc q l) e' x
  /\ (e' <= fexp prec emax (Zdigits2 q + e'))%Z.
Proof.
  intros Hx. unfold SFdiv_core_binary. rewrite !fexp_eq.
  cbn [Zdigits2].
  set (d1 := Zpos (digits2_pos mf)). set (d2 := Zpos (digits2_pos ms)).
  set (k := (d1 + ef - (d2 + es))%Z).
  set (e' := Z.min (Z.max (k - 53) (-1074)) (ef - es)).
  set (s := (ef - es - e')%Z).
  assert (Hs : (0 <= s)%Z) by (unfold s, e'; lia).
  set (m' := match s with Z.pos _ => Z.shiftl (Zpos mf) s | 0%Z => Zpos mf | Z.neg _ => 0%Z end).
  assert (Hm' : m' = (Zpos mf * 2 ^ s)%Z).
  { unfold m'. destruct s as [| n | n] eqn:Hsn; [lia | | lia].
    rewrite Z.shiftl_mul_pow2 by lia. reflexivity. }
  pose proof (Z_div_mod m' (Zpos ms) ltac:(lia)) as Hdiv.
  destruct (Z.div_eucl m' (Zpos ms)) as [q r]. destruct Hdiv as [Hqr Hr].
  pose proof (digits2_pos_bounds mf) as [Hlo1 Hhi1]. fold d1 in Hlo1, Hhi1.
  pose proof (digits2_pos_bounds ms) as [Hlo2 Hhi2]. fold d2 in Hlo2, Hhi2.
  assert (HMS : 0 < IZR (Zpos ms)) by (apply IZR_lt; lia).
  assert (HMF : 0 < IZR (Zpos mf)) by (apply IZR_lt; lia).
  pose proof (bpow_pos e') as Hu. pose proof (bpow_pos es) as Hpes.
  pose proof (bpow_pos s) as Hps.
  assert (Hq : (0 <= q)%Z).
  { assert (0 <= m')%Z by (rewrite Hm'; apply Z.mul_nonneg_nonneg; [lia | apply Z.pow_nonneg; lia]).
    nia. }
  (* x * ms = (ms * q + r) * u *)
  assert (Hbp : bpow ef = bpow s * bpow e' * bpow es).
  { rewrite <- !bpow_add. f_equal. unfold s. lia. }
  assert (HIm' : IZR m' = IZR (Zpos mf) * bpow s).
  { rewrite Hm', mult_IZR, <- bpow_IZR by lia. reflexivity. }
  assert (Hxm : x * IZR (Zpos ms) = (IZR (Zpos ms) * IZR q + IZR r) * bpow e').
  { rewrite <- mult_IZR, <- plus_IZR, <- Hqr, HIm'.
    apply (Rmult_eq_reg_r (bpow es)); [| lra]. rewrite Hbp in Hx. lra. }
  assert (Hr0 : 0 <= IZR r) by (apply IZR_le; lia).
  assert (Hr1 : IZR r < IZR (Zpos ms)) by (apply IZR_lt; lia).
  split; [exact Hq |]. split.
  - destruct (loc_of_record_of_loc q (new_location (Zpos ms) r)) as [Hloc Hshr].
    split; [rewrite Hshr; exact Hq |]. rewrite Hloc, Hshr.
    rewrite (new_location_spec (Zpos ms) r Hr).
    destruct (Z.eqb_spec r 0) as [Hrz | Hrnz].
    + subst r. apply (Rmult_eq_reg_r (IZR (Zpos ms))); [| lra]. rewrite Hxm. lra.
    + assert (Hrpos : 0 < IZR r) by (apply IZR_lt; lia).
      destruct (Z.compare_spec (2 * r) (Zpos ms)) as [Heq | Hlt | Hgt].
      * apply (Rmult_eq_reg_r (IZR (Zpos ms))); [| lra]. rewrite Hxm.
        apply (f_equal IZR) in Heq. rewrite mult_IZR in Heq. nra.
      * apply IZR_lt in Hlt. rewrite mult_IZR in Hlt.
        split; apply (Rmult_lt_reg_r (IZR (Zpos ms))); try lra; rewrite Hxm; nra.
      * apply IZR_lt in Hgt. rewrite mult_IZR in Hgt.
        split; apply (Rmult_lt_reg_r (IZR (Zpos ms))); try lra; rewrite Hxm; nra.
  - (* precondition *)
    rewrite fexp_eq.
    assert (He'k : (e' <= Z.max (k - 53) (-1074))%Z) by (unfold e'; lia).
    assert (Hm'lo : bpow (d1 - 1 + s) <= IZR m') by (rewrite bpow_add, HIm'; nra).
    assert (Hm'hi : IZR m' < (IZR q + 1) * IZR (Zpos ms)).
    { rewrite Hqr, plus_IZR, mult_IZR. nra. }
    pose proof (IZR_succ_le_bpow_digits q Hq) as Hqd.
    assert (Hlt : bpow (d1 - 1 + s) < bpow (Zdigits2 q + d2)).
    { rewrite (bpow_add (Zdigits2 q)). pose proof (bpow_pos (Zdigits2 q)). nra. }
    apply bpow_lt_inv in Hlt.
    assert (Hk : (k <= Zdigits2 q + e')%Z) by (unfold k, s in *; lia).
    destruct (Z.eq_dec q 0) as [Hq0 | Hqn0].
    + subst q. cbn [Zdigits2] in *. lia.
    + lia.
Qed.

Lemma canonical_lt (m1 e1 m2 e2 : Z) :
  (0 < m1)%Z -> canonical m1 e1 -> canonical m2 e2 ->
  (e1 < e2 \/ (e1 = e2 /\ m1 < m2))%Z ->
  IZR m1 * bpow e1 < IZR m2 * bpow e2.
Proof.
  intros Hpos [H1 [He1 _]] [_ [_ Hn2]] [Hlt | [Heq Hlt]].
  - specialize (Hn2 ltac:(lia)).
    pose proof (bpow_le e1 (e2 - 1) ltac:(lia)) as Hmono.
    assert (Hhalf : 2 * bpow (e2 - 1) = bpow e2).
    { rewrite <- bpow_succ. f_equal. lia. }
    rewrite bpow_52 in Hn2. rewrite bpow_53 in H1.
    pose proof (bpow_pos e1). assert (0 < IZR m1) by (apply IZR_lt; lia). nra.
  - subst e2. apply IZR_lt in Hlt. pose proof (bpow_pos e1). nra.
Qed.

Lemma overflow_above (m'' e'' mt et : Z) :
  (0 < m'')%Z -> canonical m'' e'' -> (971 < e'')%Z ->
  canonical mt et -> (et <= 971)%Z ->
  IZR mt * bpow et < IZR m'' * bpow e''.
Proof.
  intros Hpos [_ [_ Hn]] Hbig [Hmt _] Het.
  specialize (Hn ltac:(lia)).
  pose proof (bpow_le et 971 Het). pose proof (bpow_le 972 e'' ltac:(lia)).
  assert (Hstep : bpow 972 = 2 * bpow 971) by (rewrite <- bpow_succ; reflexivity).
  rewrite bpow_52 in Hn. rewrite bpow_53 in Hmt.
  pose proof (bpow_pos 971). pose proof (bpow_pos et).
  destruct (Rle_or_lt (IZR mt) 0); nra.
Qed.

Lemma SFcompare_pos_lt (m1 m2 : positive) (e1 e2 : Z) :
  SFcompare (S754_finite false m1 e1) (S754_finite false m2 e2) = Some Lt
  <-> (e1 < e2 \/ (e1 = e2 /\ Zpos m1 < Zpos m2))%Z.
Proof.
  cbn. change (Pos.compare_cont Eq m1 m2) with (Pos.compare m1 m2).
  destruct (Z.compare_spec e1 e2), (Pos.compare_spec m1 m2); split; intros;
    try discriminate; try reflexivity; try lia.
Qed.

Lemma SFcompare_neg_lt (m1 m2 : positive) (e1 e2 : Z) :
  SFcompare (S754_finite true m1 e1) (S754_finite true m2 e2) = Some Lt
  <-> (e2 < e1 \/ (e1 = e2 /\ Zpos m2 < Zpos m1))%Z.
Proof.
  cbn. change (Pos.compare_cont Eq m1 m2) with (Pos.compare m1 m2).
  destruct (Z.compare_spec e1 e2), (Pos.compare_spec m1 m2); cbn; split; intros;
    try discriminate; try reflexivity; try lia.
Qed.

Lemma SFcompare_antisym (x y : spec_float) :
  SFcompare x y = Some Gt <-> SFcompare y x = Some Lt.
Proof.
  destruct x as [sx | sx | | sx mx ex], y as [sy | sy | | sy my ey];
    try destruct sx; try destruct sy; cbn; try (split; congruence).
  all: change (Pos.compare_cont Eq mx my) with (Pos.compare mx my).
  all: change (Pos.compare_cont Eq my mx) with (Pos.compare my mx).
  all: rewrite (Z.compare_antisym ex ey), (Pos.compare_antisym mx my).
  all: destruct (ex ?= ey)%Z, (mx ?= my)%positive; cbn; split; congruence.
Qed.

(** A positive number of the format that compares below the rounding of
    [x] is below [x]. *)
Lemma below_rounded_pos (x : R) (r : spec_float) (mt : positive) (et : Z) :
  rounded false x r ->
  canonical (Zpos mt) et -> (et <= 971)%Z ->
  SFcompare (S754_finite false mt et) r = Some Lt ->
  IZR (Zpos mt) * bpow et < x.
Proof.
  intros [m'' [e'' [Hr [Hm'' [Hcanon [_ Hb]]]]]] Ht Het Hcmp.
  destruct (Rlt_or_le (IZR (Zpos mt) * bpow et) x) as [Hlt | Hle]; [exact Hlt |].
  exfalso. specialize (Hb _ _ Ht Hle). subst r.
  destruct m'' as [| p | p]; [discriminate Hcmp | | lia].
  destruct (Z.leb_spec e'' (emax - prec)) as [Hfin | Hinf].
  - apply SFcompare_pos_lt in Hcmp.
    pose proof (canonical_lt (Zpos mt) et (Zpos p) e'' ltac:(lia) Ht Hcanon Hcmp). lra.
  - change (emax - prec)%Z with 971%Z in Hinf.
    pose proof (overflow_above (Zpos p) e'' (Zpos mt) et ltac:(lia) Hcanon Hinf Ht Het). lra.
Qed.

(** A negative number of the format that compares below the rounding of
    [-x] has a magnitude above [x]. *)
Lemma below_rounded_neg (x : R) (r : spec_float) (mt : positive) (et : Z) :
  rounded true x r ->
  canonical (Zpos mt) et ->
  SFcompare (S754_finite true mt et) r = Some Lt ->
  x < IZR (Zpos mt) * bpow et.
Proof.
  intros [m'' [e'' [Hr [Hm'' [Hcanon [Ha _]]]]]] Ht Hcmp.
  destruct (Rlt_or_le x (IZR (Zpos mt) * bpow et)) as [Hlt | Hle]; [exact Hlt |].
  exfalso. specialize (Ha _ _ Ht Hle). subst r.
  destruct m'' as [| p | p]; [| | lia].
  - assert (0 < IZR (Zpos mt)) by (apply IZR_lt; lia). pose proof (bpow_pos et).
    pose proof (bpow_pos e''). nra.
  - destruct (Z.leb_spec e'' (emax - prec)) as [Hfin | Hinf]; [| discriminate Hcmp].
    apply SFcompare_neg_lt in Hcmp.
    assert (Hcmp' : (e'' < et \/ (e'' = et /\ Zpos p < Zpos mt))%Z) by lia.
    pose proof (canonical_lt (Zpos p) e'' (Zpos mt) et ltac:(lia) Hcanon Ht Hcmp'). lra.
Qed.

Lemma rounded_mul (sx : bool) (mx my : positive) (ex ey : Z) :
  canonical (Zpos mx) ex -> canonical (Zpos my) ey ->
  rounded sx (IZR (Zpos mx) * bpow ex * (IZR (Zpos my) * bpow ey))
    (binary_round_aux prec emax sx (Zpos (mx * my)) (ex + ey) loc_Exact).
Proof.
  intros Hx Hy. apply binary_round_aux_between; [lia | | apply mul_precondition; assumption].
  replace (IZR (Zpos mx) * bpow ex * (IZR (Zpos my) * bpow ey))
    with (IZR (Zpos (mx * my)) * bpow (ex + ey)).
  - apply inb_record_of_loc_exact. lia.
  - rewrite Pos2Z.inj_mul, mult_IZR, bpow_add. ring.
Qed.

Lemma rounded_div (sx : bool) (mf ms : positive) (ef es : Z) (x : R) :
  x * (IZR (Zpos ms) * bpow es) = IZR (Zpos mf) * bpow ef ->
  rounded sx x
    (let '(mz, ez, lz) := SFdiv_core_binary prec emax (Zpos mf) ef (Zpos ms) es in
     binary_round_aux prec emax sx mz ez lz).
Proof.
  intros Hx. pose proof (div_core_spec mf ms ef es x Hx) as Hcore.
  destruct (SFdiv_core_binary prec emax (Zpos mf) ef (Zpos ms) es) as [[q e'] l].
  destruct Hcore as [Hq [Hinb Hpre]].
  apply binary_round_aux_between; assumption.
Qed.

Lemma rounded_sign (sx : bool) (x : R) (r : spec_float) :
  rounded sx x r ->
  r = S754_zero sx \/ (exists p e, r = S754_finite sx p e) \/ r = S754_infinity sx.
Proof.
  intros [m'' [e'' [Hr [Hm'' _]]]]. subst r.
  destruct m'' as [| p | p]; [now left | | lia].
  destruct (e'' <=? emax - prec)%Z; [right; left; eauto | now right; right].
Qed.

Lemma quotient_exists (mf ms : positive) (ef es : Z) :
  exists x : R,
    x * (IZR (Zpos ms) * bpow es) = IZR (Zpos mf) * bpow ef.
Proof.
  assert (Hms : 0 < IZR (Zpos ms)) by (apply IZR_lt; lia).
  pose proof (bpow_pos es).
  exists (IZR (Zpos mf) * bpow ef / (IZR (Zpos ms) * bpow es)).
  field. split; lra.
Qed.

(** The rounding of [-x] that compares above a negative number of the
    format has [x] below that number's magnitude. *)
Lemma above_rounded_neg (x : R) (r : spec_float) (mt : positive) (et : Z) :
  rounded true x r ->
  canonical (Zpos mt) et ->
  SFcompare r (S754_finite true mt et) = Some Gt ->
  x < IZR (Zpos mt) * bpow et.
Proof.
  intros [m'' [e'' [Hr [Hm'' [Hcanon [Ha _]]]]]] Ht Hcmp.
  destruct (Rlt_or_le x (IZR (Zpos mt) * bpow et)) as [Hlt | Hle]; [exact Hlt |].
  exfalso. specialize (Ha _ _ Ht Hle). subst r.
  apply SFcompare_antisym in Hcmp.
  destruct m'' as [| p | p]; [| | lia].
  - assert (0 < IZR (Zpos mt)) by (apply IZR_lt; lia). pose proof (bpow_pos et).
    pose proof (bpow_pos e''). nra.
  - destruct (Z.leb_spec e'' (emax - prec)) as [Hfin | Hinf]; [| discriminate Hcmp].
    apply SFcompare_neg_lt in Hcmp.
    assert (Hcmp' : (e'' < et \/ (e'' = et /\ Zpos p < Zpos mt))%Z) by lia.
    pose proof (canonical_lt (Zpos p) e'' (Zpos mt) et ltac:(lia) Hcanon Ht Hcmp'). lra.
Qed.

Lemma SF_quot_below (f s d : spec_float) :
  valid_binary f = true -> valid_binary s = true -> valid_binary d = true ->
  SFcompare s (S754_zero false) = Some Gt ->
  SFcompare f (SF64mul s d) = Some Lt ->
  SFcompare (SF64div f s) d <> Some Gt.
Proof.
  intros Hvf Hvs Hvd Hs Hp Hq.
  destruct s as [ss | ss | | ss ms es]; try destruct ss; try discriminate Hs.
  - destruct f as [sf | sf | | sf mf ef], d as [sd | sd | | sd md ed];
      try destruct sf; try destruct sd; cbn in Hp, Hq; congruence.
  - cbn [valid_binary] in Hvs. apply bounded_canonical in Hvs. destruct Hvs as [Hcs Hes].
    destruct d as [sd | sd | | sd md ed].
    + (* d zero *)
      destruct f as [sf | sf | | sf mf ef]; try destruct sf; try destruct sd;
        try (cbn in Hp, Hq; congruence).
      all: destruct (quotient_exists mf ms ef es) as [x Hx].
      all: pose proof (rounded_div true mf ms ef es x Hx) as Hr.
      all: apply rounded_sign in Hr.
      all: unfold SF64div, SFdiv in Hq; cbn [xorb] in Hq.
      all: destruct Hr as [Hr | [[p [e Hr]] | Hr]]; rewrite Hr in Hq; cbn in Hq; congruence.
    + (* d infinite *)
      destruct sd.
      * destruct f as [sf | sf | | sf mf ef]; try destruct sf; cbn in Hp; congruence.
      * destruct (SF64div f (S754_finite false ms es)) as [sq | sq | | sq mq eq];
          try destruct sq; cbn in Hq; congruence.
    + destruct f as [sf | sf | | sf mf ef]; cbn in Hp; congruence.
    + (* d finite *)
      cbn [valid_binary] in Hvd. apply bounded_canonical in Hvd. destruct Hvd as [Hcd Hed].
      pose proof (rounded_mul sd ms md es ed Hcs Hcd) as Hrp.
      unfold SF64mul, SFmul in Hp. cbn [xorb] in Hp.
      destruct f as [sf | sf | | sf mf ef].
      * (* f zero *)
        apply rounded_sign in Hrp.
        destruct sd.
        -- destruct Hrp as [Hr | [[p [e Hr]] | Hr]]; rewrite Hr in Hp; cbn in Hp; congruence.
        -- cbn in Hq. congruence.
      * (* f infinite *)
        apply rounded_sign in Hrp.
        destruct sf.
        -- destruct sd; cbn in Hq; congruence.
        -- destruct Hrp as [Hr | [[p [e Hr]] | Hr]]; rewrite Hr in Hp;
             destruct sd; cbn in Hp; congruence.
      * discriminate Hp.
      * (* f finite *)
        cbn [valid_binary] in Hvf. apply bounded_canonical in Hvf.
        destruct Hvf as [Hcf Hef].
        destruct (quotient_exists mf ms ef es) as [x Hx].
        pose proof (rounded_div (xorb sf false) mf ms ef es x Hx) as Hrq.
        unfold SF64div, SFdiv in Hq.
        set (p := binary_round_aux prec emax sd (Zpos (ms * md)) (es + ed) loc_Exact) in *.
        set (q := let '(mz, ez, lz) := SFdiv_core_binary prec emax (Zpos mf) ef (Zpos ms) es in
                  binary_round_aux prec emax (xorb sf false) mz ez lz) in *.
        assert (Hms : 0 < IZR (Zpos ms)) by (apply IZR_lt; lia).
        assert (Hmd : 0 < IZR (Zpos md)) by (apply IZR_lt; lia).
        pose proof (bpow_pos es) as Hpes. pose proof (bpow_pos ed) as Hped.
        destruct sf, sd; cbn [xorb] in *.
        -- (* both negative *)
           pose proof (below_rounded_neg _ _ mf ef Hrp Hcf Hp) as Hfp.
           assert (Hqd : x < IZR (Zpos md) * bpow ed).
           { apply (above_rounded_neg x q md ed Hrq Hcd Hq). }
           assert (HA : 0 < IZR (Zpos ms) * bpow es) by (apply Rmult_lt_0_compat; assumption).
           pose proof (Rmult_lt_compat_r _ _ _ HA Hqd) as Hmul.
           rewrite Hx in Hmul. lra.
        -- apply rounded_sign in Hrq.
           destruct Hrq as [Hr | [[pq [eq Hr]] | Hr]]; rewrite Hr in Hq; cbn in Hq; congruence.
        -- apply rounded_sign in Hrp.
           destruct Hrp as [Hr | [[pp [ep Hr]] | Hr]]; rewrite Hr in Hp; cbn in Hp; congruence.
        -- (* both positive *)
           pose proof (below_rounded_pos _ _ mf ef Hrp Hcf Hef Hp) as Hfp.
           apply SFcompare_antisym in Hq.
           pose proof (below_rounded_pos _ _ md ed Hrq Hcd Hed Hq) as Hdq.
           assert (HA : 0 < IZR (Zpos ms) * bpow es) by (apply Rmult_lt_0_compat; assumption).
           pose proof (Rmult_lt_compat_r _ _ _ HA Hdq) as Hmul.
           rewrite Hx in Hmul. lra.
Qed.

End Rounding.

Lemma float_quot_below (f s d : float) :
  py_gt s 0%float = true ->
  py_lt f (s * d)%float = true ->
  py_gt (f / s)%float d = false.
Proof.
  unfold py_gt, py_lt.
  rewrite !compare_spec, mul_spec, div_spec.
  change (Prim2SF 0%float) with (S754_zero false).
  intros Hs Hp.
  pose proof (SF_quot_below (Prim2SF f) (Prim2SF s) (Prim2SF d) (Prim2SF_valid f)
                (Prim2SF_valid s) (Prim2SF_valid d)) as Hlaw.
  destruct (SFcompare (Prim2SF s) (S754_zero false)) as [[] |]; try discriminate Hs.
  destruct (SFcompare (Prim2SF f) _) as [[] |]; try discriminate Hp.
  specialize (Hlaw eq_refl eq_refl).
  destruct (SFcompare _ (Prim2SF d)) as [[] |]; try reflexivity.
  congruence.
Qed.

(** * Properties of the classifier *)

Lemma gt_excludes_eq (x y : float) : py_gt x y = true -> py_eq x y = false.
Proof. unfold py_gt, py_eq. destruct (PrimFloat.compare x y); congruence. Qed.

Lemma eq_excludes_gt (x y : float) : py_eq x y = true -> py_gt x y = false.
Proof. unfold py_gt, py_eq. destruct (PrimFloat.compare x y); congruence. Qed.

Lemma lt_excludes_gt (x y : float) : py_lt x y = true -> py_gt x y = false.
Proof. unfold py_gt, py_lt. destruct (PrimFloat.compare x y); congruence. Qed.


(** The guarded division of [_is_peak_too_wide] never raises: the code
    computes the specification's formula. *)
Lemma is_peak_too_wide_spec (fwhm sweep_span snr snr_distorted low high threshold : float) :
  _is_peak_too_wide fwhm sweep_span snr snr_distorted low high threshold
  = Ok (spec_too_wide fwhm sweep_span snr snr_distorted low high threshold).
Proof.
  unfold _is_peak_too_wide, spec_too_wide, py_truediv.
  destruct (py_gt sweep_span 0%float) eqn:Hpos; cbn.
  - rewrite (gt_excludes_eq _ _ Hpos). reflexivity.
  - reflexivity.
Qed.

(** Past rule 6, the outcome is decided by the width check alone. *)
Lemma cascade_from_rule_7 (metrics : Metrics)
  (snr_min snr_distorted asymmetry_min asymmetry_max skewness_max low high threshold : float) :
  reaches_rule_7 metrics snr_min asymmetry_min asymmetry_max skewness_max = true ->
  _determine_resonator_outcome metrics snr_min snr_distorted asymmetry_min asymmetry_max
    skewness_max low high threshold
  = Ok (if spec_too_wide (fwhm metrics) (sweep_span metrics) (snr metrics)
             snr_distorted low high threshold
        then if py_lt (snr metrics) snr_distorted
             then outcome_low_snr_distorted else outcome_distorted_peak
        else outcome_successful).
Proof.
  unfold reaches_rule_7. intros Hreach.
  repeat (apply andb_prop in Hreach; destruct Hreach as [Hreach ?]).
  repeat match goal with
         | Hn : negb _ = true |- _ => apply negb_true_iff in Hn
         end.
  unfold _determine_resonator_outcome. cbv zeta.
  repeat match goal with
         | Hc : ?c = false |- context [if ?c then _ else _] => rewrite Hc
         end.
  rewrite is_peak_too_wide_spec. cbn.
  destruct (spec_too_wide _ _ _ _ _ _ _);
    [destruct (py_lt (snr metrics) snr_distorted) |]; reflexivity.
Qed.

(** C1: whenever [r_squared > 0.90] and [nrmse < 0.14], the classifier
    returns ["successful"], whatever the other metrics and the thresholds
    are: rule 1 is tested before every other rule. *)
Theorem rule_1_short_circuits (metrics : Metrics)
  (snr_min snr_distorted asymmetry_min asymmetry_max skewness_max : float)
  (distorted_fraction_low_snr distorted_fraction_high_snr fwhm_absolute_threshold : float) :
  py_gt (r_squared metrics) 0.90%float = true ->
  py_lt (nrmse metrics) 0.14%float = true ->
  _determine_resonator_outcome metrics snr_min snr_distorted asymmetry_min asymmetry_max
    skewness_max distorted_fraction_low_snr distorted_fraction_high_snr
    fwhm_absolute_threshold
  = Ok "successful".
Proof.
  intros Hr Hn. unfold _determine_resonator_outcome. cbv zeta.
  unfold R_SQUARED_THRESHOLD, NRMSE_THRESHOLD. rewrite Hr, Hn. reflexivity.
Qed.

(** The cascade always returns, and returns one of eight strings. *)
Lemma cascade_outcome (metrics : Metrics)
  (snr_min snr_distorted asymmetry_min asymmetry_max skewness_max low high threshold : float) :
  exists s : string,
    _determine_resonator_outcome metrics snr_min snr_distorted asymmetry_min
      asymmetry_max skewness_max low high threshold = Ok s
    /\ (s = outcome_successful \/ In s failure_outcomes).
Proof.
  unfold _determine_resonator_outcome. cbv zeta.
  destruct (py_gt _ _ && py_lt _ _);
    [eexists; split; [reflexivity | now left] |].
  destruct (py_lt (snr metrics) snr_min);
    [eexists; split; [reflexivity | cbn; intuition] |].
  destruct (opx_bandwidth_artifact metrics);
    [eexists; split; [reflexivity | cbn; intuition] |].
  destruct (num_peaks metrics >? 1)%Z;
    [eexists; split; [reflexivity | cbn; intuition] |].
  destruct (num_peaks metrics =? 0)%Z;
    [eexists; split; [reflexivity | cbn; intuition] |].
  destruct (_is_peak_shape_distorted _ _ _ _ _);
    [eexists; split; [reflexivity | cbn; intuition] |].
  rewrite is_peak_too_wide_spec. cbn.
  destruct (spec_too_wide _ _ _ _ _ _ _);
    [destruct (py_lt (snr metrics) snr_distorted) |];
    (eexists; split; [reflexivity | cbn; intuition]).
Qed.

(** C2 (as amended): the classifier never raises, returns equal results on
    equal inputs, and its result is ["successful"] or one of the seven
    failure strings of [failure_outcomes]. *)
Theorem classifier_total (metrics : Metrics)
  (snr_min snr_distorted asymmetry_min asymmetry_max skewness_max : float)
  (distorted_fraction_low_snr distorted_fraction_high_snr fwhm_absolute_threshold : float) :
  (exists s : string,
     _determine_resonator_outcome metrics snr_min snr_distorted asymmetry_min
       asymmetry_max skewness_max distorted_fraction_low_snr
       distorted_fraction_high_snr fwhm_absolute_threshold = Ok s
     /\ (s = outcome_successful \/ In s failure_outcomes))
  /\ (forall metrics' : Metrics,
        metrics' = metrics ->
        _determine_resonator_outcome metrics' snr_min snr_distorted asymmetry_min
          asymmetry_max skewness_max distorted_fraction_low_snr
          distorted_fraction_high_snr fwhm_absolute_threshold
        = _determine_resonator_outcome metrics snr_min snr_distorted asymmetry_min
            asymmetry_max skewness_max distorted_fraction_low_snr
            distorted_fraction_high_snr fwhm_absolute_threshold).
Proof.
  split.
  - apply cascade_outcome.
  - intros metrics' Heq. rewrite Heq. reflexivity.
Qed.

(** C3: the classifier never returns the zero-peaks low-SNR message, and
    whenever rule 5 fires the result is the generic no-peaks message. *)
Theorem zero_peaks_low_snr_unreachable (metrics : Metrics)
  (snr_min snr_distorted asymmetry_min asymmetry_max skewness_max : float)
  (distorted_fraction_low_snr distorted_fraction_high_snr fwhm_absolute_threshold : float) :
  _determine_resonator_outcome metrics snr_min snr_distorted asymmetry_min asymmetry_max
    skewness_max distorted_fraction_low_snr distorted_fraction_high_snr
    fwhm_absolute_threshold
  <> Ok outcome_no_peaks_low_snr
  /\ (rule_5_fires metrics snr_min = true ->
      _determine_resonator_outcome metrics snr_min snr_distorted asymmetry_min
        asymmetry_max skewness_max distorted_fraction_low_snr
        distorted_fraction_high_snr fwhm_absolute_threshold
      = Ok outcome_no_peaks).
Proof.
  split.
  - destruct (cascade_outcome metrics snr_min snr_distorted asymmetry_min asymmetry_max
                skewness_max distorted_fraction_low_snr distorted_fraction_high_snr
                fwhm_absolute_threshold) as [s [Hs Hin]].
    rewrite Hs. intros Hdead. injection Hdead as ->.
    destruct Hin as [Hsucc | Hin]; [discriminate Hsucc |].
    cbn in Hin. repeat (destruct Hin as [Hin | Hin]; [discriminate Hin |]).
    exact Hin.
  - unfold rule_5_fires. intros Hfire.
    repeat (apply andb_prop in Hfire; destruct Hfire as [Hfire ?]).
    repeat match goal with
           | Hn : negb _ = true |- _ => apply negb_true_iff in Hn
           end.
    unfold _determine_resonator_outcome. cbv zeta.
    repeat match goal with
           | Hc : ?c = _ |- context [if ?c then _ else _] => rewrite Hc
           end.
    reflexivity.
Qed.

(** C4: past rule 6 the peak is too wide exactly when
    [(sweep_span > 0 and fwhm / sweep_span > distorted_fraction) or
    fwhm > fwhm_absolute_threshold]; with [sweep_span == 0] the check
    divides nothing and is the absolute criterion alone; a too-wide peak
    yields the low-SNR-and-distorted message when [snr < snr_distorted]
    and the distorted-peak message otherwise. *)
Theorem too_wide_rule (metrics : Metrics)
  (snr_min snr_distorted asymmetry_min asymmetry_max skewness_max : float)
  (distorted_fraction_low_snr distorted_fraction_high_snr fwhm_absolute_threshold : float) :
  reaches_rule_7 metrics snr_min asymmetry_min asymmetry_max skewness_max = true ->
  let distorted_fraction :=
    if py_lt (snr metrics) snr_distorted
    then distorted_fraction_low_snr else distorted_fraction_high_snr in
  let too_wide :=
    (py_gt (sweep_span metrics) 0%float
     && py_gt (PrimFloat.div (fwhm metrics) (sweep_span metrics)) distorted_fraction)
    || py_gt (fwhm metrics) fwhm_absolute_threshold in
  _is_peak_too_wide (fwhm metrics) (sweep_span metrics) (snr metrics) snr_distorted
    distorted_fraction_low_snr distorted_fraction_high_snr fwhm_absolute_threshold
  = Ok too_wide
  /\ (py_eq (sweep_span metrics) 0%float = true ->
      py_truediv (fwhm metrics) (sweep_span metrics) = Raise ZeroDivisionError
      /\ too_wide = py_gt (fwhm metrics) fwhm_absolute_threshold)
  /\ _determine_resonator_outcome metrics snr_min snr_distorted asymmetry_min
       asymmetry_max skewness_max distorted_fraction_low_snr
       distorted_fraction_high_snr fwhm_absolute_threshold
     = Ok (if too_wide
           then if py_lt (snr metrics) snr_distorted
                then outcome_low_snr_distorted else outcome_distorted_peak
           else outcome_successful).
Proof.
  intros Hreach distorted_fraction too_wide.
  split; [apply is_peak_too_wide_spec |].
  split.
  - intros Hzero. split.
    + unfold py_truediv. rewrite Hzero. reflexivity.
    + subst too_wide. rewrite (eq_excludes_gt _ _ Hzero). reflexivity.
  - apply cascade_from_rule_7. exact Hreach.
Qed.

(** The code's cascade is the specification's, at the configuration made
    of the eight arguments and the two module constants. *)
Lemma cascade_refines_spec (metrics : Metrics)
  (snr_min snr_distorted asymmetry_min asymmetry_max skewness_max low high threshold : float) :
  _determine_resonator_outcome metrics snr_min snr_distorted asymmetry_min asymmetry_max
    skewness_max low high threshold
  = Ok (spec_classify
          {| ClassifierConfig.snr_min := snr_min;
             ClassifierConfig.snr_distorted := snr_distorted;
             ClassifierConfig.asymmetry_min := asymmetry_min;
             ClassifierConfig.asymmetry_max := asymmetry_max;
             ClassifierConfig.skewness_max := skewness_max;
             ClassifierConfig.distorted_fraction_low_snr := low;
             ClassifierConfig.distorted_fraction_high_snr := high;
             ClassifierConfig.fwhm_absolute_threshold_hz := threshold;
             ClassifierConfig.nrmse_threshold := NRMSE_THRESHOLD;
             ClassifierConfig.r_squared_threshold := R_SQUARED_THRESHOLD |}
          metrics).
Proof.
  unfold _determine_resonator_outcome, spec_classify, _is_peak_shape_distorted.
  cbv zeta. cbn [ClassifierConfig.snr_min ClassifierConfig.snr_distorted
    ClassifierConfig.asymmetry_min ClassifierConfig.asymmetry_max
    ClassifierConfig.skewness_max ClassifierConfig.distorted_fraction_low_snr
    ClassifierConfig.distorted_fraction_high_snr
    ClassifierConfig.fwhm_absolute_threshold_hz ClassifierConfig.nrmse_threshold
    ClassifierConfig.r_squared_threshold].
  destruct (py_gt _ _ && py_lt _ _); [reflexivity |].
  destruct (py_lt (snr metrics) snr_min); [reflexivity |].
  destruct (opx_bandwidth_artifact metrics); [reflexivity |].
  destruct (num_peaks metrics >? 1)%Z; [reflexivity |].
  destruct (num_peaks metrics =? 0)%Z; [reflexivity |].
  destruct (py_lt (asymmetry metrics) asymmetry_min || py_gt (asymmetry metrics) asymmetry_max
            || py_gt (PrimFloat.abs (skewness metrics)) skewness_max); [reflexivity |].
  rewrite is_peak_too_wide_spec. cbn.
  destruct (spec_too_wide _ _ _ _ _ _ _);
    [destruct (py_lt (snr metrics) snr_distorted) |]; reflexivity.
Qed.

Lemma find_none_of_forallb {A : Type} (p : A -> bool) (l : list A) :
  forallb p l = true -> find (fun x => negb (p x)) l = None.
Proof.
  induction l as [| x l IH]; cbn; [reflexivity |].
  intros Hall. apply andb_prop in Hall. destruct Hall as [Hx Hl].
  rewrite Hx. cbn. apply IH. exact Hl.
Qed.

Lemma find_some_of_forallb {A : Type} (p : A -> bool) (l : list A) :
  forallb p l = false -> exists x, find (fun x => negb (p x)) l = Some x.
Proof.
  induction l as [| x l IH]; cbn; [discriminate |].
  destruct (p x); cbn; [exact IH | intros _; now exists x].
Qed.

(** C5 (as amended): a call may override any subset of the eight
    threshold parameters of the signature, and the decision then uses the
    overriding values, with rule 1 comparing against the module constants
    [R_SQUARED_THRESHOLD] and [NRMSE_THRESHOLD]; a call that names any
    other threshold is a [TypeError]. *)
Theorem call_overrides_eight_thresholds (metrics : Metrics) (kwargs : list (string * float)) :
  (forallb (fun kv => is_parameter (fst kv)) kwargs = true ->
   call_determine_resonator_outcome metrics kwargs
   = Ok (spec_classify (call_config kwargs) metrics))
  /\ (forallb (fun kv => is_parameter (fst kv)) kwargs = false ->
      exists msg : string,
        call_determine_resonator_outcome metrics kwargs = Raise (TypeError msg)).
Proof.
  unfold call_determine_resonator_outcome. split.
  - intros Hall. rewrite (find_none_of_forallb _ _ Hall).
    rewrite cascade_refines_spec. reflexivity.
  - intros Hsome. destruct (find_some_of_forallb _ _ Hsome) as [[name v] Hfind].
    rewrite Hfind. eexists. reflexivity.
Qed.

(** * Properties of the metric extractor *)

Lemma getitem_some {V : Type} (d : list (string * V)) (key : string) (v : V) :
  dict_get d key = Some v -> getitem d key = Ok v.
Proof. unfold getitem. intros ->. reflexivity. Qed.

(** After the slice, the fitter and the sweep span are found, the
    extractor reads the eight required fields in order: it builds the
    record when none is missing and raises on the first missing one. *)
Lemma extract_reads_fields (fit : Dataset.t) (fitters : list (string * S21Resonator.t))
  (qubit_name : string) (qubit_data : QubitData.t) (fitter : S21Resonator.t) (span : float) :
  dict_get (Dataset.qubit fit) qubit_name = Some qubit_data ->
  dict_get fitters qubit_name = Some fitter ->
  extract_sweep_span fit = Ok span ->
  match hd_error (missing_fields qubit_data fitter) with
  | Some name => _extract_qubit_fit_metrics fit fitters qubit_name = Raise (lookup_error name)
  | None =>
      exists metrics : Metrics,
        _extract_qubit_fit_metrics fit fitters qubit_name = Ok metrics
        /\ sweep_span metrics = span
        /\ QubitData.opx_bandwidth_artifact qubit_data
           = Some (negb (opx_bandwidth_artifact metrics))
  end.
Proof.
  intros Hslice Hfitter Hspan.
  unfold _extract_qubit_fit_metrics, missing_fields.
  rewrite (getitem_some _ _ _ Hslice), (getitem_some _ _ _ Hfitter), Hspan.
  cbn [bind]. unfold getitem.
  destruct qubit_data as [np s fw a sk art]. cbn [QubitData.num_peaks QubitData.snr
    QubitData.fwhm QubitData.asymmetry QubitData.skewness
    QubitData.opx_bandwidth_artifact].
  destruct np; [| reflexivity].
  destruct s; [| reflexivity].
  destruct fw; [| reflexivity].
  destruct a; [| reflexivity].
  destruct sk; [| reflexivity].
  destruct art as [raw |]; [| reflexivity].
  destruct (dict_get (S21Resonator.quality_metrics fitter) "nrmse"); [| reflexivity].
  destruct (dict_get (S21Resonator.quality_metrics fitter) "r_squared"); [| reflexivity].
  cbn. eexists. split; [reflexivity |]. split; [reflexivity |].
  cbn. rewrite negb_involutive. reflexivity.
Qed.

(** A returned record carries the sweep span of the dataset. *)
Lemma extract_sweep_span_of_result (fit : Dataset.t)
  (fitters : list (string * S21Resonator.t)) (qubit_name : string) (metrics : Metrics) :
  _extract_qubit_fit_metrics fit fitters qubit_name = Ok metrics ->
  extract_sweep_span fit = Ok (sweep_span metrics).
Proof.
  unfold _extract_qubit_fit_metrics.
  destruct (getitem (Dataset.qubit fit) qubit_name) as [qubit_data |]; [| discriminate].
  destruct (getitem fitters qubit_name) as [fitter |]; [| discriminate].
  destruct (extract_sweep_span fit) as [span |]; [| discriminate].
  cbn [bind].
  destruct (getattr (QubitData.num_peaks qubit_data) _); [| discriminate].
  destruct (getattr (QubitData.snr qubit_data) _); [| discriminate].
  destruct (getattr (QubitData.fwhm qubit_data) _); [| discriminate].
  destruct (getattr (QubitData.asymmetry qubit_data) _); [| discriminate].
  destruct (getattr (QubitData.skewness qubit_data) _); [| discriminate].
  destruct (getattr (QubitData.opx_bandwidth_artifact qubit_data) _); [| discriminate].
  destruct (getitem (S21Resonator.quality_metrics fitter) "nrmse"); [| discriminate].
  destruct (getitem (S21Resonator.quality_metrics fitter) "r_squared"); [| discriminate].
  cbn [bind]. intros Hok. injection Hok as <-. reflexivity.
Qed.

(** C6: for a qubit whose fields are all present, the extractor returns a
    record whose [opx_bandwidth_artifact] is the negation of the raw flag
    of the fit dataset. *)
Theorem artifact_flag_inverted (fit : Dataset.t)
  (fitters : list (string * S21Resonator.t)) (qubit_name : string)
  (qubit_data : QubitData.t) (fitter : S21Resonator.t) (span : float) (raw : bool) :
  dict_get (Dataset.qubit fit) qubit_name = Some qubit_data ->
  dict_get fitters qubit_name = Some fitter ->
  extract_sweep_span fit = Ok span ->
  missing_fields qubit_data fitter = [] ->
  QubitData.opx_bandwidth_artifact qubit_data = Some raw ->
  exists metrics : Metrics,
    _extract_qubit_fit_metrics fit fitters qubit_name = Ok metrics
    /\ opx_bandwidth_artifact metrics = negb raw.
Proof.
  intros Hslice Hfitter Hspan Hnone Hraw.
  pose proof (extract_reads_fields fit fitters qubit_name qubit_data fitter span
                Hslice Hfitter Hspan) as Hread.
  rewrite Hnone in Hread. cbn in Hread.
  destruct Hread as [metrics [Hok [_ Hflag]]].
  exists metrics. split; [exact Hok |].
  rewrite Hraw in Hflag. injection Hflag as ->. symmetry. apply negb_involutive.
Qed.






(** * Monotonicity of the width check *)

(** C8: for a record that passes rules 1 to 6 and is judged too wide,
    replacing [fwhm] by a value below both
    [sweep_span * distorted_fraction] and [fwhm_absolute_threshold] turns
    the outcome from a distortion message into ["successful"]. *)
Theorem narrower_peak_is_successful (metrics : Metrics)
  (snr_min snr_distorted asymmetry_min asymmetry_max skewness_max : float)
  (distorted_fraction_low_snr distorted_fraction_high_snr fwhm_absolute_threshold : float)
  (new_fwhm : float) :
  reaches_rule_7 metrics snr_min asymmetry_min asymmetry_max skewness_max = true ->
  _is_peak_too_wide (fwhm metrics) (sweep_span metrics) (snr metrics) snr_distorted
    distorted_fraction_low_snr distorted_fraction_high_snr fwhm_absolute_threshold
  = Ok true ->
  py_lt new_fwhm
    (PrimFloat.mul (sweep_span metrics)
       (if py_lt (snr metrics) snr_distorted
        then distorted_fraction_low_snr else distorted_fraction_high_snr)) = true ->
  py_lt new_fwhm fwhm_absolute_threshold = true ->
  (_determine_resonator_outcome metrics snr_min snr_distorted asymmetry_min
     asymmetry_max skewness_max distorted_fraction_low_snr
     distorted_fraction_high_snr fwhm_absolute_threshold
   = Ok outcome_low_snr_distorted
   \/ _determine_resonator_outcome metrics snr_min snr_distorted asymmetry_min
        asymmetry_max skewness_max distorted_fraction_low_snr
        distorted_fraction_high_snr fwhm_absolute_threshold
      = Ok outcome_distorted_peak)
  /\ _determine_resonator_outcome (with_fwhm metrics new_fwhm) snr_min snr_distorted
       asymmetry_min asymmetry_max skewness_max distorted_fraction_low_snr
       distorted_fraction_high_snr fwhm_absolute_threshold
     = Ok outcome_successful.
Proof.
  intros Hreach Hwide Hrel Habs.
  rewrite is_peak_too_wide_spec in Hwide. injection Hwide as Hwide.
  split.
  - rewrite (cascade_from_rule_7 _ _ snr_distorted _ _ _ distorted_fraction_low_snr
               distorted_fraction_high_snr fwhm_absolute_threshold Hreach).
    rewrite Hwide. destruct (py_lt (snr metrics) snr_distorted); [now left | now right].
  - assert (Hreach' : reaches_rule_7 (with_fwhm metrics new_fwhm) snr_min asymmetry_min
                        asymmetry_max skewness_max = true) by exact Hreach.
    rewrite (cascade_from_rule_7 _ _ snr_distorted _ _ _ distorted_fraction_low_snr
               distorted_fraction_high_snr fwhm_absolute_threshold Hreach').
    unfold spec_too_wide, with_fwhm. cbn [fwhm sweep_span snr].
    rewrite (lt_excludes_gt _ _ Habs), orb_false_r.
    destruct (py_gt (sweep_span metrics) 0%float) eqn:Hpos; [| reflexivity].
    rewrite (float_quot_below _ _ _ Hpos Hrel). reflexivity.
Qed.

(** * Properties of the result logger *)

Lemma append_assoc (a b c : string) : (a ++ b) ++ c = a ++ (b ++ c).
Proof. induction a as [| ch a IH]; cbn; [reflexivity | now rewrite IH]. Qed.

Lemma log_message_format (qubit_name : string) (results : fit_result) :
  log_message qubit_name results
  = let '(outcome, frequency, fwhm) := logged_fields results in
    message_format qubit_name outcome frequency fwhm.
Proof.
  unfold log_message, message_format.
  destruct (logged_fields results) as [[outcome frequency] width].
  destruct (String.eqb outcome "successful");
    repeat rewrite append_assoc; reflexivity.
Qed.

(** C9 (as amended): the logger emits one message per item of
    [fit_results], in order; the message is [message_format], with two
    spaces after the colon; a dict is read with the defaults ["unknown"]
    and [0.0]. *)
Theorem log_fitted_results_messages (fit_results : list (string * fit_result)) :
  log_fitted_results fit_results
  = map (fun item =>
           let '(outcome, frequency, fwhm) := logged_fields (snd item) in
           "Results for qubit " ++ fst item ++ ":  "
           ++ (if String.eqb outcome "successful"
               then "SUCCESS!" else "FAIL! Reason: " ++ outcome)
           ++ newline ++ tab
           ++ "Resonator frequency: " ++ float_format 3 (PrimFloat.mul frequency 1e-9%float)
           ++ " GHz | "
           ++ "FWHM: " ++ float_format 1 (PrimFloat.mul fwhm 1e-3%float) ++ " kHz | ")
        fit_results
  /\ length (log_fitted_results fit_results) = length fit_results
  /\ (forall p : FitParameters.t,
        logged_fields (Structured p)
        = (FitParameters.outcome p, FitParameters.frequency p, FitParameters.fwhm p))
  /\ (forall d : LooseRecord.t,
        logged_fields (Loose d)
        = (match LooseRecord.outcome d with Some o => o | None => "unknown" end,
           match LooseRecord.frequency d with Some f => f | None => 0.0%float end,
           match LooseRecord.fwhm d with Some w => w | None => 0.0%float end)).
Proof.
  split; [| split; [apply length_map | split; intros; reflexivity]].
  unfold log_fitted_results. apply map_ext. intros [qubit_name results].
  cbn [fst snd]. rewrite log_message_format. reflexivity.
Qed.

(** * More on the order of binary64 numbers *)

Lemma is_nan_Prim2SF (x : float) :
  PrimFloat.is_nan x = true <-> Prim2SF x = S754_nan.
Proof.
  unfold Prim2SF. destruct (PrimFloat.is_nan x); split; try reflexivity; try discriminate.
  destruct (PrimFloat.is_zero x); [discriminate |].
  destruct (PrimFloat.is_infinity x); [discriminate |].
  destruct (Z.frexp x) as [r e].
  destruct (shr_fexp prec emax _ _ _) as [mrs e'].
  destruct (shr_m mrs); discriminate.
Qed.

Lemma not_nan_Prim2SF (x : float) :
  PrimFloat.is_nan x = false <-> Prim2SF x <> S754_nan.
Proof.
  rewrite <- is_nan_Prim2SF. destruct (PrimFloat.is_nan x); split; congruence.
Qed.

Lemma compare_nan_l (x y : float) :
  PrimFloat.is_nan x = true -> PrimFloat.compare x y = FNotComparable.
Proof.
  intros Hnan. apply is_nan_Prim2SF in Hnan. rewrite compare_spec, Hnan. reflexivity.
Qed.

Lemma compare_nan_r (x y : float) :
  PrimFloat.is_nan y = true -> PrimFloat.compare x y = FNotComparable.
Proof.
  intros Hnan. apply is_nan_Prim2SF in Hnan. rewrite compare_spec, Hnan.
  destruct (Prim2SF x); reflexivity.
Qed.

Lemma float_py_lt (a b : float) :
  py_lt a b = true
  <-> Prim2SF a <> S754_nan /\ Prim2SF b <> S754_nan
      /\ lex_compare (sf_rank (Prim2SF a)) (sf_rank (Prim2SF b)) = Lt.
Proof.
  unfold py_lt. split.
  - intros Hlt. destruct (float_compare_nan a b) as [Ha Hb].
    { intros Hnc. rewrite Hnc in Hlt. discriminate Hlt. }
    split; [exact Ha |]. split; [exact Hb |].
    rewrite (float_compare_rank a b Ha Hb) in Hlt.
    destruct (lex_compare _ _); cbn in Hlt; congruence.
  - intros [Ha [Hb Hlt]]. rewrite (float_compare_rank a b Ha Hb), Hlt. reflexivity.
Qed.

Lemma float_py_gt (a b : float) :
  py_gt a b = true
  <-> Prim2SF a <> S754_nan /\ Prim2SF b <> S754_nan
      /\ lex_compare (sf_rank (Prim2SF a)) (sf_rank (Prim2SF b)) = Gt.
Proof.
  unfold py_gt. split.
  - intros Hgt. destruct (float_compare_nan a b) as [Ha Hb].
    { intros Hnc. rewrite Hnc in Hgt. discriminate Hgt. }
    split; [exact Ha |]. split; [exact Hb |].
    rewrite (float_compare_rank a b Ha Hb) in Hgt.
    destruct (lex_compare _ _); cbn in Hgt; congruence.
  - intros [Ha [Hb Hgt]]. rewrite (float_compare_rank a b Ha Hb), Hgt. reflexivity.
Qed.

Lemma lex_lt_ge_trans (p q r : Z * Z * Z) :
  lex_compare p q = Lt -> lex_ge r q -> lex_compare p r = Lt.
Proof.
  destruct p as [[a b] c], q as [[a' b'] c'], r as [[a'' b''] c'']. cbn.
  destruct (Z.compare_spec a a'), (Z.compare_spec b b'), (Z.compare_spec c c');
    try discriminate; intros _ Hge;
    destruct (Z.compare_spec a a''), (Z.compare_spec b b''), (Z.compare_spec c c'');
    try reflexivity; lia.
Qed.

Lemma lex_gt_ge_trans (p q r : Z * Z * Z) :
  lex_compare p q = Gt -> lex_ge q r -> lex_compare p r = Gt.
Proof.
  destruct p as [[a b] c], q as [[a' b'] c'], r as [[a'' b''] c'']. cbn.
  destruct (Z.compare_spec a a'), (Z.compare_spec b b'), (Z.compare_spec c c');
    try discriminate; intros _ Hge;
    destruct (Z.compare_spec a a''), (Z.compare_spec b b''), (Z.compare_spec c c'');
    try reflexivity; lia.
Qed.

(** [a < b <= c] gives [a < c]. *)
Lemma float_lt_le_trans (a b c : float) :
  py_lt a b = true -> py_ge c b = true -> py_lt a c = true.
Proof.
  rewrite !float_py_lt, float_py_ge. intros [Ha [Hb Hab]] [Hc [_ Hcb]].
  split; [exact Ha |]. split; [exact Hc |].
  apply (lex_lt_ge_trans _ (sf_rank (Prim2SF b))); assumption.
Qed.

(** [a > b >= c] gives [a > c]. *)
Lemma float_gt_ge_trans (a b c : float) :
  py_gt a b = true -> py_ge b c = true -> py_gt a c = true.
Proof.
  rewrite !float_py_gt, float_py_ge. intros [Ha [Hb Hab]] [_ [Hc Hbc]].
  split; [exact Ha |]. split; [exact Hc |].
  apply (lex_gt_ge_trans _ (sf_rank (Prim2SF b))); assumption.
Qed.

(** On numbers, [not (a < b)] is [a >= b] and [not (a > b)] is [b >= a]. *)
Lemma float_not_lt (a b : float) :
  PrimFloat.is_nan a = false -> PrimFloat.is_nan b = false ->
  py_lt a b = negb (py_ge a b).
Proof.
  intros Ha Hb. apply not_nan_Prim2SF in Ha. apply not_nan_Prim2SF in Hb.
  unfold py_lt, py_ge. rewrite (float_compare_rank a b Ha Hb).
  destruct (lex_compare _ _); reflexivity.
Qed.

Lemma float_not_gt (a b : float) :
  PrimFloat.is_nan a = false -> PrimFloat.is_nan b = false ->
  py_gt a b = negb (py_ge b a).
Proof.
  intros Ha Hb. apply not_nan_Prim2SF in Ha. apply not_nan_Prim2SF in Hb.
  unfold py_gt, py_ge. rewrite (float_compare_rank a b Ha Hb), (float_compare_rank b a Hb Ha).
  rewrite (lex_compare_antisym (sf_rank (Prim2SF a))).
  destruct (lex_compare _ _); reflexivity.
Qed.

(** ** Rounding to nearest is monotone *)

Section Nearest.
Local Open Scope R_scope.

Lemma Rabs_le_left (a b : R) : b <= 0 -> b <= a <= - b -> Rabs a <= Rabs b.
Proof. intros Hb Ha. unfold Rabs. destruct (Rcase_abs a), (Rcase_abs b); lra. Qed.

Lemma Rabs_le_right (a b : R) : 0 <= b -> - b <= a <= b -> Rabs a <= Rabs b.
Proof. intros Hb Ha. unfold Rabs. destruct (Rcase_abs a), (Rcase_abs b); lra. Qed.

Lemma binary_round_aux_nearest (sx : bool) (m e : Z) (l : location) (x : R) :
  (0 <= m)%Z ->
  inb (shr_record_of_loc m l) e x ->
  (e <= fexp prec emax (Zdigits2 m + e))%Z ->
  rounded_nearest sx x (binary_round_aux prec emax sx m e l).
Proof.
  intros Hm Hinb Hpre.
  destruct (shr_fexp_grid m e l x Hm Hinb Hpre) as [Hinb' [Hm' [Hlt' [He' Hn']]]].
  unfold rounded_nearest, binary_round_aux.
  destruct (shr_fexp prec emax m e l) as [mrs' e'] eqn:Hfirst. cbn [fst snd] in *.
  set (m' := shr_m mrs') in *.
  destruct (round_nearest_even_cases m' (loc_of_shr_record mrs')) as [Hround Hexact].
  assert (Hmr : (0 <= round_nearest_even m' (loc_of_shr_record mrs'))%Z) by lia.
  assert (Hmr_hi : IZR (round_nearest_even m' (loc_of_shr_record mrs')) <= bpow 53).
  { rewrite bpow_53 in Hlt' |- *. apply lt_IZR in Hlt'. apply IZR_le. lia. }
  assert (Hmr_n : (-1074 < e')%Z ->
                  bpow 52 <= IZR (round_nearest_even m' (loc_of_shr_record mrs'))).
  { intros Hnorm. specialize (Hn' Hnorm). rewrite bpow_52 in Hn' |- *.
    apply le_IZR in Hn'. apply IZR_le. lia. }
  destruct (shr_fexp_carry _ e' Hmr Hmr_hi He' Hmr_n) as [Hval [Hm'' [Hlt'' [He'' Hn'']]]].
  destruct (shr_fexp prec emax _ e' loc_Exact) as [mrs'' e''] eqn:Hsecond.
  cbn [fst snd] in *.
  exists (shr_m mrs''), e''.
  split; [reflexivity |]. split; [exact Hm'' |].
  split; [split; [exact Hlt'' | split; assumption] |].
  pose proof (bpow_pos e') as Hpe'.
  assert (Hcanon' : canonical m' e') by (split; [exact Hlt' | split; assumption]).
  intros mt et Hcanon. rewrite Hval.
  assert (Hgap : IZR mt * bpow et < (IZR m' + 1) * bpow e' ->
                 IZR mt * bpow et <= IZR m' * bpow e').
  { apply grid_gap; assumption. }
  destruct Hinb' as [_ Hloc]. fold m' in Hloc.
  pose proof (inb_bounds _ _ _ (conj Hm' Hloc)) as [Hlo Hhi]. fold m' in Hlo, Hhi.
  destruct (Rlt_or_le (IZR mt * bpow et) ((IZR m' + 1) * bpow e')) as [Hbelow | Habove];
    [specialize (Hgap Hbelow); apply Rabs_le_left | apply Rabs_le_right]; try lra.
  - destruct (loc_of_shr_record mrs') as [| []]; cbn [round_nearest_even];
      try destruct (Z.even m'); rewrite ?plus_IZR; nra.
  - destruct (loc_of_shr_record mrs') as [| []]; cbn [round_nearest_even];
      try destruct (Z.even m'); rewrite ?plus_IZR; nra.
Qed.


Lemma nearest_div (sx : bool) (mf ms : positive) (ef es : Z) (x : R) :
  x * (IZR (Zpos ms) * bpow es) = IZR (Zpos mf) * bpow ef ->
  rounded_nearest sx x
    (let '(mz, ez, lz) := SFdiv_core_binary prec emax (Zpos mf) ef (Zpos ms) es in
     binary_round_aux prec emax sx mz ez lz).
Proof.
  intros Hx. pose proof (div_core_spec mf ms ef es x Hx) as Hcore.
  destruct (SFdiv_core_binary prec emax (Zpos mf) ef (Zpos ms) es) as [[q e'] l].
  destruct Hcore as [Hq [Hinb Hpre]].
  apply binary_round_aux_nearest; assumption.
Qed.

(** Of two numbers of the format, the one of smaller value has the
    smaller exponent, or the same exponent and a smaller mantissa. *)
Lemma canonical_le_inv (m1 e1 m2 e2 : Z) :
  (0 <= m1)%Z -> (0 <= m2)%Z -> canonical m1 e1 -> canonical m2 e2 ->
  IZR m1 * bpow e1 <= IZR m2 * bpow e2 ->
  m1 = 0%Z \/ ((0 < m2)%Z /\ (e1 < e2 \/ (e1 = e2 /\ m1 <= m2))%Z).
Proof.
  intros H1 H2 Hc1 Hc2 Hle.
  destruct (Z.eq_dec m1 0) as [Hz | Hnz]; [now left | right].
  pose proof (bpow_pos e1). pose proof (bpow_pos e2).
  assert (Hp1 : 0 < IZR m1) by (apply IZR_lt; lia).
  assert (Hp2 : (0 < m2)%Z).
  { destruct (Z.eq_dec m2 0) as [-> | ?]; [nra | lia]. }
  split; [exact Hp2 |].
  destruct (Z_lt_le_dec e1 e2) as [? | Hge]; [now left |].
  destruct (Z.eq_dec e1 e2) as [Heq | Hne].
  - destruct (Z_le_gt_dec m1 m2) as [? | Hgt]; [right; now split |].
    pose proof (canonical_lt m2 e2 m1 e1 Hp2 Hc2 Hc1 ltac:(lia)). lra.
  - pose proof (canonical_lt m2 e2 m1 e1 Hp2 Hc2 Hc1 ltac:(lia)). lra.
Qed.

(** Rounding to nearest is monotone. *)
Lemma nearest_mono (sx : bool) (x y : R) (rx ry : spec_float) :
  x < y -> rounded_nearest sx x rx -> rounded_nearest sx y ry ->
  if sx then lex_ge (sf_rank rx) (sf_rank ry) else lex_ge (sf_rank ry) (sf_rank rx).
Proof.
  intros Hxy (mx & ex & -> & Hmx & Hcx & Hnx) (my & ey & -> & Hmy & Hcy & Hny).
  assert (Hle : IZR mx * bpow ex <= IZR my * bpow ey).
  { destruct (Rle_or_lt (IZR mx * bpow ex) (IZR my * bpow ey)) as [? | Hgt]; [assumption |].
    exfalso. specialize (Hnx _ _ Hcy). specialize (Hny _ _ Hcx).
    unfold Rabs in Hnx, Hny.
    destruct (Rcase_abs _), (Rcase_abs _), (Rcase_abs _), (Rcase_abs _); lra. }
  destruct (canonical_le_inv _ _ _ _ Hmx Hmy Hcx Hcy Hle) as [-> | [Hpos Hord]].
  - destruct my as [| p | p]; [| | lia]; [destruct sx; cbn; lia |].
    destruct (ey <=? emax - prec)%Z; destruct sx; cbn; lia.
  - destruct mx as [| px | px], my as [| py | py]; try lia.
    + destruct (ey <=? emax - prec)%Z; destruct sx; cbn; lia.
    + change (emax - prec)%Z with 971%Z.
      destruct (Z.leb_spec ex 971), (Z.leb_spec ey 971); destruct sx; cbn; lia.
Qed.

Lemma SFdiv_mono (f f' : spec_float) (ms : positive) (es : Z) :
  valid_binary f = true -> valid_binary f' = true ->
  bounded prec emax ms es = true ->
  f <> S754_nan -> f' <> S754_nan ->
  lex_ge (sf_rank f') (sf_rank f) ->
  SF64div f (S754_finite false ms es) <> S754_nan
  /\ SF64div f' (S754_finite false ms es) <> S754_nan
  /\ lex_ge (sf_rank (SF64div f' (S754_finite false ms es)))
       (sf_rank (SF64div f (S754_finite false ms es))).
Proof.
  intros Hvf Hvf' Hvs Hf Hf' Hge.
  apply bounded_canonical in Hvs. destruct Hvs as [Hcs Hes].
  assert (Hquot : forall (sf : bool) (mf : positive) (ef : Z),
            let q := SF64div (S754_finite sf mf ef) (S754_finite false ms es) in
            q = S754_zero sf \/ (exists p e, q = S754_finite sf p e) \/ q = S754_infinity sf).
  { intros sf mf ef. destruct (quotient_exists mf ms ef es) as [x Hx].
    pose proof (rounded_div (xorb sf false) mf ms ef es x Hx) as Hr.
    apply rounded_sign in Hr. destruct sf; exact Hr. }
  destruct f as [sf | sf | | sf mf ef]; [| | congruence |];
    destruct f' as [sf' | sf' | | sf' mf' ef']; try congruence.
  - (* zero, zero *)
    destruct sf, sf'; cbn; repeat split; try discriminate; lia.
  - (* zero, infinite *)
    destruct sf, sf'; cbn in *; repeat split; try discriminate; lia.
  - (* zero, finite *)
    destruct (Hquot sf' mf' ef') as [Hq | [[p [e Hq]] | Hq]]; cbn zeta in Hq; rewrite Hq;
      destruct sf, sf'; cbn in *; repeat split; try discriminate; lia.
  - destruct sf, sf'; cbn in *; repeat split; try discriminate; lia.
  - destruct sf, sf'; cbn in *; repeat split; try discriminate; lia.
  - destruct (Hquot sf' mf' ef') as [Hq | [[p [e Hq]] | Hq]]; cbn zeta in Hq; rewrite Hq;
      destruct sf, sf'; cbn in *; repeat split; try discriminate; lia.
  - destruct (Hquot sf mf ef) as [Hq | [[p [e Hq]] | Hq]]; cbn zeta in Hq; rewrite Hq;
      destruct sf, sf'; cbn in *; repeat split; try discriminate; lia.
  - destruct (Hquot sf mf ef) as [Hq | [[p [e Hq]] | Hq]]; cbn zeta in Hq; rewrite Hq;
      destruct sf, sf'; cbn in *; repeat split; try discriminate; lia.
  - (* finite, finite *)
    assert (Hnan : forall sf mf ef,
              SF64div (S754_finite sf mf ef) (S754_finite false ms es) <> S754_nan).
    { intros s0 m0 e0. destruct (Hquot s0 m0 e0) as [Hq | [[p [e Hq]] | Hq]];
        cbn zeta in Hq; rewrite Hq; discriminate. }
    split; [apply Hnan |]. split; [apply Hnan |].
    cbn [valid_binary] in Hvf, Hvf'.
    apply bounded_canonical in Hvf. destruct Hvf as [Hcf Hef].
    apply bounded_canonical in Hvf'. destruct Hvf' as [Hcf' Hef'].
    destruct (Bool.eqb sf sf') eqn:Hsign.
    + apply Bool.eqb_prop in Hsign. subst sf'.
      destruct (Z.eq_dec ef ef') as [He | He];
        [destruct (Pos.eq_dec mf mf') as [Hm | Hm] |].
      * subst. destruct (Hquot sf mf' ef') as [Hq | [[p [e Hq]] | Hq]]; cbn zeta in Hq;
          rewrite Hq; destruct sf; cbn; lia.
      * subst ef'. destruct (quotient_exists mf ms ef es) as [x Hx].
        destruct (quotient_exists mf' ms ef es) as [y Hy].
        pose proof (nearest_div (xorb sf false) mf ms ef es x Hx) as Hrx.
        pose proof (nearest_div (xorb sf false) mf' ms ef es y Hy) as Hry.
        assert (HS : 0 < IZR (Zpos ms) * bpow es).
        { apply Rmult_lt_0_compat; [apply IZR_lt; lia | apply bpow_pos]. }
        pose proof (bpow_pos ef) as Hpe.
        unfold SF64div, SFdiv.
        destruct sf; cbn [xorb] in Hrx, Hry |- *; cbn in Hge.
        -- assert (Hlt : (Zpos mf' < Zpos mf)%Z) by lia.
           apply IZR_lt in Hlt.
           assert (Hyx : y < x).
           { apply (Rmult_lt_reg_r (IZR (Zpos ms) * bpow es)); [exact HS |].
             rewrite Hx, Hy. nra. }
           exact (nearest_mono true y x _ _ Hyx Hry Hrx).
        -- assert (Hlt : (Zpos mf < Zpos mf')%Z) by lia.
           apply IZR_lt in Hlt.
           assert (Hyx : x < y).
           { apply (Rmult_lt_reg_r (IZR (Zpos ms) * bpow es)); [exact HS |].
             rewrite Hx, Hy. nra. }
           exact (nearest_mono false x y _ _ Hyx Hrx Hry).
      * destruct (quotient_exists mf ms ef es) as [x Hx].
        destruct (quotient_exists mf' ms ef' es) as [y Hy].
        pose proof (nearest_div (xorb sf false) mf ms ef es x Hx) as Hrx.
        pose proof (nearest_div (xorb sf false) mf' ms ef' es y Hy) as Hry.
        assert (HS : 0 < IZR (Zpos ms) * bpow es).
        { apply Rmult_lt_0_compat; [apply IZR_lt; lia | apply bpow_pos]. }
        unfold SF64div, SFdiv.
        destruct sf; cbn [xorb] in Hrx, Hry |- *; cbn in Hge.
        -- pose proof (canonical_lt (Zpos mf') ef' (Zpos mf) ef ltac:(lia) Hcf' Hcf
                         ltac:(lia)) as Hlt.
           assert (Hyx : y < x).
           { apply (Rmult_lt_reg_r (IZR (Zpos ms) * bpow es)); [exact HS |].
             rewrite Hx, Hy. exact Hlt. }
           exact (nearest_mono true y x _ _ Hyx Hry Hrx).
        -- pose proof (canonical_lt (Zpos mf) ef (Zpos mf') ef' ltac:(lia) Hcf Hcf'
                         ltac:(lia)) as Hlt.
           assert (Hyx : x < y).
           { apply (Rmult_lt_reg_r (IZR (Zpos ms) * bpow es)); [exact HS |].
             rewrite Hx, Hy. exact Hlt. }
           exact (nearest_mono false x y _ _ Hyx Hrx Hry).
    + destruct sf, sf'; try discriminate Hsign; cbn in Hge; try lia.
      destruct (Hquot true mf ef) as [Hq | [[p [e Hq]] | Hq]]; cbn zeta in Hq; rewrite Hq;
        destruct (Hquot false mf' ef') as [Hq' | [[p' [e' Hq']] | Hq']]; cbn zeta in Hq';
        rewrite Hq'; cbn; lia.
Qed.

End Nearest.

(** Dividing by a positive finite number keeps the order. *)
Lemma float_div_mono (f f' s : float) :
  py_gt s 0%float = true -> PrimFloat.is_finite s = true ->
  py_ge f' f = true ->
  py_ge (f' / s)%float (f / s)%float = true.
Proof.
  intros Hpos Hfinite Hge.
  apply finite_float_cases in Hfinite.
  apply float_py_gt in Hpos. destruct Hpos as [_ [_ Hpos]].
  change (Prim2SF 0%float) with (S754_zero false) in Hpos.
  apply float_py_ge in Hge. destruct Hge as [Hf' [Hf Hge]].
  apply float_py_ge. rewrite !div_spec.
  pose proof (Prim2SF_valid s) as Hvs.
  destruct (Prim2SF s) as [ss | ss | | ss ms es]; try contradiction;
    [destruct ss; discriminate Hpos |].
  destruct ss; [discriminate Hpos |].
  cbn [valid_binary] in Hvs.
  destruct (SFdiv_mono (Prim2SF f) (Prim2SF f') ms es (Prim2SF_valid f) (Prim2SF_valid f')
              Hvs Hf Hf' Hge) as [Hq [Hq' Hmono]].
  split; [exact Hq' |]. split; [exact Hq | exact Hmono].
Qed.

(** * The sweep span *)

(** ** The conversion of an integer is a number of the format *)

Section IntegerConversion.
Local Open Scope R_scope.




End IntegerConversion.



(** ** The greatest and the least value of an axis *)


Lemma finite_not_nan (x : float) :
  PrimFloat.is_finite x = true -> PrimFloat.is_nan x = false.
Proof.
  unfold PrimFloat.is_finite. destruct (PrimFloat.is_nan x); [discriminate | reflexivity].
Qed.

Lemma filter_without_nan (xs : list float) :
  forallb (fun x => negb (PrimFloat.is_nan x)) xs = true ->
  filter (fun x => negb (PrimFloat.is_nan x)) xs = xs.
Proof.
  induction xs as [| x xs IH]; cbn; [reflexivity |].
  intros Hall. apply andb_prop in Hall. destruct Hall as [Hx Hxs].
  rewrite Hx. f_equal. exact (IH Hxs).
Qed.








Lemma constant_without_nan (x : float) (rest : list float) :
  PrimFloat.is_finite x = true ->
  Forall (eq x) rest ->
  forallb (fun y => negb (PrimFloat.is_nan y)) (x :: rest) = true.
Proof.
  intros Hfinite Hconstant. cbn [forallb]. rewrite (finite_not_nan x Hfinite).
  cbn [negb andb].
  induction Hconstant as [| y rest <- _ IH]; cbn [forallb]; [reflexivity |].
  rewrite (finite_not_nan x Hfinite). exact IH.
Qed.

(** The reductions of an axis without NaN. *)
Lemma array_max_without_nan (x : float) (rest : list float) :
  forallb (fun x => negb (PrimFloat.is_nan x)) (x :: rest) = true ->
  array_max (x :: rest)
  = Ok (fold_left (fun acc y => if py_gt y acc then y else acc) rest x).
Proof. intros Hall. unfold array_max. rewrite (filter_without_nan _ Hall). reflexivity. Qed.

Lemma array_min_without_nan (x : float) (rest : list float) :
  forallb (fun x => negb (PrimFloat.is_nan x)) (x :: rest) = true ->
  array_min (x :: rest)
  = Ok (fold_left (fun acc y => if py_lt y acc then y else acc) rest x).
Proof. intros Hall. unfold array_min. rewrite (filter_without_nan _ Hall). reflexivity. Qed.











(** * Further properties of the classifier *)

(** The cases of the cascade, rule by rule. *)
Ltac cascade_cases metrics snr_min snr_distorted :=
  unfold _determine_resonator_outcome; cbv zeta;
  destruct (py_gt (r_squared metrics) R_SQUARED_THRESHOLD
            && py_lt (nrmse metrics) NRMSE_THRESHOLD) eqn:Hrule1;
  [| destruct (py_lt (snr metrics) snr_min) eqn:Hsnr;
     [| destruct (opx_bandwidth_artifact metrics) eqn:Hartifact;
        [| destruct (num_peaks metrics >? 1)%Z eqn:Hseveral;
           [| destruct (num_peaks metrics =? 0)%Z eqn:Hnone;
              [| destruct (_is_peak_shape_distorted _ _ _ _ _) eqn:Hshape;
                 [| rewrite is_peak_too_wide_spec; cbn [bind];
                    destruct (spec_too_wide _ _ _ _ _ _ _) eqn:Hwide;
                    [destruct (py_lt (snr metrics) snr_distorted) eqn:Hlow |]]]]]]].

(** X1: the classifier returns ["successful"] exactly when the circle fit
    is good ([r_squared > 0.90] and [nrmse < 0.14]) or every later rule
    passes: the SNR is not below [snr_min], the artifact flag is off,
    [num_peaks] is neither above one nor zero, the shape is not distorted
    and the peak is not too wide. *)
Theorem successful_iff (metrics : Metrics)
  (snr_min snr_distorted asymmetry_min asymmetry_max skewness_max : float)
  (distorted_fraction_low_snr distorted_fraction_high_snr fwhm_absolute_threshold : float) :
  _determine_resonator_outcome metrics snr_min snr_distorted asymmetry_min asymmetry_max
    skewness_max distorted_fraction_low_snr distorted_fraction_high_snr
    fwhm_absolute_threshold
  = Ok "successful"
  <-> (py_gt (r_squared metrics) 0.90%float = true
       /\ py_lt (nrmse metrics) 0.14%float = true)
      \/ (py_lt (snr metrics) snr_min = false
          /\ opx_bandwidth_artifact metrics = false
          /\ (num_peaks metrics <= 1)%Z
          /\ num_peaks metrics <> 0%Z
          /\ _is_peak_shape_distorted (Some (asymmetry metrics)) (Some (skewness metrics))
               asymmetry_min asymmetry_max skewness_max = false
          /\ _is_peak_too_wide (fwhm metrics) (sweep_span metrics) (snr metrics)
               snr_distorted distorted_fraction_low_snr distorted_fraction_high_snr
               fwhm_absolute_threshold = Ok false).
Proof.
  rewrite is_peak_too_wide_spec.
  change 0.90%float with R_SQUARED_THRESHOLD. change 0.14%float with NRMSE_THRESHOLD.
  rewrite <- andb_true_iff.
  cascade_cases metrics snr_min snr_distorted.
  all: try rewrite Z.gtb_ltb in Hseveral.
  all: repeat match goal with
              | H : (_ =? _)%Z = true |- _ => apply Z.eqb_eq in H
              | H : (_ =? _)%Z = false |- _ => apply Z.eqb_neq in H
              | H : (_ <? _)%Z = true |- _ => apply Z.ltb_lt in H
              | H : (_ <? _)%Z = false |- _ => apply Z.ltb_ge in H
              end.
  all: split; [intros Hout | intros [Hone | (H2 & H3 & H4 & H5 & H6 & H7)]].
  all: try discriminate Hout; try discriminate Hone; try reflexivity; try congruence; try lia.
  all: try (left; reflexivity).
  right. repeat split; try reflexivity; try assumption; lia.
Qed.

Lemma float_not_lt_mono (a b c : float) :
  py_lt a b = false -> py_ge b c = true -> py_lt a c = false.
Proof.
  intros Hab Hbc. destruct (py_lt a c) eqn:Hac; [| reflexivity].
  rewrite (float_lt_le_trans a c b Hac Hbc) in Hab. discriminate Hab.
Qed.

Lemma float_not_gt_mono (a b c : float) :
  py_gt a b = false -> py_ge c b = true -> py_gt a c = false.
Proof.
  intros Hab Hcb. destruct (py_gt a c) eqn:Hac; [| reflexivity].
  rewrite (float_gt_ge_trans a c b Hac Hcb) in Hab. discriminate Hab.
Qed.

(** When the cascade returns ["successful"]. *)
Lemma cascade_successful (metrics : Metrics)
  (snr_min snr_distorted asymmetry_min asymmetry_max skewness_max low high threshold : float) :
  _determine_resonator_outcome metrics snr_min snr_distorted asymmetry_min asymmetry_max
    skewness_max low high threshold
  = Ok outcome_successful
  <-> py_gt (r_squared metrics) R_SQUARED_THRESHOLD && py_lt (nrmse metrics) NRMSE_THRESHOLD
      = true
      \/ (reaches_rule_7 metrics snr_min asymmetry_min asymmetry_max skewness_max = true
          /\ spec_too_wide (fwhm metrics) (sweep_span metrics) (snr metrics) snr_distorted
               low high threshold = false).
Proof.
  unfold reaches_rule_7.
  cascade_cases metrics snr_min snr_distorted; cbn [negb andb].
  all: split; [intros Hout | intros [Hone | [Hreach Hnarrow]]].
  all: try discriminate; try reflexivity; try (left; reflexivity).
  right. split; reflexivity.
Qed.

(** X2: each failure message is returned by one rule only, so that a
    message tells which tests failed and which passed before it; a
    negative [num_peaks] passes the two peak-count rules as one peak
    does. *)
Theorem failure_reason_identifies_rule (metrics : Metrics)
  (snr_min snr_distorted asymmetry_min asymmetry_max skewness_max : float)
  (distorted_fraction_low_snr distorted_fraction_high_snr fwhm_absolute_threshold : float) :
  let outcome :=
    _determine_resonator_outcome metrics snr_min snr_distorted asymmetry_min asymmetry_max
      skewness_max distorted_fraction_low_snr distorted_fraction_high_snr
      fwhm_absolute_threshold in
  let good_fit :=
    py_gt (r_squared metrics) R_SQUARED_THRESHOLD && py_lt (nrmse metrics) NRMSE_THRESHOLD in
  let distorted :=
    _is_peak_shape_distorted (Some (asymmetry metrics)) (Some (skewness metrics))
      asymmetry_min asymmetry_max skewness_max in
  let too_wide :=
    _is_peak_too_wide (fwhm metrics) (sweep_span metrics) (snr metrics) snr_distorted
      distorted_fraction_low_snr distorted_fraction_high_snr fwhm_absolute_threshold in
  (outcome = Ok outcome_low_snr
   <-> good_fit = false /\ py_lt (snr metrics) snr_min = true)
  /\ (outcome = Ok outcome_artifact
      <-> good_fit = false /\ py_lt (snr metrics) snr_min = false
          /\ opx_bandwidth_artifact metrics = true)
  /\ (outcome = Ok outcome_several_peaks
      <-> good_fit = false /\ py_lt (snr metrics) snr_min = false
          /\ opx_bandwidth_artifact metrics = false /\ (num_peaks metrics > 1)%Z)
  /\ (outcome = Ok outcome_no_peaks
      <-> good_fit = false /\ py_lt (snr metrics) snr_min = false
          /\ opx_bandwidth_artifact metrics = false /\ num_peaks metrics = 0%Z)
  /\ (outcome = Ok outcome_shape_distorted
      <-> good_fit = false /\ py_lt (snr metrics) snr_min = false
          /\ opx_bandwidth_artifact metrics = false /\ (num_peaks metrics < 0 \/ num_peaks metrics = 1)%Z
          /\ distorted = true)
  /\ (outcome = Ok outcome_low_snr_distorted
      <-> good_fit = false /\ py_lt (snr metrics) snr_min = false
          /\ opx_bandwidth_artifact metrics = false /\ (num_peaks metrics < 0 \/ num_peaks metrics = 1)%Z
          /\ distorted = false /\ too_wide = Ok true
          /\ py_lt (snr metrics) snr_distorted = true)
  /\ (outcome = Ok outcome_distorted_peak
      <-> good_fit = false /\ py_lt (snr metrics) snr_min = false
          /\ opx_bandwidth_artifact metrics = false /\ (num_peaks metrics < 0 \/ num_peaks metrics = 1)%Z
          /\ distorted = false /\ too_wide = Ok true
          /\ py_lt (snr metrics) snr_distorted = false).
Proof.
  intros outcome good_fit distorted too_wide.
  subst outcome good_fit distorted too_wide.
  rewrite is_peak_too_wide_spec.
  cascade_cases metrics snr_min snr_distorted.
  all: repeat match goal with
              | H : (_ >? _)%Z = _ |- _ => rewrite Z.gtb_ltb in H
              | H : (_ =? _)%Z = true |- _ => apply Z.eqb_eq in H
              | H : (_ =? _)%Z = false |- _ => apply Z.eqb_neq in H
              | H : (_ <? _)%Z = true |- _ => apply Z.ltb_lt in H
              | H : (_ <? _)%Z = false |- _ => apply Z.ltb_ge in H
              end.
  all: repeat split; intros; try discriminate; try reflexivity; try lia;
    repeat match goal with
           | H : _ /\ _ |- _ => destruct H
           end; try discriminate; try congruence; try lia.
Qed.

Lemma py_lt_nan_l (x y : float) : PrimFloat.is_nan x = true -> py_lt x y = false.
Proof. intros Hnan. unfold py_lt. rewrite (compare_nan_l x y Hnan). reflexivity. Qed.

Lemma py_gt_nan_l (x y : float) : PrimFloat.is_nan x = true -> py_gt x y = false.
Proof. intros Hnan. unfold py_gt. rewrite (compare_nan_l x y Hnan). reflexivity. Qed.

Lemma abs_nan (x : float) :
  PrimFloat.is_nan (PrimFloat.abs x) = PrimFloat.is_nan x.
Proof.
  destruct (PrimFloat.is_nan x) eqn:Hx.
  - apply is_nan_Prim2SF. apply is_nan_Prim2SF in Hx. rewrite abs_spec, Hx. reflexivity.
  - apply not_nan_Prim2SF. apply not_nan_Prim2SF in Hx. rewrite abs_spec.
    destruct (Prim2SF x); cbn; congruence.
Qed.

Lemma div_nan_l (x y : float) :
  PrimFloat.is_nan x = true -> PrimFloat.is_nan (PrimFloat.div x y) = true.
Proof.
  intros Hx. apply is_nan_Prim2SF. apply is_nan_Prim2SF in Hx.
  rewrite div_spec, Hx. reflexivity.
Qed.

(** X3: no comparison holds of NaN, so a record whose [snr], [asymmetry],
    [skewness] and [fwhm] are NaN, with one peak and no artifact flag, is
    classified ["successful"], whatever the thresholds, the sweep span and
    the fit quality are. *)
Theorem nan_metrics_pass (metrics : Metrics)
  (snr_min snr_distorted asymmetry_min asymmetry_max skewness_max : float)
  (distorted_fraction_low_snr distorted_fraction_high_snr fwhm_absolute_threshold : float) :
  PrimFloat.is_nan (snr metrics) = true ->
  PrimFloat.is_nan (asymmetry metrics) = true ->
  PrimFloat.is_nan (skewness metrics) = true ->
  PrimFloat.is_nan (fwhm metrics) = true ->
  opx_bandwidth_artifact metrics = false ->
  num_peaks metrics = 1%Z ->
  _determine_resonator_outcome metrics snr_min snr_distorted asymmetry_min asymmetry_max
    skewness_max distorted_fraction_low_snr distorted_fraction_high_snr
    fwhm_absolute_threshold
  = Ok "successful".
Proof.
  intros Hsnr Hasym Hskew Hfwhm Hartifact Hpeaks.
  apply cascade_successful.
  destruct (py_gt _ _ && py_lt _ _) eqn:Hrule1; [left; reflexivity | right].
  unfold reaches_rule_7, spec_too_wide, _is_peak_shape_distorted.
  rewrite Hrule1, Hartifact, Hpeaks.
  rewrite !(py_lt_nan_l (snr metrics)) by exact Hsnr.
  rewrite (py_lt_nan_l (asymmetry metrics)), (py_gt_nan_l (asymmetry metrics)) by exact Hasym.
  rewrite (py_gt_nan_l (PrimFloat.abs (skewness metrics)))
    by (rewrite abs_nan; exact Hskew).
  rewrite (py_gt_nan_l (PrimFloat.div (fwhm metrics) (sweep_span metrics)))
    by (apply div_nan_l; exact Hfwhm).
  rewrite (py_gt_nan_l (fwhm metrics)) by exact Hfwhm.
  rewrite andb_false_r. split; reflexivity.
Qed.

(** X4: a record that is successful under some thresholds is successful
    under looser ones: a lower [snr_min], a wider asymmetry window, and
    higher limits for the skewness, the two distorted fractions and the
    absolute width, [snr_distorted] being the same. *)
Theorem looser_thresholds_keep_success (metrics : Metrics)
  (snr_min snr_distorted asymmetry_min asymmetry_max skewness_max : float)
  (distorted_fraction_low_snr distorted_fraction_high_snr fwhm_absolute_threshold : float)
  (snr_min' asymmetry_min' asymmetry_max' skewness_max' : float)
  (distorted_fraction_low_snr' distorted_fraction_high_snr' fwhm_absolute_threshold' : float) :
  py_ge snr_min snr_min' = true ->
  py_ge asymmetry_min asymmetry_min' = true ->
  py_ge asymmetry_max' asymmetry_max = true ->
  py_ge skewness_max' skewness_max = true ->
  py_ge distorted_fraction_low_snr' distorted_fraction_low_snr = true ->
  py_ge distorted_fraction_high_snr' distorted_fraction_high_snr = true ->
  py_ge fwhm_absolute_threshold' fwhm_absolute_threshold = true ->
  _determine_resonator_outcome metrics snr_min snr_distorted asymmetry_min asymmetry_max
    skewness_max distorted_fraction_low_snr distorted_fraction_high_snr
    fwhm_absolute_threshold
  = Ok "successful" ->
  _determine_resonator_outcome metrics snr_min' snr_distorted asymmetry_min' asymmetry_max'
    skewness_max' distorted_fraction_low_snr' distorted_fraction_high_snr'
    fwhm_absolute_threshold'
  = Ok "successful".
Proof.
  intros Hsnr Hamin Hamax Hskew Hlow Hhigh Hthr Hsucc.
  apply cascade_successful. apply cascade_successful in Hsucc.
  destruct Hsucc as [Hone | [Hreach Hnarrow]]; [left; exact Hone | right].
  unfold reaches_rule_7 in *.
  repeat (apply andb_prop in Hreach; destruct Hreach as [Hreach ?]).
  repeat match goal with
         | Hn : negb _ = true |- _ => apply negb_true_iff in Hn
         end.
  unfold _is_peak_shape_distorted in *.
  repeat match goal with
         | Ho : _ || _ = false |- _ => apply orb_false_elim in Ho; destruct Ho
         end.
  split.
  - repeat (apply andb_true_intro; split); try (apply negb_true_iff; assumption).
    + apply negb_true_iff. eapply float_not_lt_mono; eassumption.
    + apply negb_true_iff. apply orb_false_intro; [apply orb_false_intro |].
      * eapply float_not_lt_mono; eassumption.
      * eapply float_not_gt_mono; eassumption.
      * eapply float_not_gt_mono; eassumption.
  - unfold spec_too_wide in *.
    apply orb_false_elim in Hnarrow. destruct Hnarrow as [Hrel Habs].
    apply orb_false_intro; [| eapply float_not_gt_mono; eassumption].
    destruct (py_gt (sweep_span metrics) 0%float); [| reflexivity].
    cbn [andb] in *.
    destruct (py_lt (snr metrics) snr_distorted);
      eapply float_not_gt_mono; eassumption.
Qed.

Lemma abs_opp_compare (s x : float) :
  PrimFloat.compare (PrimFloat.abs (PrimFloat.opp s)) x
  = PrimFloat.compare (PrimFloat.abs s) x.
Proof.
  rewrite !compare_spec, !abs_spec, opp_spec.
  destruct (Prim2SF s); reflexivity.
Qed.

(** X5: the classifier reads the skewness through [abs] only: negating it
    changes no outcome. *)
Theorem skewness_sign_is_ignored (metrics : Metrics)
  (snr_min snr_distorted asymmetry_min asymmetry_max skewness_max : float)
  (distorted_fraction_low_snr distorted_fraction_high_snr fwhm_absolute_threshold : float) :
  _determine_resonator_outcome (with_skewness metrics (PrimFloat.opp (skewness metrics)))
    snr_min snr_distorted asymmetry_min asymmetry_max skewness_max
    distorted_fraction_low_snr distorted_fraction_high_snr fwhm_absolute_threshold
  = _determine_resonator_outcome metrics snr_min snr_distorted asymmetry_min asymmetry_max
      skewness_max distorted_fraction_low_snr distorted_fraction_high_snr
      fwhm_absolute_threshold.
Proof.
  unfold _determine_resonator_outcome, _is_peak_shape_distorted, with_skewness.
  cbn [num_peaks snr fwhm sweep_span asymmetry skewness opx_bandwidth_artifact nrmse r_squared].
  unfold py_gt at 3. rewrite abs_opp_compare. reflexivity.
Qed.

(** X6: on numbers, the shape check passes exactly on the closed window
    [asymmetry_min <= asymmetry <= asymmetry_max] and
    [abs(skewness) <= skewness_max], bounds included; when
    [asymmetry_min > asymmetry_max] it rejects every asymmetry. *)
Theorem shape_window_is_closed (asymmetry skewness asymmetry_min asymmetry_max skewness_max : float) :
  PrimFloat.is_nan asymmetry = false ->
  PrimFloat.is_nan skewness = false ->
  PrimFloat.is_nan asymmetry_min = false ->
  PrimFloat.is_nan asymmetry_max = false ->
  PrimFloat.is_nan skewness_max = false ->
  _is_peak_shape_distorted (Some asymmetry) (Some skewness)
    asymmetry_min asymmetry_max skewness_max
  = negb (py_ge asymmetry asymmetry_min && py_ge asymmetry_max asymmetry
          && py_ge skewness_max (PrimFloat.abs skewness))
  /\ (py_gt asymmetry_min asymmetry_max = true ->
      _is_peak_shape_distorted (Some asymmetry) (Some skewness)
        asymmetry_min asymmetry_max skewness_max = true).
Proof.
  intros Ha Hs Hmin Hmax Hsmax.
  assert (Hshape : _is_peak_shape_distorted (Some asymmetry) (Some skewness)
                     asymmetry_min asymmetry_max skewness_max
                   = negb (py_ge asymmetry asymmetry_min && py_ge asymmetry_max asymmetry
                           && py_ge skewness_max (PrimFloat.abs skewness))).
  { unfold _is_peak_shape_distorted.
    rewrite (float_not_lt asymmetry asymmetry_min Ha Hmin).
    rewrite (float_not_gt asymmetry asymmetry_max Ha Hmax).
    rewrite (float_not_gt (PrimFloat.abs skewness) skewness_max)
      by (rewrite ?abs_nan; assumption).
    rewrite !negb_andb. reflexivity. }
  split; [exact Hshape |].
  intros Hinverted. rewrite Hshape.
  destruct (py_ge asymmetry asymmetry_min) eqn:Hlo; [| reflexivity].
  destruct (py_ge asymmetry_max asymmetry) eqn:Hhi; [| reflexivity].
  pose proof (float_ge_trans _ _ _ Hhi Hlo) as Hwindow.
  rewrite (float_not_gt asymmetry_min asymmetry_max Hmin Hmax), Hwindow in Hinverted.
  discriminate Hinverted.
Qed.

Lemma lex_ge_gt_trans (p q r : Z * Z * Z) :
  lex_ge p q -> lex_compare q r = Gt -> lex_compare p r = Gt.
Proof.
  destruct p as [[a b] c], q as [[a' b'] c'], r as [[a'' b''] c'']. cbn.
  intros Hge.
  destruct (Z.compare_spec a' a''), (Z.compare_spec b' b''), (Z.compare_spec c' c'');
    try discriminate; intros _;
    destruct (Z.compare_spec a a''), (Z.compare_spec b b''), (Z.compare_spec c c'');
    try reflexivity; lia.
Qed.

(** [a >= b > c] gives [a > c]. *)
Lemma float_ge_gt_trans (a b c : float) :
  py_ge a b = true -> py_gt b c = true -> py_gt a c = true.
Proof.
  rewrite !float_py_gt, float_py_ge. intros [Ha [Hb Hab]] [_ [Hc Hbc]].
  split; [exact Ha |]. split; [exact Hc |].
  apply (lex_ge_gt_trans _ (sf_rank (Prim2SF b))); assumption.
Qed.

Lemma too_wide_mono (fwhm fwhm' sweep_span snr snr_distorted low high threshold : float) :
  py_ge fwhm' fwhm = true ->
  PrimFloat.is_finite sweep_span = true ->
  spec_too_wide fwhm sweep_span snr snr_distorted low high threshold = true ->
  spec_too_wide fwhm' sweep_span snr snr_distorted low high threshold = true.
Proof.
  intros Hge Hfinite. unfold spec_too_wide.
  intros Hwide. apply orb_true_iff in Hwide. apply orb_true_iff.
  destruct Hwide as [Hrel | Habs].
  - left. apply andb_true_iff in Hrel. destruct Hrel as [Hpos Hrel].
    rewrite Hpos. cbn [andb].
    apply (float_ge_gt_trans _ (fwhm / sweep_span)%float); [| exact Hrel].
    apply float_div_mono; assumption.
  - right. apply (float_ge_gt_trans _ fwhm); assumption.
Qed.

(** X7: the width check is monotone in [fwhm]: over a finite sweep span, a
    peak that is too wide stays too wide at any larger [fwhm], and a
    record with a distortion message keeps that message. *)
Theorem wider_peak_stays_too_wide (metrics : Metrics)
  (snr_min snr_distorted asymmetry_min asymmetry_max skewness_max : float)
  (distorted_fraction_low_snr distorted_fraction_high_snr fwhm_absolute_threshold : float)
  (new_fwhm : float) :
  py_ge new_fwhm (fwhm metrics) = true ->
  PrimFloat.is_finite (sweep_span metrics) = true ->
  (_is_peak_too_wide (fwhm metrics) (sweep_span metrics) (snr metrics) snr_distorted
     distorted_fraction_low_snr distorted_fraction_high_snr fwhm_absolute_threshold
   = Ok true ->
   _is_peak_too_wide new_fwhm (sweep_span metrics) (snr metrics) snr_distorted
     distorted_fraction_low_snr distorted_fraction_high_snr fwhm_absolute_threshold
   = Ok true)
  /\ (_determine_resonator_outcome metrics snr_min snr_distorted asymmetry_min
        asymmetry_max skewness_max distorted_fraction_low_snr
        distorted_fraction_high_snr fwhm_absolute_threshold
      = Ok outcome_low_snr_distorted
      \/ _determine_resonator_outcome metrics snr_min snr_distorted asymmetry_min
           asymmetry_max skewness_max distorted_fraction_low_snr
           distorted_fraction_high_snr fwhm_absolute_threshold
         = Ok outcome_distorted_peak ->
      _determine_resonator_outcome (with_fwhm metrics new_fwhm) snr_min snr_distorted
        asymmetry_min asymmetry_max skewness_max distorted_fraction_low_snr
        distorted_fraction_high_snr fwhm_absolute_threshold
      = _determine_resonator_outcome metrics snr_min snr_distorted asymmetry_min
          asymmetry_max skewness_max distorted_fraction_low_snr
          distorted_fraction_high_snr fwhm_absolute_threshold).
Proof.
  intros Hge Hfinite. split.
  - rewrite !is_peak_too_wide_spec. intros Hwide. injection Hwide as Hwide.
    rewrite (too_wide_mono _ _ _ _ _ _ _ _ Hge Hfinite Hwide). reflexivity.
  - unfold _determine_resonator_outcome. cbv zeta.
    cbn [with_fwhm num_peaks snr fwhm sweep_span asymmetry skewness
         opx_bandwidth_artifact nrmse r_squared].
    destruct (py_gt _ _ && py_lt _ _); [reflexivity |].
    destruct (py_lt (snr metrics) snr_min); [reflexivity |].
    destruct (opx_bandwidth_artifact metrics); [reflexivity |].
    destruct (num_peaks metrics >? 1)%Z; [reflexivity |].
    destruct (num_peaks metrics =? 0)%Z; [reflexivity |].
    destruct (_is_peak_shape_distorted _ _ _ _ _); [reflexivity |].
    rewrite !is_peak_too_wide_spec. cbn [bind].
    destruct (spec_too_wide (fwhm metrics) _ _ _ _ _ _) eqn:Hwide.
    + rewrite (too_wide_mono _ _ _ _ _ _ _ _ Hge Hfinite Hwide). reflexivity.
    + intros [Hout | Hout]; discriminate Hout.
Qed.

Section NearestDivisor.
Local Open Scope R_scope.

Lemma SFdiv_antimono (f : spec_float) (ms ms' : positive) (es es' : Z) :
  valid_binary f = true ->
  bounded prec emax ms es = true -> bounded prec emax ms' es' = true ->
  f <> S754_nan ->
  lex_ge (sf_rank f) (sf_rank (S754_zero false)) ->
  lex_ge (sf_rank (S754_finite false ms' es')) (sf_rank (S754_finite false ms es)) ->
  SF64div f (S754_finite false ms es) <> S754_nan
  /\ SF64div f (S754_finite false ms' es') <> S754_nan
  /\ lex_ge (sf_rank (SF64div f (S754_finite false ms es)))
       (sf_rank (SF64div f (S754_finite false ms' es'))).
Proof.
  intros Hvf Hvs Hvs' Hf Hpos Hge.
  apply bounded_canonical in Hvs. destruct Hvs as [Hcs Hes].
  apply bounded_canonical in Hvs'. destruct Hvs' as [Hcs' Hes'].
  destruct f as [sf | sf | | sf mf ef]; [| | congruence |].
  - destruct sf; cbn; repeat split; try discriminate; lia.
  - destruct sf; cbn in *; repeat split; try discriminate; lia.
  - destruct sf; [cbn in Hpos; lia |].
    destruct (quotient_exists mf ms ef es) as [x Hx].
    destruct (quotient_exists mf ms' ef es') as [y Hy].
    pose proof (nearest_div false mf ms ef es x Hx) as Hrx.
    pose proof (nearest_div false mf ms' ef es' y Hy) as Hry.
    pose proof (rounded_sign _ _ _ (rounded_div false mf ms ef es x Hx)) as Hsx.
    pose proof (rounded_sign _ _ _ (rounded_div false mf ms' ef es' y Hy)) as Hsy.
    unfold SF64div, SFdiv. cbn [xorb].
    split; [destruct Hsx as [Hq | [[p [e Hq]] | Hq]]; rewrite Hq; discriminate |].
    split; [destruct Hsy as [Hq | [[p [e Hq]] | Hq]]; rewrite Hq; discriminate |].
    assert (HS : 0 < IZR (Zpos ms) * bpow es).
    { apply Rmult_lt_0_compat; [apply IZR_lt; lia | apply bpow_pos]. }
    assert (HS' : 0 < IZR (Zpos ms') * bpow es').
    { apply Rmult_lt_0_compat; [apply IZR_lt; lia | apply bpow_pos]. }
    assert (HF : 0 < IZR (Zpos mf) * bpow ef).
    { apply Rmult_lt_0_compat; [apply IZR_lt; lia | apply bpow_pos]. }
    cbn in Hge.
    destruct (Z.eq_dec es es') as [He | He];
      [destruct (Pos.eq_dec ms ms') as [Hm | Hm] |].
    + subst. destruct Hsx as [Hq | [[p [e Hq]] | Hq]]; rewrite Hq; cbn; lia.
    + subst es'.
      assert (Hlt : IZR (Zpos ms) * bpow es < IZR (Zpos ms') * bpow es).
      { apply Rmult_lt_compat_r; [apply bpow_pos | apply IZR_lt; lia]. }
      assert (Hyx : y < x).
      { assert (0 < x) by nra. assert (0 < y) by nra. nra. }
      exact (nearest_mono false y x _ _ Hyx Hry Hrx).
    + pose proof (canonical_lt (Zpos ms) es (Zpos ms') es' ltac:(lia) Hcs Hcs'
                    ltac:(lia)) as Hlt.
      assert (Hyx : y < x).
      { assert (0 < x) by nra. assert (0 < y) by nra. nra. }
      exact (nearest_mono false y x _ _ Hyx Hry Hrx).
Qed.

End NearestDivisor.

(** Dividing a number that is not negative by a larger positive number
    gives no more. *)
Lemma float_div_antimono (f s s' : float) :
  py_ge f 0%float = true -> py_gt s 0%float = true ->
  PrimFloat.is_finite s' = true -> py_ge s' s = true ->
  py_ge (f / s)%float (f / s')%float = true.
Proof.
  intros Hf Hpos Hfinite Hge.
  apply finite_float_cases in Hfinite.
  apply float_py_gt in Hpos. destruct Hpos as [_ [_ Hpos]].
  change (Prim2SF 0%float) with (S754_zero false) in Hpos.
  apply float_py_ge in Hf. destruct Hf as [Hfn [_ Hf]].
  change (Prim2SF 0%float) with (S754_zero false) in Hf.
  apply float_py_ge in Hge. destruct Hge as [_ [_ Hge]].
  apply float_py_ge. rewrite !div_spec.
  pose proof (Prim2SF_valid s) as Hvs. pose proof (Prim2SF_valid s') as Hvs'.
  destruct (Prim2SF s) as [ss | ss | | ss ms es]; try discriminate Hpos.
  - destruct ss; [discriminate Hpos |].
    destruct (Prim2SF s') as [ss' | ss' | | ss' ms' es']; try contradiction;
      destruct ss'; cbn in Hge; lia.
  - destruct ss; [discriminate Hpos |].
    destruct (Prim2SF s') as [ss' | ss' | | ss' ms' es']; try contradiction;
      [destruct ss'; cbn in Hge; lia |].
    destruct ss'; [cbn in Hge; lia |].
    cbn [valid_binary] in Hvs, Hvs'.
    destruct (SFdiv_antimono (Prim2SF f) ms ms' es es' (Prim2SF_valid f) Hvs Hvs' Hfn Hf Hge)
      as [Hq [Hq' Hmono]].
    split; [exact Hq |]. split; [exact Hq' | exact Hmono].
Qed.

Lemma float_ge_pos (s s' : float) :
  py_gt s 0%float = true -> py_ge s' s = true -> py_gt s' 0%float = true.
Proof. intros Hpos Hge. exact (float_ge_gt_trans s' s 0%float Hge Hpos). Qed.

(** X19: the width check is monotone in the sweep span: a peak of
    non-negative [fwhm] that is not too wide over a positive sweep span is
    not too wide over any larger finite span. *)
Theorem wider_sweep_keeps_narrow_peak
  (fwhm sweep_span sweep_span' snr snr_distorted : float)
  (distorted_fraction_low_snr distorted_fraction_high_snr fwhm_absolute_threshold : float) :
  py_ge fwhm 0%float = true ->
  py_gt sweep_span 0%float = true ->
  py_ge sweep_span' sweep_span = true ->
  PrimFloat.is_finite sweep_span' = true ->
  _is_peak_too_wide fwhm sweep_span snr snr_distorted distorted_fraction_low_snr
    distorted_fraction_high_snr fwhm_absolute_threshold
  = Ok false ->
  _is_peak_too_wide fwhm sweep_span' snr snr_distorted distorted_fraction_low_snr
    distorted_fraction_high_snr fwhm_absolute_threshold
  = Ok false.
Proof.
  intros Hfwhm Hpos Hge Hfinite. rewrite !is_peak_too_wide_spec.
  intros Hnarrow. injection Hnarrow as Hnarrow. f_equal.
  unfold spec_too_wide in *.
  rewrite Hpos in Hnarrow. rewrite (float_ge_pos _ _ Hpos Hge). cbn [andb] in *.
  apply orb_false_elim in Hnarrow. destruct Hnarrow as [Hrel Habs].
  rewrite Habs, orb_false_r.
  pose proof (float_div_antimono fwhm sweep_span sweep_span' Hfwhm Hpos Hfinite Hge) as Hquot.
  destruct (py_gt (fwhm / sweep_span') _) eqn:Hwide; [| reflexivity].
  rewrite (float_ge_gt_trans _ _ _ Hquot Hwide) in Hrel. discriminate Hrel.
Qed.

(** * More on the metric extractor *)

Lemma getattr_ok {A : Type} (field : option A) (name : string) (v : A) :
  getattr field name = Ok v -> field = Some v.
Proof. destruct field; cbn; congruence. Qed.

Lemma getitem_ok {V : Type} (d : list (string * V)) (key : string) (v : V) :
  getitem d key = Ok v -> dict_get d key = Some v.
Proof. unfold getitem. destruct (dict_get d key); congruence. Qed.

(** A returned record holds the values of the qubit's slice and of its
    fitter. *)
Lemma extract_ok_inv (fit : Dataset.t) (fitters : list (string * S21Resonator.t))
  (qubit_name : string) (metrics : Metrics) :
  _extract_qubit_fit_metrics fit fitters qubit_name = Ok metrics ->
  exists (qubit_data : QubitData.t) (fitter : S21Resonator.t),
    dict_get (Dataset.qubit fit) qubit_name = Some qubit_data
    /\ dict_get fitters qubit_name = Some fitter
    /\ extract_sweep_span fit = Ok (sweep_span metrics)
    /\ QubitData.num_peaks qubit_data = Some (num_peaks metrics)
    /\ QubitData.snr qubit_data = Some (snr metrics)
    /\ QubitData.fwhm qubit_data = Some (fwhm metrics)
    /\ QubitData.asymmetry qubit_data = Some (asymmetry metrics)
    /\ QubitData.skewness qubit_data = Some (skewness metrics)
    /\ QubitData.opx_bandwidth_artifact qubit_data
       = Some (negb (opx_bandwidth_artifact metrics))
    /\ dict_get (S21Resonator.quality_metrics fitter) "nrmse" = Some (nrmse metrics)
    /\ dict_get (S21Resonator.quality_metrics fitter) "r_squared"
       = Some (r_squared metrics).
Proof.
  unfold _extract_qubit_fit_metrics.
  destruct (getitem (Dataset.qubit fit) qubit_name) as [qubit_data |] eqn:Hslice;
    [| discriminate].
  destruct (getitem fitters qubit_name) as [fitter |] eqn:Hfitter; [| discriminate].
  destruct (extract_sweep_span fit) as [span |]; [| discriminate].
  cbn [bind].
  destruct (getattr (QubitData.num_peaks qubit_data) _) eqn:H1; [| discriminate].
  destruct (getattr (QubitData.snr qubit_data) _) eqn:H2; [| discriminate].
  destruct (getattr (QubitData.fwhm qubit_data) _) eqn:H3; [| discriminate].
  destruct (getattr (QubitData.asymmetry qubit_data) _) eqn:H4; [| discriminate].
  destruct (getattr (QubitData.skewness qubit_data) _) eqn:H5; [| discriminate].
  destruct (getattr (QubitData.opx_bandwidth_artifact qubit_data) _) eqn:H6;
    [| discriminate].
  destruct (getitem (S21Resonator.quality_metrics fitter) "nrmse") eqn:H7;
    [| discriminate].
  destruct (getitem (S21Resonator.quality_metrics fitter) "r_squared") eqn:H8;
    [| discriminate].
  cbn [bind]. intros Hok. injection Hok as <-.
  exists qubit_data, fitter.
  cbn [num_peaks snr fwhm sweep_span asymmetry skewness opx_bandwidth_artifact nrmse
       r_squared].
  rewrite negb_involutive.
  repeat split; try reflexivity; try (apply getitem_ok; assumption);
    eapply getattr_ok; eassumption.
Qed.

(** X8: a returned record reads the slice and the fitter of the qubit:
    both exist, the sweep span was computed, no required field is missing,
    and the record holds the values of the slice, its artifact flag
    negated, and the two quality metrics of the fitter. *)
Theorem returned_record_reads_slice_and_fitter (fit : Dataset.t)
  (fitters : list (string * S21Resonator.t)) (qubit_name : string) (metrics : Metrics) :
  _extract_qubit_fit_metrics fit fitters qubit_name = Ok metrics ->
  exists (qubit_data : QubitData.t) (fitter : S21Resonator.t),
    dict_get (Dataset.qubit fit) qubit_name = Some qubit_data
    /\ dict_get fitters qubit_name = Some fitter
    /\ extract_sweep_span fit = Ok (sweep_span metrics)
    /\ missing_fields qubit_data fitter = []
    /\ QubitData.num_peaks qubit_data = Some (num_peaks metrics)
    /\ QubitData.snr qubit_data = Some (snr metrics)
    /\ QubitData.fwhm qubit_data = Some (fwhm metrics)
    /\ QubitData.asymmetry qubit_data = Some (asymmetry metrics)
    /\ QubitData.skewness qubit_data = Some (skewness metrics)
    /\ QubitData.opx_bandwidth_artifact qubit_data
       = Some (negb (opx_bandwidth_artifact metrics))
    /\ dict_get (S21Resonator.quality_metrics fitter) "nrmse" = Some (nrmse metrics)
    /\ dict_get (S21Resonator.quality_metrics fitter) "r_squared"
       = Some (r_squared metrics).
Proof.
  intros Hok.
  destruct (extract_ok_inv _ _ _ _ Hok)
    as (qubit_data & fitter & Hslice & Hfitter & Hspan & H1 & H2 & H3 & H4 & H5 & H6
        & H7 & H8).
  exists qubit_data, fitter.
  split; [exact Hslice |]. split; [exact Hfitter |]. split; [exact Hspan |].
  split.
  { unfold missing_fields. rewrite H1, H2, H3, H4, H5, H6, H7, H8. reflexivity. }
  repeat split; assumption.
Qed.

(** X9: a qubit name that the dataset or the fitters do not know is a
    [KeyError], raised before any field or coordinate is read. *)
Theorem unknown_qubit_is_key_error (fit : Dataset.t)
  (fitters : list (string * S21Resonator.t)) (qubit_name : string) :
  dict_get (Dataset.qubit fit) qubit_name = None
  \/ dict_get fitters qubit_name = None ->
  exists e : py_exception,
    _extract_qubit_fit_metrics fit fitters qubit_name = Raise e
    /\ exc_class e = "KeyError".
Proof.
  unfold _extract_qubit_fit_metrics, getitem.
  intros [Hslice | Hfitter].
  - rewrite Hslice. eexists. split; reflexivity.
  - rewrite Hfitter. destruct (dict_get (Dataset.qubit fit) qubit_name);
      eexists; split; reflexivity.
Qed.

(** X10: when the dataset has neither a [detuning] nor a [full_freq]
    dimension, the extracted [sweep_span] is [0.0], and the width check of
    the record is the absolute criterion alone. *)
Theorem no_sweep_dimension_disables_relative_width (fit : Dataset.t)
  (fitters : list (string * S21Resonator.t)) (qubit_name : string) (metrics : Metrics)
  (snr_distorted distorted_fraction_low_snr distorted_fraction_high_snr : float)
  (fwhm_absolute_threshold : float) :
  in_dims "detuning" fit = false ->
  in_dims "full_freq" fit = false ->
  _extract_qubit_fit_metrics fit fitters qubit_name = Ok metrics ->
  sweep_span metrics = 0.0%float
  /\ _is_peak_too_wide (fwhm metrics) (sweep_span metrics) (snr metrics) snr_distorted
       distorted_fraction_low_snr distorted_fraction_high_snr fwhm_absolute_threshold
     = Ok (py_gt (fwhm metrics) fwhm_absolute_threshold).
Proof.
  intros Hdetuning Hfull Hok.
  apply extract_sweep_span_of_result in Hok.
  unfold extract_sweep_span in Hok. rewrite Hdetuning, Hfull in Hok.
  injection Hok as <-. split; reflexivity.
Qed.

(** *** A sweep of one frequency *)

Lemma SFsub_diag (x : spec_float) :
  match x with S754_zero _ | S754_finite _ _ _ => True | _ => False end ->
  SFsub prec emax x x = S754_zero false.
Proof.
  destruct x as [s | s | | s m e]; try contradiction; intros _.
  - cbn. destruct s; reflexivity.
  - cbn. rewrite Z.min_id, Z.sub_diag. reflexivity.
Qed.

Lemma float_sub_diag (x : float) :
  PrimFloat.is_finite x = true -> py_eq (x - x)%float 0%float = true.
Proof.
  intros Hfinite. apply finite_float_cases in Hfinite.
  unfold py_eq. rewrite compare_spec, sub_spec.
  unfold SF64sub. rewrite (SFsub_diag _ Hfinite). reflexivity.
Qed.

Lemma fold_pick_constant (pick : float -> float -> bool) (x : float) (rest : list float) :
  Forall (eq x) rest ->
  fold_left (fun acc y => if pick y acc then y else acc) rest x = x.
Proof.
  induction 1 as [| y rest Hy _ IH]; cbn; [reflexivity |].
  subst y. destruct (pick x x); exact IH.
Qed.

(** X11: when every point of the [detuning] coordinate is one finite
    frequency, the extracted [sweep_span] is zero, and the width check of
    the record is the absolute criterion alone. *)
Theorem one_frequency_sweep_has_zero_span (fit : Dataset.t)
  (fitters : list (string * S21Resonator.t)) (qubit_name : string) (metrics : Metrics)
  (x : float) (rest : list float)
  (snr_distorted distorted_fraction_low_snr distorted_fraction_high_snr : float)
  (fwhm_absolute_threshold : float) :
  in_dims "detuning" fit = true ->
  dict_get (Dataset.coords fit) "detuning" = Some (FloatAxis (x :: rest)) ->
  Forall (eq x) rest ->
  PrimFloat.is_finite x = true ->
  _extract_qubit_fit_metrics fit fitters qubit_name = Ok metrics ->
  py_eq (sweep_span metrics) 0%float = true
  /\ _is_peak_too_wide (fwhm metrics) (sweep_span metrics) (snr metrics) snr_distorted
       distorted_fraction_low_snr distorted_fraction_high_snr fwhm_absolute_threshold
     = Ok (py_gt (fwhm metrics) fwhm_absolute_threshold).
Proof.
  intros Hdim Haxis Hconstant Hfinite Hok.
  apply extract_sweep_span_of_result in Hok.
  unfold extract_sweep_span, coord_span, coords_getitem in Hok.
  rewrite Hdim, Haxis in Hok. cbn [bind axis_span] in Hok.
  pose proof (constant_without_nan x rest Hfinite Hconstant) as Hall.
  rewrite (array_max_without_nan x rest Hall), (array_min_without_nan x rest Hall) in Hok.
  cbn [bind] in Hok. rewrite !fold_pick_constant in Hok by exact Hconstant.
  injection Hok as Hspan.
  assert (Hzero : py_eq (sweep_span metrics) 0%float = true).
  { rewrite <- Hspan. apply float_sub_diag. exact Hfinite. }
  split; [exact Hzero |].
  rewrite is_peak_too_wide_spec. unfold spec_too_wide.
  rewrite (eq_excludes_gt _ _ Hzero). reflexivity.
Qed.

(** X12: the extractor and the classifier together: for a record that is
    not a good circle fit and whose SNR is not low, the outcome is the
    artifact message exactly when the raw [opx_bandwidth_artifact] of the
    dataset is false. *)
Theorem clean_raw_flag_is_reported_as_artifact (fit : Dataset.t)
  (fitters : list (string * S21Resonator.t)) (qubit_name : string)
  (qubit_data : QubitData.t) (raw : bool) (metrics : Metrics)
  (snr_min snr_distorted asymmetry_min asymmetry_max skewness_max : float)
  (distorted_fraction_low_snr distorted_fraction_high_snr fwhm_absolute_threshold : float) :
  dict_get (Dataset.qubit fit) qubit_name = Some qubit_data ->
  QubitData.opx_bandwidth_artifact qubit_data = Some raw ->
  _extract_qubit_fit_metrics fit fitters qubit_name = Ok metrics ->
  py_gt (r_squared metrics) R_SQUARED_THRESHOLD && py_lt (nrmse metrics) NRMSE_THRESHOLD
  = false ->
  py_lt (snr metrics) snr_min = false ->
  (_determine_resonator_outcome metrics snr_min snr_distorted asymmetry_min asymmetry_max
     skewness_max distorted_fraction_low_snr distorted_fraction_high_snr
     fwhm_absolute_threshold
   = Ok outcome_artifact
   <-> raw = false).
Proof.
  intros Hslice Hraw Hok Hfit Hloud.
  destruct (extract_ok_inv _ _ _ _ Hok)
    as (qubit_data' & fitter & Hslice' & _ & _ & _ & _ & _ & _ & _ & Hflag & _).
  rewrite Hslice in Hslice'. injection Hslice' as <-.
  rewrite Hraw in Hflag. injection Hflag as ->.
  cascade_cases metrics snr_min snr_distorted; try congruence.
  all: cbn [negb]; split; intros; try discriminate; try reflexivity.
Qed.

(** * The validation pipeline *)

Lemma dict_get_map {A B : Type} (f : A -> B) (d : list (string * A)) (key : string) :
  dict_get (map (fun item => (fst item, f (snd item))) d) key
  = option_map f (dict_get d key).
Proof.
  induction d as [| [k v] d IH]; cbn; [reflexivity |].
  destruct (String.eqb k key); [reflexivity | exact IH].
Qed.

Lemma dict_get_some_in {V : Type} (d : list (string * V)) (key : string) (v : V) :
  dict_get d key = Some v -> In (key, v) d.
Proof.
  induction d as [| [k w] d IH]; cbn; [discriminate |].
  destruct (String.eqb k key) eqn:Hk.
  - apply String.eqb_eq in Hk. subst k. intros Hv. injection Hv as ->. now left.
  - intros Hv. right. exact (IH Hv).
Qed.

Lemma dict_get_none_iff {V : Type} (d : list (string * V)) (key : string) :
  dict_get d key = None <-> ~ In key (map fst d).
Proof.
  induction d as [| [k w] d IH]; cbn; [tauto |].
  destruct (String.eqb k key) eqn:Hk.
  - apply String.eqb_eq in Hk. subst k. split; [discriminate | tauto].
  - apply String.eqb_neq in Hk. rewrite IH. tauto.
Qed.

Lemma dict_set_new {V : Type} (d : list (string * V)) (key : string) (v : V) :
  ~ In key (map fst d) -> dict_set d key v = (d ++ [(key, v)])%list.
Proof.
  induction d as [| [k w] d IH]; cbn; [reflexivity |].
  intros Hnew. destruct (String.eqb k key) eqn:Hk.
  - apply String.eqb_eq in Hk. tauto.
  - rewrite IH by tauto. reflexivity.
Qed.

(** Storing under distinct new keys appends the items in order. *)
Lemma store_all_new (stored fit_results : list (string * FitParameters.t)) :
  NoDup (map fst stored) ->
  (forall key, In key (map fst stored) -> ~ In key (map fst fit_results)) ->
  store_all fit_results stored = (fit_results ++ stored)%list.
Proof.
  unfold store_all. revert fit_results.
  induction stored as [| [k p] stored IH]; intros fit_results Hnodup Hnew; cbn.
  - now rewrite app_nil_r.
  - inversion Hnodup as [| ? ? Hk Hrest]; subst.
    rewrite dict_set_new by (apply Hnew; now left).
    rewrite IH.
    + rewrite <- app_assoc. reflexivity.
    + exact Hrest.
    + intros key Hin. rewrite map_app, in_app_iff. cbn.
      intros [Hold | [<- | []]].
      * exact (Hnew key (or_intror Hin) Hold).
      * exact (Hk Hin).
Qed.

Lemma validate_qubits_step (fit : FitDataset.t) (fitters : list (string * S21Resonator.t))
  (qubit_name : string) (rest : list string)
  (fit_results : list (string * FitParameters.t)) (outcomes : list string) :
  validate_qubits fit fitters (qubit_name :: rest) fit_results outcomes
  = (parameters <- validate_qubit fit fitters qubit_name ;;
     validate_qubits fit fitters rest (dict_set fit_results qubit_name parameters)
       (outcomes ++ [FitParameters.outcome parameters])%list).
Proof.
  cbn [validate_qubits]. unfold validate_qubit.
  destruct (_extract_qubit_fit_metrics _ _ _); [| reflexivity]. cbn [bind].
  destruct (call_determine_resonator_outcome _ _); [| reflexivity]. cbn [bind].
  destruct (getitem (FitDataset.qubit fit) qubit_name) as [slice |]; [| reflexivity].
  cbn [bind].
  destruct (getattr (FitSlice.res_freq slice) _); [| reflexivity]. cbn [bind].
  destruct (getattr (QubitData.fwhm (FitSlice.peaks slice)) _); reflexivity.
Qed.

(** The loop returns exactly when every iteration does, with the items
    stored in the order of the names. *)
Lemma validate_qubits_ok (fit : FitDataset.t) (fitters : list (string * S21Resonator.t))
  (names : list string) :
  forall (fit_results : list (string * FitParameters.t)) (outcomes : list string)
         (validated : list (string * FitParameters.t) * list string),
    validate_qubits fit fitters names fit_results outcomes = Ok validated ->
    exists stored : list FitParameters.t,
      Forall2 (fun name parameters => validate_qubit fit fitters name = Ok parameters)
        names stored
      /\ fst validated = store_all fit_results (combine names stored)
      /\ snd validated = (outcomes ++ map FitParameters.outcome stored)%list.
Proof.
  induction names as [| name names IH]; intros fit_results outcomes validated.
  - cbn. intros Hok. injection Hok as <-. exists []. cbn.
    rewrite app_nil_r. repeat split. constructor.
  - rewrite validate_qubits_step.
    destruct (validate_qubit fit fitters name) as [parameters |] eqn:Hone; [| discriminate].
    cbn [bind]. intros Hok.
    destruct (IH _ _ _ Hok) as [stored [Hall [Hres Hout]]].
    exists (parameters :: stored). split; [constructor; assumption |].
    split; [exact Hres |].
    rewrite Hout, <- app_assoc. reflexivity.
Qed.

Lemma validate_qubits_returns (fit : FitDataset.t) (fitters : list (string * S21Resonator.t))
  (names : list string) :
  (forall name, In name names ->
     exists parameters, validate_qubit fit fitters name = Ok parameters) ->
  forall (fit_results : list (string * FitParameters.t)) (outcomes : list string),
    exists validated, validate_qubits fit fitters names fit_results outcomes = Ok validated.
Proof.
  induction names as [| name names IH]; intros Hall fit_results outcomes.
  - eexists. reflexivity.
  - rewrite validate_qubits_step.
    destruct (Hall name (or_introl eq_refl)) as [parameters Hone].
    rewrite Hone. cbn [bind]. apply IH. intros other Hin. apply Hall. now right.
Qed.

Lemma Forall2_combine_in {A B : Type} (R : A -> B -> Prop) (l : list A) (l' : list B)
  (a : A) (b : B) :
  Forall2 R l l' -> In (a, b) (combine l l') -> R a b.
Proof.
  induction 1 as [| x y l l' Hxy _ IH]; cbn; [tauto |].
  intros [Heq | Hin]; [injection Heq as <- <-; exact Hxy | exact (IH Hin)].
Qed.

Lemma Forall2_length_eq {A B : Type} (R : A -> B -> Prop) (l : list A) (l' : list B) :
  Forall2 R l l' -> length l = length l'.
Proof. induction 1; cbn; congruence. Qed.

Lemma map_fst_combine {A B : Type} (l : list A) (l' : list B) :
  length l = length l' -> map fst (combine l l') = l.
Proof.
  revert l'. induction l as [| a l IH]; intros [| b l']; cbn; try discriminate;
    [reflexivity |].
  intros Hlen. f_equal. apply IH. lia.
Qed.

(** The values collected from the circle-fit results, key by key. *)
Lemma collect_ok (fit_results : list (string * list (string * float)))
  (field : string) (keys : list string) :
  forall values : list float,
    collect fit_results keys field = Ok values ->
    Forall2 (fun key value =>
               exists entry, dict_get fit_results key = Some entry
                             /\ dict_get entry field = Some value)
      keys values.
Proof.
  induction keys as [| key keys IH]; intros values; cbn.
  - intros Hok. injection Hok as <-. constructor.
  - unfold getitem at 1.
    destruct (dict_get fit_results key) as [entry |] eqn:Hentry; [| discriminate].
    cbn [bind]. unfold getitem at 1.
    destruct (dict_get entry field) as [value |] eqn:Hvalue; [| discriminate].
    cbn [bind].
    destruct (collect fit_results keys field) as [rest |]; [| discriminate].
    cbn [bind]. intros Hok. injection Hok as <-.
    constructor; [exists entry; split; assumption | apply IH; reflexivity].
Qed.

Lemma collect_returns (fit_results : list (string * list (string * float)))
  (field : string) (keys : list string) :
  (forall key, In key keys ->
     exists entry value, dict_get fit_results key = Some entry
                         /\ dict_get entry field = Some value) ->
  exists values, collect fit_results keys field = Ok values.
Proof.
  induction keys as [| key keys IH]; intros Hall; cbn.
  - eexists. reflexivity.
  - destruct (Hall key (or_introl eq_refl)) as [entry [value [Hentry Hvalue]]].
    unfold getitem. rewrite Hentry. cbn [bind]. rewrite Hvalue. cbn [bind].
    destruct IH as [values Hvalues]; [intros k Hk; apply Hall; now right |].
    rewrite Hvalues. cbn [bind]. eexists. reflexivity.
Qed.

Lemma assign_coords_ok {A : Type} (set : FitSlice.t -> A -> FitSlice.t)
  (fit fit' : FitDataset.t) (values : list A) :
  assign_coords set fit values = Ok fit' ->
  length values = length (FitDataset.qubit fit)
  /\ fit' = with_qubit fit
              (map (fun pair => (fst (fst pair), set (snd (fst pair)) (snd pair)))
                 (combine (FitDataset.qubit fit) values)).
Proof.
  unfold assign_coords.
  destruct (Nat.eqb _ _) eqn:Hlen; [| discriminate].
  apply Nat.eqb_eq in Hlen. intros Hok. injection Hok as <-. split; [exact Hlen | reflexivity].
Qed.

Lemma assign_coords_raise {A : Type} (set : FitSlice.t -> A -> FitSlice.t)
  (fit : FitDataset.t) (values : list A) :
  length values <> length (FitDataset.qubit fit) ->
  assign_coords set fit values
  = Raise (ValueError "conflicting sizes for dimension 'qubit'").
Proof.
  intros Hlen. unfold assign_coords.
  destruct (Nat.eqb_spec (length values) (length (FitDataset.qubit fit)));
    [contradiction | reflexivity].
Qed.

Lemma assign_coords_names {A : Type} (set : FitSlice.t -> A -> FitSlice.t)
  (slices : list (string * FitSlice.t)) (values : list A) :
  length values = length slices ->
  map fst (map (fun pair => (fst (fst pair), set (snd (fst pair)) (snd pair)))
             (combine slices values))
  = map fst slices.
Proof.
  revert values. induction slices as [| [k s] slices IH]; intros [| v values]; cbn;
    try discriminate; [reflexivity |].
  intros Hlen. f_equal. apply IH. lia.
Qed.

Lemma assign_coords_nth {A : Type} (set : FitSlice.t -> A -> FitSlice.t)
  (slices : list (string * FitSlice.t)) (values : list A) (i : nat)
  (name : string) (slice' : FitSlice.t) :
  nth_error (map (fun pair => (fst (fst pair), set (snd (fst pair)) (snd pair)))
               (combine slices values)) i = Some (name, slice') ->
  exists slice value,
    nth_error slices i = Some (name, slice) /\ nth_error values i = Some value
    /\ slice' = set slice value.
Proof.
  revert values i. induction slices as [| [k s] slices IH]; intros [| v values] i; cbn;
    try (destruct i; discriminate).
  destruct i as [| i]; cbn.
  - intros Hnth. injection Hnth as <- <-. now exists s, v.
  - apply IH.
Qed.

Lemma Forall2_nth_error {A B : Type} (R : A -> B -> Prop) (l : list A) (l' : list B) :
  Forall2 R l l' ->
  forall (i : nat) (b : B),
    nth_error l' i = Some b -> exists a, nth_error l i = Some a /\ R a b.
Proof.
  induction 1 as [| x y l l' Hxy _ IH]; intros [| i] b; cbn; try discriminate.
  - intros Hb. injection Hb as <-. now exists x.
  - apply IH.
Qed.

Lemma nth_error_combine {A B : Type} (l : list A) (l' : list B) (i : nat) (a : A) (b : B) :
  nth_error (combine l l') i = Some (a, b)
  <-> nth_error l i = Some a /\ nth_error l' i = Some b.
Proof.
  revert l' i. induction l as [| x l IH]; intros [| y l'] [| i]; cbn;
    try (split; [discriminate | intros [? ?]; discriminate]).
  - split; [intros Heq; injection Heq as <- <-; now split
           | intros [Hx Hy]; injection Hx as <-; injection Hy as <-; reflexivity].
  - apply IH.
Qed.

Lemma assign_coords_nth_set {A : Type} (set : FitSlice.t -> A -> FitSlice.t)
  (slices : list (string * FitSlice.t)) (values : list A) (i : nat)
  (name : string) (slice : FitSlice.t) (value : A) :
  nth_error slices i = Some (name, slice) ->
  nth_error values i = Some value ->
  nth_error (map (fun pair => (fst (fst pair), set (snd (fst pair)) (snd pair)))
               (combine slices values)) i = Some (name, set slice value).
Proof.
  intros Hslice Hvalue.
  rewrite nth_error_map.
  rewrite (proj2 (nth_error_combine slices values i (name, slice) value) (conj Hslice Hvalue)).
  reflexivity.
Qed.

Lemma nth_error_dict_get {V : Type} (d : list (string * V)) (i : nat) (key : string) (v : V) :
  NoDup (map fst d) -> nth_error d i = Some (key, v) -> dict_get d key = Some v.
Proof.
  revert i. induction d as [| [k w] d IH]; intros [| i]; cbn; try discriminate.
  - intros _ Heq. injection Heq as <- <-. now rewrite String.eqb_refl.
  - intros Hnodup Hnth. inversion Hnodup as [| ? ? Hk Hrest]; subst.
    destruct (String.eqb k key) eqn:Hkey.
    + apply String.eqb_eq in Hkey. subst k. exfalso. apply Hk.
      apply nth_error_In in Hnth. apply (in_map fst) in Hnth. exact Hnth.
    + exact (IH i Hrest Hnth).
Qed.

Lemma in_keys_dict_get {V : Type} (d : list (string * V)) (key : string) :
  In key (map fst d) -> exists v, dict_get d key = Some v.
Proof.
  intros Hin. destruct (dict_get d key) as [v |] eqn:Hget; [now exists v |].
  apply dict_get_none_iff in Hget. contradiction.
Qed.

(** Assigning the outcomes leaves what the extractor reads untouched. *)
Lemma peaks_of_assigned_outcomes (slices : list (string * FitSlice.t))
  (outcomes : list string) :
  length outcomes = length slices ->
  map (fun item => (fst item, FitSlice.peaks (snd item)))
    (map (fun pair => (fst (fst pair), set_outcome (snd (fst pair)) (snd pair)))
       (combine slices outcomes))
  = map (fun item => (fst item, FitSlice.peaks (snd item))) slices.
Proof.
  revert outcomes. induction slices as [| [k s] slices IH]; intros [| o outcomes]; cbn;
    try discriminate; [reflexivity |].
  intros Hlen. f_equal. apply IH. lia.
Qed.

Lemma call_with_defaults (metrics : Metrics) :
  call_determine_resonator_outcome metrics []
  = _determine_resonator_outcome metrics SNR_MIN SNR_DISTORTED ASYMMETRY_MIN ASYMMETRY_MAX
      SKEWNESS_MAX DISTORTED_FRACTION_LOW_SNR DISTORTED_FRACTION_HIGH_SNR
      FWHM_ABSOLUTE_THRESHOLD_HZ.
Proof. reflexivity. Qed.

(** What an iteration that returns has read. *)
Lemma validate_qubit_ok (fit : FitDataset.t) (fitters : list (string * S21Resonator.t))
  (qubit_name : string) (parameters : FitParameters.t) :
  validate_qubit fit fitters qubit_name = Ok parameters ->
  exists (metrics : Metrics) (slice : FitSlice.t),
    _extract_qubit_fit_metrics (dataset_of fit) fitters qubit_name = Ok metrics
    /\ call_determine_resonator_outcome metrics [] = Ok (FitParameters.outcome parameters)
    /\ dict_get (FitDataset.qubit fit) qubit_name = Some slice
    /\ FitSlice.res_freq slice = Some (FitParameters.frequency parameters)
    /\ FitParameters.fwhm parameters = fwhm metrics.
Proof.
  unfold validate_qubit.
  destruct (_extract_qubit_fit_metrics _ _ _) as [metrics |] eqn:Hextract; [| discriminate].
  cbn [bind].
  destruct (call_determine_resonator_outcome metrics []) as [outcome |] eqn:Hcall;
    [| discriminate].
  cbn [bind].
  destruct (getitem (FitDataset.qubit fit) qubit_name) as [slice |] eqn:Hslice;
    [| discriminate].
  cbn [bind].
  destruct (getattr (FitSlice.res_freq slice) _) as [frequency |] eqn:Hfrequency;
    [| discriminate].
  cbn [bind].
  destruct (getattr (QubitData.fwhm (FitSlice.peaks slice)) _) as [width |] eqn:Hwidth;
    [| discriminate].
  cbn [bind]. intros Hok. injection Hok as <-.
  exists metrics, slice. cbn [FitParameters.outcome FitParameters.frequency FitParameters.fwhm].
  apply getitem_ok in Hslice. apply getattr_ok in Hfrequency. apply getattr_ok in Hwidth.
  repeat split; try assumption.
  destruct (extract_ok_inv _ _ _ _ Hextract)
    as (qubit_data & _ & Hdata & _ & _ & _ & _ & Hfwhm & _).
  cbn [dataset_of Dataset.qubit] in Hdata. rewrite dict_get_map, Hslice in Hdata.
  cbn in Hdata. injection Hdata as <-. congruence.
Qed.

(** An iteration returns when the extraction does and the slice has its
    two coordinates. *)
Lemma validate_qubit_returns (fit : FitDataset.t) (fitters : list (string * S21Resonator.t))
  (qubit_name : string) (metrics : Metrics) :
  (forall name slice, In (name, slice) (FitDataset.qubit fit) ->
     FitSlice.res_freq slice <> None) ->
  _extract_qubit_fit_metrics (dataset_of fit) fitters qubit_name = Ok metrics ->
  exists parameters, validate_qubit fit fitters qubit_name = Ok parameters.
Proof.
  intros Hassigned Hextract. unfold validate_qubit. rewrite Hextract. cbn [bind].
  rewrite call_with_defaults.
  destruct (cascade_outcome metrics SNR_MIN SNR_DISTORTED ASYMMETRY_MIN ASYMMETRY_MAX
              SKEWNESS_MAX DISTORTED_FRACTION_LOW_SNR DISTORTED_FRACTION_HIGH_SNR
              FWHM_ABSOLUTE_THRESHOLD_HZ) as [outcome [-> _]].
  cbn [bind].
  destruct (extract_ok_inv _ _ _ _ Hextract)
    as (qubit_data & _ & Hdata & _ & _ & _ & _ & Hfwhm & _).
  cbn [dataset_of Dataset.qubit] in Hdata. rewrite dict_get_map in Hdata.
  destruct (dict_get (FitDataset.qubit fit) qubit_name) as [slice |] eqn:Hslice;
    [| discriminate].
  cbn in Hdata. injection Hdata as <-.
  rewrite (getitem_some _ _ _ Hslice). cbn [bind].
  apply dict_get_some_in in Hslice.
  specialize (Hassigned _ _ Hslice).
  destruct (FitSlice.res_freq slice) as [frequency |]; [| congruence].
  cbn [getattr bind]. rewrite Hfwhm. cbn [getattr bind]. eexists. reflexivity.
Qed.

Section PipelineProperties.

Variables RawDataset DataArray QualibrationNode : Type.
Variable circle_fit_s21_resonator_model :
  RawDataset ->
  result (list (string * list (string * float)) * list (string * S21Resonator.t)).
Variable IQ_abs : RawDataset -> result DataArray.
Variable peaks_dips : DataArray -> string -> result FitDataset.t.

(** What [_calculate_resonator_parameters] returns, read off its steps. *)
Lemma calculate_ok (ds : RawDataset) (fit : FitDataset.t) (node : QualibrationNode)
  (fit' : FitDataset.t) (fitters : list (string * S21Resonator.t)) :
  _calculate_resonator_parameters circle_fit_s21_resonator_model ds fit node
  = Ok (fit', fitters) ->
  exists (fit_results : list (string * list (string * float)))
         (frequencies widths : list float),
    circle_fit_s21_resonator_model ds = Ok (fit_results, fitters)
    /\ collect fit_results (map fst fit_results) "frequency" = Ok frequencies
    /\ collect fit_results (map fst fit_results) "fwhm" = Ok widths
    /\ length frequencies = length (FitDataset.qubit fit)
    /\ length widths = length (FitDataset.qubit fit)
    /\ FitDataset.qubit fit'
       = map (fun pair => (fst (fst pair), set_fwhm (snd (fst pair)) (snd pair)))
           (combine
              (map (fun pair => (fst (fst pair), set_res_freq (snd (fst pair)) (snd pair)))
                 (combine (FitDataset.qubit fit) frequencies))
              widths)
    /\ FitDataset.dims fit' = FitDataset.dims fit
    /\ FitDataset.coords fit' = FitDataset.coords fit
    /\ dict_get (FitDataset.attrs fit') "s21_models" = Some (ModelsAttr fitters).
Proof.
  unfold _calculate_resonator_parameters.
  destruct (circle_fit_s21_resonator_model ds) as [[fit_results fitters'] |] eqn:Hfit;
    [| discriminate].
  cbn [bind fst snd].
  destruct (collect fit_results (map fst fit_results) "frequency") as [frequencies |]
    eqn:Hfrequencies; [| discriminate].
  cbn [bind].
  destruct (assign_coords set_res_freq _ frequencies) as [fit1 |] eqn:Hfirst;
    [| discriminate].
  cbn [bind].
  destruct (collect fit_results (map fst fit_results) "fwhm") as [widths |] eqn:Hwidths;
    [| discriminate].
  cbn [bind].
  destruct (assign_coords set_fwhm _ widths) as [fit2 |] eqn:Hsecond; [| discriminate].
  cbn [bind]. intros Hok. injection Hok as <- <-.
  apply assign_coords_ok in Hfirst. destruct Hfirst as [Hlen1 ->].
  apply assign_coords_ok in Hsecond. destruct Hsecond as [Hlen2 ->].
  cbn in Hlen1, Hlen2. cbn [FitDataset.qubit with_variable_attrs with_qubit] in Hlen2.
  exists fit_results, frequencies, widths.
  split; [reflexivity |]. split; [exact Hfrequencies |]. split; [exact Hwidths |].
  split; [exact Hlen1 |].
  split.
  { rewrite Hlen2, length_map, length_combine. lia. }
  split; [reflexivity |]. split; [reflexivity |]. split; [reflexivity |].
  reflexivity.
Qed.


Lemma calculate_names (ds : RawDataset) (fit : FitDataset.t) (node : QualibrationNode)
  (fit' : FitDataset.t) (fitters : list (string * S21Resonator.t)) :
  _calculate_resonator_parameters circle_fit_s21_resonator_model ds fit node
  = Ok (fit', fitters) ->
  qubit_values fit' = qubit_values fit.
Proof.
  intros Hok. destruct (calculate_ok _ _ _ _ _ Hok)
    as (fit_results & frequencies & widths & _ & _ & _ & Hlen1 & Hlen2 & Hqubit & _).
  unfold qubit_values. rewrite Hqubit.
  rewrite assign_coords_names.
  - apply assign_coords_names. exact Hlen1.
  - rewrite length_map, length_combine. lia.
Qed.

Lemma calculate_assigns (ds : RawDataset) (fit : FitDataset.t) (node : QualibrationNode)
  (fit' : FitDataset.t) (fitters : list (string * S21Resonator.t)) :
  _calculate_resonator_parameters circle_fit_s21_resonator_model ds fit node
  = Ok (fit', fitters) ->
  forall name slice, In (name, slice) (FitDataset.qubit fit') ->
    FitSlice.res_freq slice <> None.
Proof.
  intros Hok name slice Hin.
  destruct (calculate_ok _ _ _ _ _ Hok)
    as (fit_results & frequencies & widths & _ & _ & _ & _ & _ & Hqubit & _).
  rewrite Hqubit in Hin. apply In_nth_error in Hin. destruct Hin as [i Hnth].
  apply assign_coords_nth in Hnth. destruct Hnth as (slice1 & width & Hnth & _ & ->).
  apply assign_coords_nth in Hnth. destruct Hnth as (slice0 & frequency & _ & _ & ->).
  discriminate.
Qed.

(** X13: [_calculate_resonator_parameters] assigns the circle-fit values
    by position: the qubit at position [i] of the dataset receives the
    [frequency] and [fwhm] of the [i]-th key of the circle-fit results,
    whatever that key is; names and the other variables are kept, and the
    fitters are stored under [s21_models]. *)
Theorem resonator_parameters_go_by_position (ds : RawDataset) (fit : FitDataset.t)
  (node : QualibrationNode) (fit' : FitDataset.t)
  (fitters : list (string * S21Resonator.t)) :
  _calculate_resonator_parameters circle_fit_s21_resonator_model ds fit node
  = Ok (fit', fitters) ->
  exists fit_results : list (string * list (string * float)),
    circle_fit_s21_resonator_model ds = Ok (fit_results, fitters)
    /\ length fit_results = length (FitDataset.qubit fit)
    /\ qubit_values fit' = qubit_values fit
    /\ dict_get (FitDataset.attrs fit') "s21_models" = Some (ModelsAttr fitters)
    /\ forall (i : nat) (name : string) (slice' : FitSlice.t),
         nth_error (FitDataset.qubit fit') i = Some (name, slice') ->
         exists (key : string) (entry : list (string * float)) (slice : FitSlice.t)
                (frequency width : float),
           nth_error (map fst fit_results) i = Some key
           /\ dict_get fit_results key = Some entry
           /\ dict_get entry "frequency" = Some frequency
           /\ dict_get entry "fwhm" = Some width
           /\ nth_error (FitDataset.qubit fit) i = Some (name, slice)
           /\ slice' = set_fwhm (set_res_freq slice frequency) width.
Proof.
  intros Hok. pose proof (calculate_names _ _ _ _ _ Hok) as Hnames.
  destruct (calculate_ok _ _ _ _ _ Hok)
    as (fit_results & frequencies & widths & Hfit & Hfrequencies & Hwidths & Hlen1 & Hlen2
        & Hqubit & _ & _ & Hattrs).
  apply collect_ok in Hfrequencies. apply collect_ok in Hwidths.
  exists fit_results. split; [exact Hfit |].
  split.
  { rewrite <- Hlen1, <- (Forall2_length_eq _ _ _ Hfrequencies). now rewrite length_map. }
  split; [exact Hnames |]. split; [exact Hattrs |].
  intros i name slice' Hnth. rewrite Hqubit in Hnth.
  apply assign_coords_nth in Hnth. destruct Hnth as (slice1 & width & Hnth & Hwidth & ->).
  apply assign_coords_nth in Hnth.
  destruct Hnth as (slice & frequency & Hslice & Hfrequency & ->).
  destruct (Forall2_nth_error _ _ _ Hfrequencies i frequency Hfrequency)
    as (key & Hkey & entry & Hentry & Hf).
  destruct (Forall2_nth_error _ _ _ Hwidths i width Hwidth)
    as (key' & Hkey' & entry' & Hentry' & Hw).
  rewrite Hkey in Hkey'. injection Hkey' as <-.
  rewrite Hentry in Hentry'. injection Hentry' as <-.
  exists key, entry, slice, frequency, width. repeat split; assumption.
Qed.

(** X14: when the circle fit returns results for another number of qubits
    than the dataset has, each with a [frequency],
    [_calculate_resonator_parameters] and with it the validation raise a
    [ValueError]. *)
Theorem unequal_sizes_raise_value_error (ds : RawDataset) (fit : FitDataset.t)
  (node : QualibrationNode) (fit_results : list (string * list (string * float)))
  (fitters : list (string * S21Resonator.t)) :
  circle_fit_s21_resonator_model ds = Ok (fit_results, fitters) ->
  (forall key entry, dict_get fit_results key = Some entry ->
     exists frequency, dict_get entry "frequency" = Some frequency) ->
  length fit_results <> length (FitDataset.qubit fit) ->
  exists e : py_exception,
    _calculate_resonator_parameters circle_fit_s21_resonator_model ds fit node = Raise e
    /\ _extract_and_validate_fit_parameters circle_fit_s21_resonator_model ds fit node
       = Raise e
    /\ exc_class e = "ValueError".
Proof.
  intros Hfit Hentries Hsizes.
  unfold _extract_and_validate_fit_parameters, _calculate_resonator_parameters.
  rewrite Hfit. cbn [bind fst snd].
  destruct (collect_returns fit_results "frequency" (map fst fit_results))
    as [frequencies Hfrequencies].
  { intros key Hin. destruct (in_keys_dict_get _ _ Hin) as [entry Hentry].
    destruct (Hentries _ _ Hentry) as [frequency Hfrequency].
    now exists entry, frequency. }
  rewrite Hfrequencies. cbn [bind].
  pose proof (Forall2_length_eq _ _ _ (collect_ok _ _ _ _ Hfrequencies)) as Hlen.
  rewrite length_map in Hlen.
  rewrite !(assign_coords_raise set_res_freq (with_attrs fit _) frequencies)
    by (cbn [FitDataset.qubit with_attrs]; congruence).
  cbn [bind]. eexists. repeat split.
Qed.


(** What [_extract_and_validate_fit_parameters] returns, read off its
    steps. *)
Lemma validate_ok (ds : RawDataset) (fit : FitDataset.t) (node : QualibrationNode)
  (fit' : FitDataset.t) (results : list (string * FitParameters.t)) :
  _extract_and_validate_fit_parameters circle_fit_s21_resonator_model ds fit node
  = Ok (fit', results) ->
  exists (fit1 : FitDataset.t) (fitters : list (string * S21Resonator.t))
         (stored : list FitParameters.t),
    _calculate_resonator_parameters circle_fit_s21_resonator_model ds fit node
    = Ok (fit1, fitters)
    /\ Forall2 (fun name parameters => validate_qubit fit1 fitters name = Ok parameters)
         (qubit_values fit1) stored
    /\ results = store_all [] (combine (qubit_values fit1) stored)
    /\ FitDataset.qubit fit'
       = map (fun pair => (fst (fst pair), set_outcome (snd (fst pair)) (snd pair)))
           (combine (FitDataset.qubit fit1) (map FitParameters.outcome stored))
    /\ FitDataset.dims fit' = FitDataset.dims fit1
    /\ FitDataset.coords fit' = FitDataset.coords fit1
    /\ FitDataset.attrs fit' = FitDataset.attrs fit1.
Proof.
  unfold _extract_and_validate_fit_parameters.
  destruct (_calculate_resonator_parameters _ ds fit node) as [[fit1 fitters] |];
    [| discriminate].
  cbn [bind fst snd].
  destruct (validate_qubits fit1 fitters (qubit_values fit1) [] []) as [validated |]
    eqn:Hloop; [| discriminate].
  cbn [bind].
  destruct (assign_coords set_outcome fit1 (snd validated)) as [fit2 |] eqn:Hassign;
    [| discriminate].
  cbn [bind]. intros Hok. injection Hok as <- <-.
  destruct (validate_qubits_ok _ _ _ _ _ _ Hloop) as (stored & Hall & Hresults & Houtcomes).
  cbn [app] in Houtcomes. rewrite Houtcomes in Hassign.
  apply assign_coords_ok in Hassign. destruct Hassign as [_ ->].
  exists fit1, fitters, stored. repeat split; assumption.
Qed.

(** X15: once the resonator parameters are assigned, the validation
    returns exactly when the metrics of every qubit of the dataset can be
    extracted: a single failing qubit leaves no results at all. *)
Theorem validation_is_all_or_nothing (ds : RawDataset) (fit : FitDataset.t)
  (node : QualibrationNode) (fit1 : FitDataset.t)
  (fitters : list (string * S21Resonator.t)) :
  _calculate_resonator_parameters circle_fit_s21_resonator_model ds fit node
  = Ok (fit1, fitters) ->
  (exists validated,
     _extract_and_validate_fit_parameters circle_fit_s21_resonator_model ds fit node
     = Ok validated)
  <-> (forall name, In name (qubit_values fit1) ->
         exists metrics,
           _extract_qubit_fit_metrics (dataset_of fit1) fitters name = Ok metrics).
Proof.
  intros Hcalc. split.
  - intros [[fit' results] Hok] name Hin.
    destruct (validate_ok _ _ _ _ _ Hok) as (fit1' & fitters' & stored & Hcalc' & Hall & _).
    rewrite Hcalc in Hcalc'. injection Hcalc' as <- <-.
    apply In_nth_error in Hin. destruct Hin as [i Hnth].
    assert (Hlen : length (qubit_values fit1) = length stored)
      by exact (Forall2_length_eq _ _ _ Hall).
    destruct (nth_error stored i) as [parameters |] eqn:Hstored.
    + assert (Hin : In (name, parameters) (combine (qubit_values fit1) stored)).
      { apply (nth_error_In _ i). apply nth_error_combine. now split. }
      pose proof (Forall2_combine_in _ _ _ _ _ Hall Hin) as Hone. cbn beta in Hone.
      destruct (validate_qubit_ok _ _ _ _ Hone) as (metrics & _ & Hextract & _).
      now exists metrics.
    + apply nth_error_None in Hstored.
      assert (i < length (qubit_values fit1))%nat
        by (apply nth_error_Some; congruence).
      lia.
  - intros Hall.
    unfold _extract_and_validate_fit_parameters. rewrite Hcalc. cbn [bind fst snd].
    destruct (validate_qubits_returns fit1 fitters (qubit_values fit1)) with
      (fit_results := @nil (string * FitParameters.t)) (outcomes := @nil string)
      as [validated Hloop].
    { intros name Hin. destruct (Hall name Hin) as [metrics Hextract].
      apply (validate_qubit_returns fit1 fitters name metrics); [| exact Hextract].
      exact (calculate_assigns _ _ _ _ _ Hcalc). }
    rewrite Hloop. cbn [bind].
    destruct (validate_qubits_ok _ _ _ _ _ _ Hloop) as (stored & Hstored & _ & Houtcomes).
    unfold assign_coords.
    replace (length (snd validated)) with (length (FitDataset.qubit fit1)).
    + rewrite Nat.eqb_refl. cbn [bind]. eexists. reflexivity.
    + rewrite Houtcomes. cbn [app]. rewrite length_map.
      rewrite <- (Forall2_length_eq _ _ _ Hstored). unfold qubit_values.
      now rewrite length_map.
Qed.

(** X16: for distinct qubit names, the validation returns one entry per
    qubit, in the order of the dataset; the entry's outcome is the
    classifier's at the default thresholds on the extracted metrics, its
    [fwhm] is the one the classifier judged, and the [outcome] and
    [res_freq] coordinates of the returned dataset hold the same values at
    the same position. *)
Theorem validated_results_agree (ds : RawDataset) (fit : FitDataset.t)
  (node : QualibrationNode) (fit' : FitDataset.t)
  (results : list (string * FitParameters.t)) :
  NoDup (qubit_values fit) ->
  _extract_and_validate_fit_parameters circle_fit_s21_resonator_model ds fit node
  = Ok (fit', results) ->
  map fst results = qubit_values fit
  /\ qubit_values fit' = qubit_values fit
  /\ exists fitters : list (string * S21Resonator.t),
       dict_get (FitDataset.attrs fit') "s21_models" = Some (ModelsAttr fitters)
       /\ forall (i : nat) (name : string) (parameters : FitParameters.t),
            nth_error results i = Some (name, parameters) ->
            exists (metrics : Metrics) (slice : FitSlice.t),
              _extract_qubit_fit_metrics (dataset_of fit') fitters name = Ok metrics
              /\ _determine_resonator_outcome metrics SNR_MIN SNR_DISTORTED ASYMMETRY_MIN
                   ASYMMETRY_MAX SKEWNESS_MAX DISTORTED_FRACTION_LOW_SNR
                   DISTORTED_FRACTION_HIGH_SNR FWHM_ABSOLUTE_THRESHOLD_HZ
                 = Ok (FitParameters.outcome parameters)
              /\ FitParameters.fwhm parameters = fwhm metrics
              /\ nth_error (FitDataset.qubit fit') i = Some (name, slice)
              /\ FitSlice.res_freq slice = Some (FitParameters.frequency parameters)
              /\ FitSlice.outcome slice = Some (FitParameters.outcome parameters).
Proof.
  intros Hnodup Hok.
  destruct (validate_ok _ _ _ _ _ Hok)
    as (fit1 & fitters & stored & Hcalc & Hall & Hresults & Hqubit & Hdims & Hcoords & Hattrs).
  pose proof (calculate_names _ _ _ _ _ Hcalc) as Hnames.
  pose proof (Forall2_length_eq _ _ _ Hall) as Hlen.
  assert (Hcombine : results = combine (qubit_values fit1) stored).
  { rewrite Hresults. rewrite store_all_new; [reflexivity | |].
    - rewrite map_fst_combine by exact Hlen. rewrite Hnames. exact Hnodup.
    - intros key _ []. }
  assert (Hlen' : length (map FitParameters.outcome stored) = length (FitDataset.qubit fit1)).
  { rewrite length_map, <- Hlen. unfold qubit_values. now rewrite length_map. }
  split.
  { rewrite Hcombine, map_fst_combine by exact Hlen. exact Hnames. }
  split.
  { unfold qubit_values at 1. rewrite Hqubit, assign_coords_names by exact Hlen'.
    exact Hnames. }
  exists fitters. split.
  { rewrite Hattrs.
    destruct (calculate_ok _ _ _ _ _ Hcalc) as (? & ? & ? & _ & _ & _ & _ & _ & _ & _ & _ & H).
    exact H. }
  intros i name parameters Hnth.
  rewrite Hcombine in Hnth. apply nth_error_combine in Hnth. destruct Hnth as [Hname Hstored].
  assert (Hin : In (name, parameters) (combine (qubit_values fit1) stored)).
  { apply (nth_error_In _ i). apply nth_error_combine. now split. }
  pose proof (Forall2_combine_in _ _ _ _ _ Hall Hin) as Hone. cbn beta in Hone.
  destruct (validate_qubit_ok _ _ _ _ Hone)
    as (metrics & slice & Hextract & Hcall & Hslice & Hfrequency & Hwidth).
  unfold qubit_values in Hname. rewrite nth_error_map in Hname.
  destruct (nth_error (FitDataset.qubit fit1) i) as [[name' slice'] |] eqn:Hith;
    [| discriminate].
  cbn in Hname. injection Hname as ->.
  assert (Hsame : slice' = slice).
  { assert (Hget : dict_get (FitDataset.qubit fit1) name = Some slice').
    { apply (nth_error_dict_get _ i); [| exact Hith].
      fold (qubit_values fit1). rewrite Hnames. exact Hnodup. }
    congruence. }
  subst slice'.
  exists metrics, (set_outcome slice (FitParameters.outcome parameters)).
  split.
  { replace (dataset_of fit') with (dataset_of fit1); [exact Hextract |].
    unfold dataset_of. rewrite Hdims, Hcoords, Hqubit.
    rewrite peaks_of_assigned_outcomes by exact Hlen'. reflexivity. }
  split; [rewrite <- call_with_defaults; exact Hcall |].
  split; [exact Hwidth |].
  split.
  { rewrite Hqubit. apply assign_coords_nth_set; [exact Hith |].
    rewrite nth_error_map, Hstored. reflexivity. }
  split; [exact Hfrequency | reflexivity].
Qed.

(** X17: logging the results of [fit_raw_data] gives one line per qubit of
    the dataset, in its order, and each line reports success or one of the
    seven failure messages. *)
Theorem fitted_results_are_logged_in_order (ds : RawDataset) (node : QualibrationNode)
  (fit' : FitDataset.t) (results : list (string * FitParameters.t)) :
  NoDup (qubit_values fit') ->
  fit_raw_data circle_fit_s21_resonator_model IQ_abs peaks_dips ds node
  = Ok (fit', results) ->
  let lines :=
    log_fitted_results (map (fun item => (fst item, Structured (snd item))) results) in
  length lines = length (FitDataset.qubit fit')
  /\ forall (i : nat) (line : string),
       nth_error lines i = Some line ->
       exists (name : string) (parameters : FitParameters.t),
         nth_error (qubit_values fit') i = Some name
         /\ nth_error results i = Some (name, parameters)
         /\ line = message_format name (FitParameters.outcome parameters)
                     (FitParameters.frequency parameters) (FitParameters.fwhm parameters)
         /\ (FitParameters.outcome parameters = outcome_successful
             \/ In (FitParameters.outcome parameters) failure_outcomes).
Proof.
  intros Hnodup Hok lines.
  unfold fit_raw_data in Hok.
  destruct (IQ_abs ds) as [amplitude |]; [| discriminate]. cbn [bind] in Hok.
  destruct (peaks_dips amplitude "detuning") as [fit |]; [| discriminate].
  cbn [bind] in Hok.
  destruct (validate_ok _ _ _ _ _ Hok)
    as (fit1 & fitters & stored & Hcalc & Hall & Hresults & Hqubit & _).
  pose proof (Forall2_length_eq _ _ _ Hall) as Hlen.
  assert (Hlen' : length (map FitParameters.outcome stored) = length (FitDataset.qubit fit1)).
  { rewrite length_map, <- Hlen. unfold qubit_values. now rewrite length_map. }
  assert (Hnames : qubit_values fit' = qubit_values fit1).
  { unfold qubit_values at 1. rewrite Hqubit. apply assign_coords_names. exact Hlen'. }
  assert (Hcombine : results = combine (qubit_values fit1) stored).
  { rewrite Hresults. rewrite store_all_new; [reflexivity | |].
    - rewrite map_fst_combine by exact Hlen. rewrite <- Hnames. exact Hnodup.
    - intros key _ []. }
  split.
  { subst lines. unfold log_fitted_results. rewrite !length_map, Hcombine, length_combine.
    rewrite <- Hlen, Nat.min_id.
    rewrite <- (length_map fst (FitDataset.qubit fit')). fold (qubit_values fit').
    now rewrite Hnames. }
  intros i line Hline. subst lines. unfold log_fitted_results in Hline.
  rewrite !nth_error_map in Hline.
  destruct (nth_error results i) as [[name parameters] |] eqn:Hith; [| discriminate].
  cbn [option_map fst snd] in Hline. injection Hline as <-.
  exists name, parameters.
  rewrite Hcombine in Hith. apply nth_error_combine in Hith. destruct Hith as [Hname Hstored].
  split; [rewrite Hnames; exact Hname |].
  split; [reflexivity |].
  split; [rewrite log_message_format; reflexivity |].
  assert (Hin : In (name, parameters) (combine (qubit_values fit1) stored)).
  { apply (nth_error_In _ i). apply nth_error_combine. now split. }
  pose proof (Forall2_combine_in _ _ _ _ _ Hall Hin) as Hone. cbn beta in Hone.
  destruct (validate_qubit_ok _ _ _ _ Hone) as (metrics & _ & _ & Hcall & _).
  rewrite call_with_defaults in Hcall.
  destruct (cascade_outcome metrics SNR_MIN SNR_DISTORTED ASYMMETRY_MIN ASYMMETRY_MAX
              SKEWNESS_MAX DISTORTED_FRACTION_LOW_SNR DISTORTED_FRACTION_HIGH_SNR
              FWHM_ABSOLUTE_THRESHOLD_HZ) as [outcome [Hout Hcases]].
  rewrite Hout in Hcall. injection Hcall as <-. exact Hcases.
Qed.

End PipelineProperties.

(** * NaN in the logged results *)

Lemma float_format_nan (digits : nat) (x c : float) :
  PrimFloat.is_nan x = true -> float_format digits (x * c)%float = "nan".
Proof.
  intros Hnan. apply is_nan_Prim2SF in Hnan.
  unfold float_format. rewrite mul_spec, Hnan. reflexivity.
Qed.

(** X18: a result whose frequency and width are NaN is logged with [nan]
    for both numbers. *)
Theorem nan_values_are_logged_as_nan (fit_results : list (string * fit_result))
  (qubit_name : string) (parameters : FitParameters.t) :
  In (qubit_name, Structured parameters) fit_results ->
  PrimFloat.is_nan (FitParameters.frequency parameters) = true ->
  PrimFloat.is_nan (FitParameters.fwhm parameters) = true ->
  In ("Results for qubit " ++ qubit_name ++ ":  "
      ++ (if String.eqb (FitParameters.outcome parameters) "successful"
          then "SUCCESS!" else "FAIL! Reason: " ++ FitParameters.outcome parameters)
      ++ newline ++ tab ++ "Resonator frequency: nan GHz | FWHM: nan kHz | ")
     (log_fitted_results fit_results).
Proof.
  intros Hin Hfrequency Hfwhm.
  unfold log_fitted_results. apply in_map_iff.
  exists (qubit_name, Structured parameters). split; [| exact Hin].
  cbn [fst snd]. rewrite log_message_format. cbn [logged_fields].
  unfold message_format.
  rewrite (float_format_nan 3 _ _ Hfrequency), (float_format_nan 1 _ _ Hfwhm).
  reflexivity.
Qed.

(** * The classifier on concrete inputs *)

Lemma rule_1_short_circuits_witness :
  py_gt (r_squared scenario_A) 0.90%float = true
  /\ py_lt (nrmse scenario_A) 0.14%float = true
  /\ _determine_resonator_outcome scenario_A SNR_MIN SNR_DISTORTED ASYMMETRY_MIN
       ASYMMETRY_MAX SKEWNESS_MAX DISTORTED_FRACTION_LOW_SNR DISTORTED_FRACTION_HIGH_SNR
       FWHM_ABSOLUTE_THRESHOLD_HZ
     = Ok "successful".
Proof.
  split; [reflexivity |]. split; [reflexivity |].
  apply rule_1_short_circuits; reflexivity.
Defined.

(** The scenarios of the specification, evaluated. *)
Example scenarios_evaluate :
  map (fun m => call_determine_resonator_outcome m [])
    [scenario_A; scenario_B; scenario_C; scenario_D; scenario_E]
  = [ Ok "successful"; Ok outcome_low_snr; Ok outcome_several_peaks;
      Ok outcome_shape_distorted; Ok "Distorted peak detected" ].
Proof. reflexivity. Qed.

Lemma failure_scenarios_evaluate :
  map (fun m => call_determine_resonator_outcome m []) failure_scenarios
  = map Ok failure_outcomes.
Proof. reflexivity. Qed.

Lemma failure_outcomes_distinct : NoDup failure_outcomes.
Proof.
  unfold failure_outcomes.
  repeat (constructor; [cbn; intuition discriminate |]).
  constructor.
Qed.

(** C2, as stated, fails: no set of six failure strings holds every
    failing result, since seven inputs yield seven distinct ones. *)
Lemma six_failure_strings_do_not_suffice :
  ~ (exists failures : list string,
       length failures = 6%nat
       /\ forall metrics : Metrics,
            exists s : string,
              call_determine_resonator_outcome metrics [] = Ok s
              /\ (s = outcome_successful \/ In s failures)).
Proof.
  intros [failures [Hlen Hall]].
  assert (Hincl : incl failure_outcomes failures).
  { intros s Hs.
    assert (Hsrc : exists m, call_determine_resonator_outcome m [] = Ok s).
    { unfold failure_outcomes in Hs. cbn [In] in Hs.
      destruct Hs as [<- | [<- | [<- | [<- | [<- | [<- | [<- | []]]]]]]].
      - now exists scenario_B.
      - now exists scenario_artifact.
      - now exists scenario_C.
      - now exists scenario_no_peaks.
      - now exists scenario_D.
      - now exists scenario_wide_low_snr.
      - now exists scenario_E. }
    destruct Hsrc as [m Hm].
    destruct (Hall m) as [s' [Hs' Hcase]].
    rewrite Hm in Hs'. injection Hs' as <-.
    destruct Hcase as [Hsucc | Hin]; [| exact Hin].
    exfalso. subst s. cbn in Hs. intuition discriminate. }
  pose proof (NoDup_incl_length failure_outcomes_distinct Hincl) as Hle.
  rewrite Hlen in Hle. cbn in Hle. lia.
Qed.

Lemma zero_peaks_low_snr_unreachable_witness :
  rule_5_fires scenario_no_peaks SNR_MIN = true
  /\ _determine_resonator_outcome scenario_no_peaks SNR_MIN SNR_DISTORTED ASYMMETRY_MIN
       ASYMMETRY_MAX SKEWNESS_MAX DISTORTED_FRACTION_LOW_SNR DISTORTED_FRACTION_HIGH_SNR
       FWHM_ABSOLUTE_THRESHOLD_HZ
     = Ok outcome_no_peaks.
Proof.
  split; [reflexivity |].
  apply (zero_peaks_low_snr_unreachable scenario_no_peaks SNR_MIN SNR_DISTORTED
           ASYMMETRY_MIN ASYMMETRY_MAX SKEWNESS_MAX DISTORTED_FRACTION_LOW_SNR
           DISTORTED_FRACTION_HIGH_SNR FWHM_ABSOLUTE_THRESHOLD_HZ).
  reflexivity.
Defined.

Lemma too_wide_rule_witness :
  reaches_rule_7 scenario_E SNR_MIN ASYMMETRY_MIN ASYMMETRY_MAX SKEWNESS_MAX = true
  /\ _is_peak_too_wide (fwhm scenario_E) (sweep_span scenario_E) (snr scenario_E)
       SNR_DISTORTED DISTORTED_FRACTION_LOW_SNR DISTORTED_FRACTION_HIGH_SNR
       FWHM_ABSOLUTE_THRESHOLD_HZ
     = Ok true
  /\ _determine_resonator_outcome scenario_E SNR_MIN SNR_DISTORTED ASYMMETRY_MIN
       ASYMMETRY_MAX SKEWNESS_MAX DISTORTED_FRACTION_LOW_SNR DISTORTED_FRACTION_HIGH_SNR
       FWHM_ABSOLUTE_THRESHOLD_HZ
     = Ok outcome_distorted_peak
  /\ reaches_rule_7 scenario_zero_span SNR_MIN ASYMMETRY_MIN ASYMMETRY_MAX SKEWNESS_MAX
     = true
  /\ py_eq (sweep_span scenario_zero_span) 0%float = true
  /\ py_truediv (fwhm scenario_zero_span) (sweep_span scenario_zero_span)
     = Raise ZeroDivisionError
  /\ _determine_resonator_outcome scenario_zero_span SNR_MIN SNR_DISTORTED ASYMMETRY_MIN
       ASYMMETRY_MAX SKEWNESS_MAX DISTORTED_FRACTION_LOW_SNR DISTORTED_FRACTION_HIGH_SNR
       FWHM_ABSOLUTE_THRESHOLD_HZ
     = Ok outcome_successful.
Proof.
  split; [reflexivity |].
  pose proof (too_wide_rule scenario_E SNR_MIN SNR_DISTORTED ASYMMETRY_MIN ASYMMETRY_MAX
                SKEWNESS_MAX DISTORTED_FRACTION_LOW_SNR DISTORTED_FRACTION_HIGH_SNR
                FWHM_ABSOLUTE_THRESHOLD_HZ eq_refl) as [Hwide [_ Hout]].
  split; [exact Hwide |]. split; [exact Hout |].
  split; [reflexivity |]. split; [reflexivity |].
  pose proof (too_wide_rule scenario_zero_span SNR_MIN SNR_DISTORTED ASYMMETRY_MIN
                ASYMMETRY_MAX SKEWNESS_MAX DISTORTED_FRACTION_LOW_SNR
                DISTORTED_FRACTION_HIGH_SNR FWHM_ABSOLUTE_THRESHOLD_HZ eq_refl)
    as [_ [Hzero Hout0]].
  split; [exact (proj1 (Hzero eq_refl)) | exact Hout0].
Defined.

(** C5, as stated, fails: overriding [r_squared_threshold] is rejected by
    the call, where the specification's classifier would apply it. *)
Lemma r_squared_threshold_not_overridable :
  forallb (fun name => existsb (String.eqb name) spec_threshold_names)
    (map fst stricter_r_squared) = true
  /\ spec_classify (spec_config stricter_r_squared) good_fit_low_snr = outcome_low_snr
  /\ call_determine_resonator_outcome good_fit_low_snr stricter_r_squared
     = Raise (TypeError
         "_determine_resonator_outcome() got an unexpected keyword argument 'r_squared_threshold'")
  /\ call_determine_resonator_outcome good_fit_low_snr stricter_r_squared
     <> Ok (spec_classify (spec_config stricter_r_squared) good_fit_low_snr)
  /\ call_determine_resonator_outcome good_fit_low_snr [] = Ok "successful".
Proof.
  repeat split; try reflexivity.
  intros Heq. discriminate Heq.
Qed.

Lemma call_overrides_eight_thresholds_witness :
  forallb (fun kv => is_parameter (fst kv)) stricter_snr = true
  /\ call_determine_resonator_outcome scenario_A stricter_snr = Ok "successful"
  /\ call_determine_resonator_outcome scenario_D stricter_snr = Ok outcome_low_snr
  /\ call_determine_resonator_outcome scenario_D stricter_snr
     = Ok (spec_classify (call_config stricter_snr) scenario_D)
  /\ forallb (fun kv => is_parameter (fst kv)) stricter_r_squared = false
  /\ exists msg : string,
       call_determine_resonator_outcome scenario_D stricter_r_squared
       = Raise (TypeError msg).
Proof.
  split; [reflexivity |]. split; [reflexivity |]. split; [reflexivity |].
  split; [| split; [reflexivity |]].
  - apply (call_overrides_eight_thresholds scenario_D stricter_snr). reflexivity.
  - apply (call_overrides_eight_thresholds scenario_D stricter_r_squared). reflexivity.
Defined.

(** * The extractor, the width check and the logger on concrete inputs *)

Lemma artifact_flag_inverted_witness :
  dict_get (Dataset.qubit example_fit) "q1" = Some complete_slice
  /\ QubitData.opx_bandwidth_artifact complete_slice = Some true
  /\ exists metrics : Metrics,
       _extract_qubit_fit_metrics example_fit example_fitters "q1" = Ok metrics
       /\ opx_bandwidth_artifact metrics = false.
Proof.
  split; [reflexivity |]. split; [reflexivity |].
  apply (artifact_flag_inverted example_fit example_fitters "q1" complete_slice
           example_fitter 1e7%float true); reflexivity.
Defined.



(** Over an empty sweep the reduction of the coordinate raises before the
    absent field is read. *)
Lemma empty_sweep_raises_before_missing_field :
  missing_fields slice_without_snr example_fitter = ["snr"]
  /\ exists e : py_exception,
       extract_sweep_span fit_of_empty_sweep = Raise e
       /\ _extract_qubit_fit_metrics fit_of_empty_sweep example_fitters "q2" = Raise e
       /\ exc_class e = "ValueError".
Proof.
  split; [reflexivity |]. eexists. split; [reflexivity |]. split; reflexivity.
Qed.



Lemma narrower_peak_is_successful_witness :
  reaches_rule_7 scenario_E SNR_MIN ASYMMETRY_MIN ASYMMETRY_MAX SKEWNESS_MAX = true
  /\ py_lt 1e5%float (PrimFloat.mul (sweep_span scenario_E) DISTORTED_FRACTION_HIGH_SNR) = true
  /\ py_lt 1e5%float FWHM_ABSOLUTE_THRESHOLD_HZ = true
  /\ _determine_resonator_outcome scenario_E SNR_MIN SNR_DISTORTED ASYMMETRY_MIN
       ASYMMETRY_MAX SKEWNESS_MAX DISTORTED_FRACTION_LOW_SNR DISTORTED_FRACTION_HIGH_SNR
       FWHM_ABSOLUTE_THRESHOLD_HZ
     = Ok outcome_distorted_peak
  /\ _determine_resonator_outcome (with_fwhm scenario_E 1e5%float) SNR_MIN
       SNR_DISTORTED ASYMMETRY_MIN ASYMMETRY_MAX SKEWNESS_MAX DISTORTED_FRACTION_LOW_SNR
       DISTORTED_FRACTION_HIGH_SNR FWHM_ABSOLUTE_THRESHOLD_HZ
     = Ok outcome_successful.
Proof.
  split; [reflexivity |]. split; [reflexivity |].
  split; [reflexivity |]. split; [reflexivity |].
  apply (narrower_peak_is_successful scenario_E SNR_MIN SNR_DISTORTED ASYMMETRY_MIN
           ASYMMETRY_MAX SKEWNESS_MAX DISTORTED_FRACTION_LOW_SNR
           DISTORTED_FRACTION_HIGH_SNR FWHM_ABSOLUTE_THRESHOLD_HZ 1e5%float);
    reflexivity.
Defined.

(** C9, as stated, fails: the emitted message has two spaces between the
    colon and [SUCCESS!], where the specification's line has one; and the
    numbers are scaled by a product, which does not always print as the
    quotient does. *)
Lemma logged_message_has_two_spaces :
  log_fitted_results example_results
  = [ "Results for qubit q1:  SUCCESS!" ++ newline ++ tab
      ++ "Resonator frequency: 5.000 GHz | FWHM: 1000.0 kHz | ";
      "Results for qubit q2:  FAIL! Reason: unknown" ++ newline ++ tab
      ++ "Resonator frequency: 0.000 GHz | FWHM: 250.0 kHz | " ]
  /\ spec_log_message "q1" "successful" 5e9%float 1e6%float
     = "Results for qubit q1: SUCCESS!" ++ newline ++ tab
       ++ "Resonator frequency: 5.000 GHz | FWHM: 1000.0 kHz | "
  /\ hd_error (log_fitted_results example_results)
     <> Some (spec_log_message "q1" "successful" 5e9%float 1e6%float)
  /\ float_format 3 (PrimFloat.mul 4.5e6%float 1e-9%float) = "0.005"
  /\ float_format 3 (PrimFloat.div 4.5e6%float 1e9%float) = "0.004".
Proof.
  split; [vm_compute; reflexivity |]. split; [vm_compute; reflexivity |].
  split; [| split; vm_compute; reflexivity].
  vm_compute. intros Heq. discriminate Heq.
Qed.

(** * The further properties on concrete inputs *)

Lemma nan_metrics_pass_witness :
  PrimFloat.is_nan (snr scenario_nan) = true
  /\ _determine_resonator_outcome scenario_nan SNR_MIN SNR_DISTORTED ASYMMETRY_MIN
       ASYMMETRY_MAX SKEWNESS_MAX DISTORTED_FRACTION_LOW_SNR DISTORTED_FRACTION_HIGH_SNR
       FWHM_ABSOLUTE_THRESHOLD_HZ
     = Ok "successful".
Proof.
  split; [reflexivity |].
  apply (nan_metrics_pass scenario_nan); reflexivity.
Defined.

Lemma looser_thresholds_keep_success_witness :
  _determine_resonator_outcome scenario_plain 5%float SNR_DISTORTED 0.5%float 2%float
    1%float 0.1%float 0.2%float 5e5%float
  = Ok "successful"
  /\ _determine_resonator_outcome scenario_plain SNR_MIN SNR_DISTORTED ASYMMETRY_MIN
       ASYMMETRY_MAX SKEWNESS_MAX DISTORTED_FRACTION_LOW_SNR DISTORTED_FRACTION_HIGH_SNR
       FWHM_ABSOLUTE_THRESHOLD_HZ
     = Ok "successful".
Proof.
  split; [reflexivity |].
  apply (looser_thresholds_keep_success scenario_plain 5%float SNR_DISTORTED 0.5%float
           2%float 1%float 0.1%float 0.2%float 5e5%float); reflexivity.
Defined.

Lemma shape_window_is_closed_witness :
  _is_peak_shape_distorted (Some 0.4%float) (Some (-1.5)%float)
    ASYMMETRY_MIN ASYMMETRY_MAX SKEWNESS_MAX = false
  /\ _is_peak_shape_distorted (Some 1%float) (Some 0%float) 2%float 0.5%float 1.5%float
     = true.
Proof.
  split.
  - rewrite (proj1 (shape_window_is_closed 0.4%float (-1.5)%float ASYMMETRY_MIN
                      ASYMMETRY_MAX SKEWNESS_MAX eq_refl eq_refl eq_refl eq_refl eq_refl)).
    reflexivity.
  - apply (shape_window_is_closed 1%float 0%float 2%float 0.5%float 1.5%float);
      reflexivity.
Defined.

Lemma wider_peak_stays_too_wide_witness :
  _determine_resonator_outcome scenario_E SNR_MIN SNR_DISTORTED ASYMMETRY_MIN
    ASYMMETRY_MAX SKEWNESS_MAX DISTORTED_FRACTION_LOW_SNR DISTORTED_FRACTION_HIGH_SNR
    FWHM_ABSOLUTE_THRESHOLD_HZ
  = Ok outcome_distorted_peak
  /\ _determine_resonator_outcome (with_fwhm scenario_E 3e6%float) SNR_MIN SNR_DISTORTED
       ASYMMETRY_MIN ASYMMETRY_MAX SKEWNESS_MAX DISTORTED_FRACTION_LOW_SNR
       DISTORTED_FRACTION_HIGH_SNR FWHM_ABSOLUTE_THRESHOLD_HZ
     = _determine_resonator_outcome scenario_E SNR_MIN SNR_DISTORTED ASYMMETRY_MIN
         ASYMMETRY_MAX SKEWNESS_MAX DISTORTED_FRACTION_LOW_SNR
         DISTORTED_FRACTION_HIGH_SNR FWHM_ABSOLUTE_THRESHOLD_HZ.
Proof.
  split; [reflexivity |].
  apply (wider_peak_stays_too_wide scenario_E SNR_MIN SNR_DISTORTED ASYMMETRY_MIN
           ASYMMETRY_MAX SKEWNESS_MAX DISTORTED_FRACTION_LOW_SNR
           DISTORTED_FRACTION_HIGH_SNR FWHM_ABSOLUTE_THRESHOLD_HZ 3e6%float);
    [reflexivity | reflexivity | right; reflexivity].
Defined.

Lemma returned_record_reads_slice_and_fitter_witness :
  exists metrics : Metrics,
    _extract_qubit_fit_metrics example_fit example_fitters "q1" = Ok metrics
    /\ exists (qubit_data : QubitData.t) (fitter : S21Resonator.t),
         dict_get (Dataset.qubit example_fit) "q1" = Some qubit_data
         /\ dict_get example_fitters "q1" = Some fitter
         /\ extract_sweep_span example_fit = Ok (sweep_span metrics)
         /\ missing_fields qubit_data fitter = []
         /\ QubitData.num_peaks qubit_data = Some (num_peaks metrics)
         /\ QubitData.snr qubit_data = Some (snr metrics)
         /\ QubitData.fwhm qubit_data = Some (fwhm metrics)
         /\ QubitData.asymmetry qubit_data = Some (asymmetry metrics)
         /\ QubitData.skewness qubit_data = Some (skewness metrics)
         /\ QubitData.opx_bandwidth_artifact qubit_data
            = Some (negb (opx_bandwidth_artifact metrics))
         /\ dict_get (S21Resonator.quality_metrics fitter) "nrmse" = Some (nrmse metrics)
         /\ dict_get (S21Resonator.quality_metrics fitter) "r_squared"
            = Some (r_squared metrics).
Proof.
  eexists. split; [reflexivity |].
  apply (returned_record_reads_slice_and_fitter example_fit example_fitters "q1").
  reflexivity.
Defined.

Lemma unknown_qubit_is_key_error_witness :
  dict_get (Dataset.qubit example_fit) "q9" = None
  /\ exists e : py_exception,
       _extract_qubit_fit_metrics example_fit example_fitters "q9" = Raise e
       /\ exc_class e = "KeyError".
Proof.
  split; [reflexivity |].
  apply (unknown_qubit_is_key_error example_fit example_fitters "q9").
  left. reflexivity.
Defined.

Lemma no_sweep_dimension_disables_relative_width_witness :
  exists metrics : Metrics,
    _extract_qubit_fit_metrics fit_without_sweep example_fitters "q1" = Ok metrics
    /\ sweep_span metrics = 0.0%float
    /\ _is_peak_too_wide (fwhm metrics) (sweep_span metrics) (snr metrics) SNR_DISTORTED
         DISTORTED_FRACTION_LOW_SNR DISTORTED_FRACTION_HIGH_SNR FWHM_ABSOLUTE_THRESHOLD_HZ
       = Ok (py_gt (fwhm metrics) FWHM_ABSOLUTE_THRESHOLD_HZ).
Proof.
  eexists. split; [reflexivity |].
  apply (no_sweep_dimension_disables_relative_width fit_without_sweep example_fitters "q1");
    reflexivity.
Defined.

Lemma one_frequency_sweep_has_zero_span_witness :
  exists metrics : Metrics,
    _extract_qubit_fit_metrics fit_of_one_frequency example_fitters "q1" = Ok metrics
    /\ py_eq (sweep_span metrics) 0%float = true
    /\ _is_peak_too_wide (fwhm metrics) (sweep_span metrics) (snr metrics) SNR_DISTORTED
         DISTORTED_FRACTION_LOW_SNR DISTORTED_FRACTION_HIGH_SNR FWHM_ABSOLUTE_THRESHOLD_HZ
       = Ok (py_gt (fwhm metrics) FWHM_ABSOLUTE_THRESHOLD_HZ).
Proof.
  eexists. split; [reflexivity |].
  apply (one_frequency_sweep_has_zero_span fit_of_one_frequency example_fitters "q1" _
           5e6%float []); [reflexivity | reflexivity | constructor | reflexivity | reflexivity].
Defined.

Lemma clean_raw_flag_is_reported_as_artifact_witness :
  exists metrics : Metrics,
    _extract_qubit_fit_metrics example_fit example_fitters "q3" = Ok metrics
    /\ QubitData.opx_bandwidth_artifact noisy_slice = Some false
    /\ _determine_resonator_outcome metrics 1%float SNR_DISTORTED ASYMMETRY_MIN
         ASYMMETRY_MAX SKEWNESS_MAX DISTORTED_FRACTION_LOW_SNR
         DISTORTED_FRACTION_HIGH_SNR FWHM_ABSOLUTE_THRESHOLD_HZ
       = Ok outcome_artifact.
Proof.
  eexists. split; [reflexivity |]. split; [reflexivity |].
  apply (clean_raw_flag_is_reported_as_artifact example_fit example_fitters "q3"
           noisy_slice false); reflexivity.
Defined.

Lemma resonator_parameters_go_by_position_witness :
  exists (fit' : FitDataset.t) (slice : FitSlice.t),
    _calculate_resonator_parameters example_circle_fit tt example_peaks tt
    = Ok (fit', example_fitters)
    /\ nth_error (FitDataset.qubit fit') 0 = Some ("q1", slice)
    /\ FitSlice.res_freq slice = Some 5.1e9%float
    /\ exists fit_results,
         example_circle_fit tt = Ok (fit_results, example_fitters)
         /\ nth_error (map fst fit_results) 0 = Some "q3".
Proof.
  eexists. eexists. split; [reflexivity |]. split; [reflexivity |]. split; [reflexivity |].
  destruct (resonator_parameters_go_by_position unit unit example_circle_fit tt
              example_peaks tt _ _ eq_refl) as (fit_results & Hfit & _).
  exists fit_results. split; [exact Hfit |].
  injection Hfit as <-. reflexivity.
Defined.

Lemma unequal_sizes_raise_value_error_witness :
  length (FitDataset.qubit example_peaks) = 2%nat
  /\ exists e : py_exception,
       _calculate_resonator_parameters short_circle_fit tt example_peaks tt = Raise e
       /\ _extract_and_validate_fit_parameters short_circle_fit tt example_peaks tt
          = Raise e
       /\ exc_class e = "ValueError".
Proof.
  split; [reflexivity |].
  apply (unequal_sizes_raise_value_error unit unit short_circle_fit tt example_peaks tt
           _ _ eq_refl).
  - intros key entry. unfold dict_get. destruct (String.eqb "q1" key); [| discriminate].
    intros Hentry. injection Hentry as <-. eexists. reflexivity.
  - discriminate.
Defined.

Lemma validation_is_all_or_nothing_witness :
  exists (fit1 : FitDataset.t) (fitters : list (string * S21Resonator.t)),
    _calculate_resonator_parameters example_circle_fit tt example_peaks tt
    = Ok (fit1, fitters)
    /\ ((exists validated,
           _extract_and_validate_fit_parameters example_circle_fit tt example_peaks tt
           = Ok validated)
        <-> (forall name, In name (qubit_values fit1) ->
               exists metrics,
                 _extract_qubit_fit_metrics (dataset_of fit1) fitters name = Ok metrics)).
Proof.
  eexists. eexists. split; [reflexivity |].
  apply (validation_is_all_or_nothing unit unit example_circle_fit tt example_peaks tt).
  reflexivity.
Defined.

Lemma example_peaks_distinct : NoDup (qubit_values example_peaks).
Proof.
  repeat constructor; cbn; intuition discriminate.
Defined.

Lemma validated_results_agree_witness :
  exists (fit' : FitDataset.t) (results : list (string * FitParameters.t)),
    _extract_and_validate_fit_parameters example_circle_fit tt example_peaks tt
    = Ok (fit', results)
    /\ map fst results = ["q1"; "q3"]
    /\ map (fun item => FitSlice.outcome (snd item)) (FitDataset.qubit fit')
       = map (fun item => Some (FitParameters.outcome (snd item))) results.
Proof.
  eexists. eexists. split; [reflexivity |].
  split; [| reflexivity].
  apply (validated_results_agree unit unit example_circle_fit tt example_peaks tt _ _
           example_peaks_distinct eq_refl).
Defined.

Lemma fitted_results_are_logged_in_order_witness :
  exists (fit' : FitDataset.t) (results : list (string * FitParameters.t)),
    fit_raw_data example_circle_fit example_IQ_abs example_peaks_dips tt tt
    = Ok (fit', results)
    /\ length (log_fitted_results
                 (map (fun item => (fst item, Structured (snd item))) results))
       = length (FitDataset.qubit fit').
Proof.
  eexists. eexists. split; [reflexivity |].
  refine (proj1 (fitted_results_are_logged_in_order unit unit unit example_circle_fit
                   example_IQ_abs example_peaks_dips tt tt _ _ _ _));
    [repeat constructor; cbn; intuition discriminate | reflexivity].
Defined.

Lemma nan_values_are_logged_as_nan_witness :
  In ("Results for qubit q7:  FAIL! Reason: " ++ outcome_no_peaks ++ newline ++ tab
      ++ "Resonator frequency: nan GHz | FWHM: nan kHz | ")
     (log_fitted_results [("q7", Structured nan_result)]).
Proof.
  apply (nan_values_are_logged_as_nan [("q7", Structured nan_result)] "q7" nan_result);
    [left; reflexivity | reflexivity | reflexivity].
Defined.

Lemma wider_sweep_keeps_narrow_peak_witness :
  _is_peak_too_wide 1e5%float 1e6%float 10%float SNR_DISTORTED DISTORTED_FRACTION_LOW_SNR
    DISTORTED_FRACTION_HIGH_SNR FWHM_ABSOLUTE_THRESHOLD_HZ
  = Ok false
  /\ _is_peak_too_wide 1e5%float 1e8%float 10%float SNR_DISTORTED
       DISTORTED_FRACTION_LOW_SNR DISTORTED_FRACTION_HIGH_SNR FWHM_ABSOLUTE_THRESHOLD_HZ
     = Ok false.
Proof.
  split; [reflexivity |].
  apply (wider_sweep_keeps_narrow_peak 1e5%float 1e6%float 1e8%float); reflexivity.
Defined.
